(** * dm: the engine's configuration bootstrap, logger activation and run loop

    A shallow embedding of [dm/engine.py] (class [Engine]) together with the
    parts of its environment the class talks to: a file system, the
    [configparser.ConfigParser] of the Python standard library, the helpers
    of [utility.base_util] and the constants of [dm.dm_constants].

    Conventions.
    - Python [str] values are Rocq strings (sequences of 8-bit characters);
      case mapping and white space are those of the ASCII range.
    - The platform is POSIX: [os.sep] is ["/"] and text files are written
      with ["\n"] line ends.
    - Effects are threaded through a state-and-exception monad [M] over a
      [world] (file system, trace of file operations, log output, terminal). *)

From Stdlib Require Import ZArith String Ascii List Bool.
From stdpp Require Import base option strings gmap.

Local Open Scope string_scope.
Local Open Scope Z_scope.

(** ** Python string primitives *)

Module Py.

(** [str.isspace] on one character of the ASCII range:
    TAB, LF, VT, FF, CR, FS, GS, RS, US and SPACE. *)
Definition isspace (c : ascii) : bool :=
  let n := N_of_ascii c in
  ((9 <=? n)%N && (n <=? 13)%N) || ((28 <=? n)%N && (n <=? 32)%N).

Definition lower_char (c : ascii) : ascii :=
  let n := N_of_ascii c in
  if ((65 <=? n)%N && (n <=? 90)%N)%bool then ascii_of_N (n + 32) else c.

(** [s.lower()] *)
Fixpoint lower (s : string) : string :=
  match s with
  | EmptyString => EmptyString
  | String c s' => String (lower_char c) (lower s')
  end.

(** [s.lstrip()] *)
Fixpoint lstrip (s : string) : string :=
  match s with
  | EmptyString => EmptyString
  | String c s' => if isspace c then lstrip s' else s
  end.

(** [s.rstrip()] *)
Fixpoint rstrip (s : string) : string :=
  match s with
  | EmptyString => EmptyString
  | String c s' =>
      match rstrip s' with
      | EmptyString => if isspace c then EmptyString else String c EmptyString
      | r => String c r
      end
  end.

(** [s.strip()] *)
Definition strip (s : string) : string := lstrip (rstrip s).

(** [s.startswith(p)] *)
Fixpoint startswith (p s : string) : bool :=
  match p, s with
  | EmptyString, _ => true
  | String a p', String b s' => if Ascii.eqb a b then startswith p' s' else false
  | String _ _, EmptyString => false
  end.

(** [s.rfind(sub)]: the highest index at which [sub] starts, or [-1]. *)
Fixpoint rfind_from (i : Z) (s sub : string) : Z :=
  match s with
  | EmptyString => if startswith sub EmptyString then i else -1
  | String _ s' =>
      let r := rfind_from (i + 1) s' sub in
      if 0 <=? r then r else if startswith sub s then i else -1
  end.

Definition rfind (s sub : string) : Z := rfind_from 0 s sub.

(** [s.find(sub)]: the lowest index at which [sub] starts, or [-1]. *)
Fixpoint find_from (i : Z) (s sub : string) : Z :=
  if startswith sub s then i
  else match s with
       | EmptyString => -1
       | String _ s' => find_from (i + 1) s' sub
       end.

Definition find (s sub : string) : Z := find_from 0 s sub.

(** [sub in s] *)
Definition contains (s sub : string) : bool := 0 <=? find s sub.

Definition len (s : string) : Z := Z.of_nat (String.length s).

(** The bound of a slice: negative indices count from the end, and the
    result is clamped to [0 .. len s]. *)
Definition clamp (s : string) (k : Z) : nat :=
  Z.to_nat (if k <? 0 then Z.max 0 (k + len s) else Z.min k (len s)).

(** [s[:k]] *)
Definition slice_to (s : string) (k : Z) : string :=
  String.substring 0 (clamp s k) s.

(** [sepr.join(l)] *)
Fixpoint join (sepr : string) (l : list string) : string :=
  match l with
  | [] => EmptyString
  | [x] => x
  | x :: l' => x ++ sepr ++ join sepr l'
  end.

(** [s.replace("\n", r)] *)
Fixpoint replace_newline (r s : string) : string :=
  match s with
  | EmptyString => EmptyString
  | String c s' =>
      if Ascii.eqb c "010" then r ++ replace_newline r s'
      else String c (replace_newline r s')
  end.

(** The lines a text-mode file object yields, without their terminators.
    Universal newlines: ["\r\n"], ["\r"] and ["\n"] each end a line; a
    last line without terminator is yielded when it is not empty. *)
Fixpoint lines_acc (acc : string) (s : string) : list string :=
  match s with
  | EmptyString => if String.eqb acc EmptyString then [] else [acc]
  | String c s' =>
      if Ascii.eqb c "010" then acc :: lines_acc EmptyString s'
      else if Ascii.eqb c "013" then
        match s' with
        | String c' s'' =>
            if Ascii.eqb c' "010" then acc :: lines_acc EmptyString s''
            else acc :: lines_acc EmptyString s'
        | EmptyString => [acc]
        end
      else lines_acc (acc ++ String c EmptyString) s'
  end.

Definition lines (s : string) : list string := lines_acc EmptyString s.

End Py.

(** ** Exceptions and results *)

Inductive exn : Type :=
  | EnableLoggerTypeError                       (* dm.dm_exception *)
  | EnableLoggerValueError                      (* dm.dm_exception *)
  | TypeError
  | ValueError
  | KeyError (key : string)
  | AttributeError
  | IndexError
  | OSError (path : string)
  | EOFError
  | SystemExit (message : string)
  | NoSectionError (section : string)
  | NoOptionError (option section : string)
  | MissingSectionHeaderError
  | DuplicateSectionError (section : string)
  | DuplicateOptionError (section option : string)
  | ParsingError
  | InterpolationSyntaxError
  | InterpolationMissingOptionError (var : string)
  | InterpolationDepthError.

(** The outcome of a pure computation that may raise. *)
Inductive res (A : Type) : Type :=
  | Raise (e : exn)
  | Ok (a : A).
Arguments Raise {A} e.
Arguments Ok {A} a.

#[global] Instance res_ret : MRet res := fun A a => Ok a.
#[global] Instance res_bind : MBind res := fun A B f r =>
  match r with
  | Raise e => Raise e
  | Ok a => f a
  end.

(** ** [dict] with string keys, in insertion order *)

Module Dict.
Section dict.
Context {V : Type}.

Fixpoint get (k : string) (d : list (string * V)) : option V :=
  match d with
  | [] => None
  | (k', v) :: d' => if String.eqb k k' then Some v else get k d'
  end.

Definition mem (k : string) (d : list (string * V)) : bool :=
  match get k d with Some _ => true | None => false end.

(** [d[k] = v]: an existing key keeps its position, a new one goes last. *)
Fixpoint set (k : string) (v : V) (d : list (string * V)) : list (string * V) :=
  match d with
  | [] => [(k, v)]
  | (k', v') :: d' =>
      if String.eqb k k' then (k', v) :: d' else (k', v') :: set k v d'
  end.
End dict.
End Dict.

(** ** The world: file system, terminal, clock and log output *)

Inductive node : Type :=
  | Dir
  | File (content : string).

(** File-system operations, in the order they are performed. *)
Inductive io_event : Type :=
  | IoProbe (path : string)
  | IoMkdir (path : string)
  | IoCreate (path : string)
  | IoStat (path : string)
  | IoRead (path : string)
  | IoWrite (path : string).

(** [logging.DEBUG] and [logging.INFO] *)
Inductive level : Type :=
  | DEBUG
  | INFO.

Definition level_no (l : level) : Z :=
  match l with
  | DEBUG => 10
  | INFO => 20
  end.

(** The logger handle: the configuration it was set up with. *)
Record Logger : Type := MkLogger {
  lg_fpath : string;
  lg_fname : string;
  lg_level : level;
  lg_stdio : bool;
  lg_fileio : bool
}.

Record world : Type := World {
  files : gmap string node;      (* path -> directory or file content *)
  io : list io_event;            (* file operations so far, oldest first *)
  today : string;                (* str(datetime.now().date()) *)
  logged : list (Logger * level * string);   (* records handed to a logger's sinks *)
  stdin : list string;           (* lines still to be read, without line end *)
  stdout : list string;          (* what was printed *)
  interrupts : nat               (* KeyboardInterrupts still to be delivered *)
}.

(** What a call does: return, raise, or never return (a busy loop that no
    interrupt ends). *)
Inductive outcome (A : Type) : Type :=
  | Ret (a : A)
  | Exc (e : exn)
  | Spin.
Arguments Ret {A} a.
Arguments Exc {A} e.
Arguments Spin {A}.

Definition M (A : Type) : Type := world -> outcome A * world.

#[global] Instance M_ret : MRet M := fun A a w => (Ret a, w).
#[global] Instance M_bind : MBind M := fun A B f m w =>
  match m w with
  | (Ret a, w') => f a w'
  | (Exc e, w') => (Exc e, w')
  | (Spin, w') => (Spin, w')
  end.

Definition raise {A : Type} (e : exn) : M A := fun w => (Exc e, w).

(** A pure computation that may raise, run inside [M]. *)
Definition lift {A : Type} (r : res A) : M A :=
  match r with
  | Ok a => mret a
  | Raise e => raise e
  end.

Definition set_files (f : gmap string node) (w : world) : world :=
  World f (io w) (today w) (logged w) (stdin w) (stdout w) (interrupts w).

Definition trace (ev : io_event) : M unit := fun w =>
  (Ret tt, World (files w) (io w ++ [ev]) (today w) (logged w) (stdin w)
             (stdout w) (interrupts w)).

Definition node_at (path : string) : M (option node) := fun w =>
  (Ret (files w !! path), w).

Definition put_node (path : string) (n : node) : M unit := fun w =>
  (Ret tt, set_files (<[path := n]> (files w)) w).

(** [os.stat(path).st_size]: the length of a file; a directory has a size
    that is not zero. *)
Definition stat_size (path : string) : M Z :=
  trace (IoStat path);;
  n ← node_at path;
  match n with
  | Some (File content) => mret (Py.len content)
  | Some Dir => mret 4096
  | None => raise (OSError path)
  end.

(** [with open(path, "w") as f: f.write(text)] *)
Definition open_write (path text : string) : M unit :=
  trace (IoWrite path);;
  n ← node_at path;
  match n with
  | Some Dir => raise (OSError path)
  | _ => put_node path (File text)
  end.

(** [input(prompt)] *)
Definition input (prompt : string) : M string := fun w =>
  let out := (stdout w ++ [prompt])%list in
  match stdin w with
  | [] =>
      (Exc EOFError,
       World (files w) (io w) (today w) (logged w) [] out (interrupts w))
  | line :: rest =>
      (Ret line,
       World (files w) (io w) (today w) (logged w) rest out (interrupts w))
  end.

(** [datetime.now().date()], formatted *)
Definition now_date : M string := fun w => (Ret (today w), w).

(** [while True: pass] under [try ... except KeyboardInterrupt]: the loop
    ends when an interrupt is delivered, and never otherwise. *)
Definition wait_for_interrupt : M unit := fun w =>
  match interrupts w with
  | O => (Spin, w)
  | S n =>
      (Ret tt, World (files w) (io w) (today w) (logged w) (stdin w) (stdout w) n)
  end.

(** ** [configparser.ConfigParser]

    The parser of the standard library with the settings [ConfigParser()]
    gives it: delimiters [=] and [:], full-line comment prefixes [#] and [;],
    no inline comments, [strict], [empty_lines_in_values], section
    [DEFAULT] as the fallback section and [BasicInterpolation]. Only the
    methods the engine calls are embedded: construction, [read],
    [cparser[s] = {}], [cparser[s][o] = v], [cparser[s][o]] and [write].
    The embedding follows [Lib/configparser.py] of CPython 3.11. *)

Module ConfigParser.

Definition DEFAULTSECT : string := "DEFAULT".
Definition MAX_INTERPOLATION_DEPTH : nat := 10.

Definition options : Type := list (string * string).

Record t : Type := Parser {
  _defaults : options;
  _sections : list (string * options)
}.

(** [ConfigParser()] *)
Definition new : t := Parser [] [].

Definition optionxform (optionstr : string) : string := Py.lower optionstr.

Definition streq (a b : string) : bool := String.eqb a b.

(** *** Reading *)

(** While a file is read, a value set by the file is the list of its
    lines; the values the parser already held stay strings. *)
Inductive value : Type :=
  | Str (s : string)
  | Lines (l : list string).

(** [cursect] aliases one of the parser's dictionaries. *)
Inductive cursor : Type :=
  | InDefaults
  | InSection (name : string).

Record rstate : Type := RState {
  r_defaults : list (string * value);
  r_sections : list (string * list (string * value));
  cursect : option cursor;
  sectname : option string;
  optname : option string;
  indent_level : nat;
  elements_added : list (string * option string);
  e : bool
}.

Definition cur_update (f : list (string * value) -> list (string * value))
    (st : rstate) : rstate :=
  match cursect st with
  | None => st
  | Some InDefaults =>
      RState (f (r_defaults st)) (r_sections st) (cursect st) (sectname st)
        (optname st) (indent_level st) (elements_added st) (e st)
  | Some (InSection n) =>
      match Dict.get n (r_sections st) with
      | Some o =>
          RState (r_defaults st) (Dict.set n (f o) (r_sections st)) (cursect st)
            (sectname st) (optname st) (indent_level st) (elements_added st) (e st)
      | None => st
      end
  end.

(** [cursect[optname].append(v)] *)
Definition append_line (opt v : string) (st : rstate) : rstate :=
  cur_update (fun o =>
    match Dict.get opt o with
    | Some (Lines l) => Dict.set opt (Lines (l ++ [v])) o
    | _ => o
    end) st.

(** The truth value of [optname]: neither [None] nor empty. *)
Definition opt_truthy (o : option string) : option string :=
  match o with
  | Some s => if streq s EmptyString then None else Some s
  | None => None
  end.

(** [SECTCRE.match(value)]: an opening bracket, a non-empty header and a
    closing bracket; the header group is greedy, so it runs up to the
    last closing bracket of the line. *)
Definition match_section (value : string) : option string :=
  match value with
  | String "[" rest =>
      let j := Py.rfind rest "]" in
      if 1 <=? j then Some (Py.slice_to rest j) else None
  | _ => None
  end.

Definition is_delim (c : ascii) : bool := Ascii.eqb c "=" || Ascii.eqb c ":".

Fixpoint split_delim (s : string) : option (string * string) :=
  match s with
  | EmptyString => None
  | String c s' =>
      if is_delim c then Some (EmptyString, s')
      else match split_delim s' with
           | Some (a, b) => Some (String c a, b)
           | None => None
           end
  end.

(** [_optcre.match(value)]: the pattern is a shortest [option] group,
    optional white space, the first delimiter, optional white space and
    the rest of the line as the [value] group. *)
Definition match_option (value : string) : option (string * string) :=
  match split_delim value with
  | Some (a, b) => Some (Py.rstrip a, Py.lstrip b)
  | None => None
  end.

(** [NONSPACECRE.search(line).start()] *)
Fixpoint first_nonspace (line : string) : nat :=
  match line with
  | EmptyString => 0%nat
  | String c s' => if Py.isspace c then S (first_nonspace s') else 0%nat
  end.

Definition added (x : string * option string)
    (l : list (string * option string)) : bool :=
  existsb (fun y =>
    streq (fst x) (fst y) &&
    match snd x, snd y with
    | None, None => true
    | Some a, Some b => streq a b
    | _, _ => false
    end) l.

(** The section-header branch of [_read]. *)
Definition read_header (name : string) (st : rstate) : res rstate :=
  if Dict.mem name (r_sections st) then
    if added (name, None) (elements_added st) then Raise (DuplicateSectionError name)
    else Ok (RState (r_defaults st) (r_sections st) (Some (InSection name))
               (Some name) None (indent_level st)
               ((name, None) :: elements_added st) (e st))
  else if streq name DEFAULTSECT then
    Ok (RState (r_defaults st) (r_sections st) (Some InDefaults)
          (Some name) None (indent_level st) (elements_added st) (e st))
  else
    Ok (RState (r_defaults st) (r_sections st ++ [(name, [])])
          (Some (InSection name)) (Some name) None (indent_level st)
          ((name, None) :: elements_added st) (e st)).

(** The option branch of [_read]. *)
Definition read_option (opt optval : string) (st : rstate) : res rstate :=
  let err := e st || streq opt EmptyString in
  let opt := optionxform (Py.rstrip opt) in
  let sect := default EmptyString (sectname st) in
  if added (sect, Some opt) (elements_added st) then
    Raise (DuplicateOptionError sect opt)
  else
    Ok (cur_update (Dict.set opt (Lines [Py.strip optval]))
          (RState (r_defaults st) (r_sections st) (cursect st) (sectname st)
             (Some opt) (indent_level st)
             ((sect, Some opt) :: elements_added st) err)).

(** One turn of the loop of [_read]. *)
Definition read_line (st : rstate) (line : string) : res rstate :=
  let stripped := Py.strip line in
  let comment := Py.startswith "#" stripped || Py.startswith ";" stripped in
  let value := if comment then EmptyString else stripped in
  if streq value EmptyString then
    match cursect st, opt_truthy (optname st) with
    | Some _, Some opt => Ok (if comment then st else append_line opt EmptyString st)
    | _, _ => Ok st
    end
  else
    let cur_indent_level := first_nonspace line in
    match cursect st, opt_truthy (optname st),
          (indent_level st <? cur_indent_level)%nat with
    | Some _, Some opt, true => Ok (append_line opt value st)
    | _, _, _ =>
        let st := RState (r_defaults st) (r_sections st) (cursect st) (sectname st)
                    (optname st) cur_indent_level (elements_added st) (e st) in
        match match_section value with
        | Some name => read_header name st
        | None =>
            match cursect st with
            | None => Raise MissingSectionHeaderError
            | Some _ =>
                match match_option value with
                | Some (opt, optval) => read_option opt optval st
                | None =>
                    Ok (RState (r_defaults st) (r_sections st) (cursect st)
                          (sectname st) (optname st) (indent_level st)
                          (elements_added st) true)
                end
            end
        end
    end.

Fixpoint read_lines (st : rstate) (ls : list string) : res rstate :=
  match ls with
  | [] => Ok st
  | line :: ls' => st' ← read_line st line; read_lines st' ls'
  end.

(** [_join_multiline_values] *)
Definition join_value (v : value) : string :=
  match v with
  | Str s => s
  | Lines l => Py.rstrip (Py.join (String "010" EmptyString) l)
  end.

Definition join_options (o : list (string * value)) : options :=
  map (fun kv => (fst kv, join_value (snd kv))) o.

Definition wrap_options (o : options) : list (string * value) :=
  map (fun kv => (fst kv, Str (snd kv))) o.

(** [_read(fp, fpname)] on the text of the file. *)
Definition _read (cp : t) (text : string) : res t :=
  st ← read_lines
         (RState (wrap_options (_defaults cp))
            (map (fun so => (fst so, wrap_options (snd so))) (_sections cp))
            None None None 0%nat [] false)
         (Py.lines text);
  if e st then Raise ParsingError
  else Ok (Parser (join_options (r_defaults st))
             (map (fun so => (fst so, join_options (snd so))) (r_sections st))).

(** *** Interpolation ([BasicInterpolation]) *)

Fixpoint until_paren (s : string) : option (string * string) :=
  match s with
  | EmptyString => None
  | String c s' =>
      if Ascii.eqb c ")" then Some (EmptyString, s')
      else match until_paren s' with
           | Some (a, b) => Some (String c a, b)
           | None => None
           end
  end.

(** [_KEYCRE.match(rest)]: a percent sign, a non-empty name in
    parentheses and the letter s. Returns the name and what follows. *)
Definition match_key (rest : string) : option (string * string) :=
  match rest with
  | String "%" (String "(" r) =>
      match until_paren r with
      | Some (String c name, String "s" tail) => Some (String c name, tail)
      | _ => None
      end
  | _ => None
  end.

(** [map[var]] on [ChainMap(sectiondict, defaults)] *)
Definition chain_get (var : string) (sectiondict defaults : options) : option string :=
  match Dict.get var sectiondict with
  | Some v => Some v
  | None => Dict.get var defaults
  end.

(** [_interpolate_some]: [depth] counts the nesting levels still allowed,
    [n] bounds the turns of the loop over [rest]. *)
Fixpoint interpolate_some (depth : nat) (sectiondict defaults : options)
    (rest : string) : res string :=
  match depth with
  | O => Raise InterpolationDepthError
  | S depth' =>
      (fix loop (n : nat) (rest : string) {struct n} : res string :=
         match n, rest with
         | _, EmptyString => Ok EmptyString
         | O, _ => Ok EmptyString
         | S n', String "%" (String "%" rest') =>
             tl ← loop n' rest'; Ok (String "%" tl)
         | S n', String "%" (String "(" _) =>
             match match_key rest with
             | None => Raise InterpolationSyntaxError
             | Some (name, rest') =>
                 let var := optionxform name in
                 match chain_get var sectiondict defaults with
                 | None => Raise (InterpolationMissingOptionError var)
                 | Some v =>
                     s ← (if Py.contains v "%"
                          then interpolate_some depth' sectiondict defaults v
                          else Ok v);
                     tl ← loop n' rest'; Ok (s ++ tl)
                 end
             end
         | S n', String "%" _ => Raise InterpolationSyntaxError
         | S n', String c rest' => tl ← loop n' rest'; Ok (String c tl)
         end) (S (String.length rest)) rest
  end.

(** [before_get] *)
Definition before_get (value : string) (sectiondict defaults : options) : res string :=
  interpolate_some MAX_INTERPOLATION_DEPTH sectiondict defaults value.

(** [value.replace] of every escaped percent sign by nothing *)
Fixpoint drop_escaped (s : string) : string :=
  match s with
  | String "%" (String "%" s') => drop_escaped s'
  | String c s' => String c (drop_escaped s')
  | EmptyString => EmptyString
  end.

(** [_KEYCRE.sub]: every match is deleted *)
Fixpoint drop_keys (n : nat) (s : string) : string :=
  match n, s with
  | _, EmptyString => EmptyString
  | O, _ => s
  | S n', String c s' =>
      match match_key s with
      | Some (_, tail) => drop_keys n' tail
      | None => String c (drop_keys n' s')
      end
  end.

(** [before_set] *)
Definition before_set (value : string) : res string :=
  let tmp_value := drop_escaped value in
  let tmp_value := drop_keys (String.length tmp_value) tmp_value in
  if Py.contains tmp_value "%" then Raise ValueError else Ok value.

(** *** The mapping protocol *)

Definition has_section (cp : t) (section : string) : bool :=
  Dict.mem section (_sections cp).

Definition has_option (cp : t) (section option : string) : bool :=
  if streq section EmptyString || streq section DEFAULTSECT then
    Dict.mem (optionxform option) (_defaults cp)
  else
    match Dict.get section (_sections cp) with
    | None => false
    | Some o =>
        Dict.mem (optionxform option) o || Dict.mem (optionxform option) (_defaults cp)
    end.

(** [get(section, option)] *)
Definition get (cp : t) (section option : string) : res string :=
  sectiondict ←
    match Dict.get section (_sections cp) with
    | Some o => Ok o
    | None =>
        if streq section DEFAULTSECT then Ok [] else Raise (NoSectionError section)
    end;
  let option := optionxform option in
  match chain_get option sectiondict (_defaults cp) with
  | None => Raise (NoOptionError option section)
  | Some value => before_get value sectiondict (_defaults cp)
  end.

(** [cparser[section][option]] *)
Definition getitem (cp : t) (section option : string) : res string :=
  if negb (streq section DEFAULTSECT) && negb (has_section cp section) then
    Raise (KeyError section)
  else if negb (has_option cp section option) then Raise (KeyError option)
  else get cp section option.

(** [set(section, option, value)] *)
Definition set (cp : t) (section option value : string) : res t :=
  value ← (if streq value EmptyString then Ok value else before_set value);
  if streq section EmptyString || streq section DEFAULTSECT then
    Ok (Parser (Dict.set (optionxform option) value (_defaults cp)) (_sections cp))
  else
    match Dict.get section (_sections cp) with
    | None => Raise (NoSectionError section)
    | Some sectdict =>
        Ok (Parser (_defaults cp)
              (Dict.set section (Dict.set (optionxform option) value sectdict)
                 (_sections cp)))
    end.

(** [cparser[section][option] = value] *)
Definition setitem (cp : t) (section option value : string) : res t :=
  if negb (streq section DEFAULTSECT) && negb (has_section cp section) then
    Raise (KeyError section)
  else set cp section option value.

(** [cparser[key] = {}]: an existing section is emptied in place, a new
    one is added last. *)
Definition setitem_empty (cp : t) (key : string) : t :=
  if streq key DEFAULTSECT then Parser [] (_sections cp)
  else Parser (_defaults cp) (Dict.set key [] (_sections cp)).

(** *** Writing *)

(** [_write_section] *)
Definition write_section (section_name : string) (section_items : options) : string :=
  "[" ++ section_name ++ "]" ++ String "010" EmptyString
  ++ String.concat EmptyString
       (map (fun kv =>
               fst kv ++ " = "
               ++ Py.replace_newline (String "010" (String "009" EmptyString)) (snd kv)
               ++ String "010" EmptyString)
          section_items)
  ++ String "010" EmptyString.

(** [write(fp)]: the text written to [fp]. *)
Definition write (cp : t) : string :=
  (match _defaults cp with
   | [] => EmptyString
   | _ => write_section DEFAULTSECT (_defaults cp)
   end)
  ++ String.concat EmptyString
       (map (fun so => write_section (fst so) (snd so)) (_sections cp)).

(** *** File access *)

(** [read(filename)]: a file that cannot be opened is silently skipped. *)
Definition read (cp : t) (filename : string) : M t :=
  trace (IoRead filename);;
  n ← node_at filename;
  match n with
  | Some (File text) => lift (_read cp text)
  | _ => mret cp
  end.

(** [with open(filename, "w") as f: cparser.write(f)] *)
Definition write_file (cp : t) (filename : string) : M unit :=
  open_write filename (write cp).

End ConfigParser.

(** ** [utility.base_util] *)

Module base_util.

(** Modelled from the spec: [create_dir] is defined in
    [utility/base_util.py], which is not among the sources. The
    specification treats it as an idempotent call that guarantees, on
    return, that the directory exists, and whose failure (an invalid path,
    a path that cannot become a directory) is raised to the caller. The
    empty path is invalid; a path held by a file cannot become a
    directory. *)
Definition create_dir (dirpath : string) : M unit :=
  trace (IoProbe dirpath);;
  n ← node_at dirpath;
  match n with
  | Some Dir => mret tt
  | Some (File _) => raise (OSError dirpath)
  | None =>
      if String.eqb dirpath EmptyString then raise (OSError dirpath)
      else trace (IoMkdir dirpath);; put_node dirpath Dir
  end.

(** Modelled from the spec: [create_file] is defined in
    [utility/base_util.py], which is not among the sources. The
    specification treats it as an idempotent call that guarantees, on
    return, that the file exists: a missing file is created empty, an
    existing one is left as it is, and a failure is raised to the caller. *)
Definition create_file (fpath : string) : M unit :=
  trace (IoProbe fpath);;
  n ← node_at fpath;
  match n with
  | Some (File _) => mret tt
  | Some Dir => raise (OSError fpath)
  | None =>
      if String.eqb fpath EmptyString then raise (OSError fpath)
      else trace (IoCreate fpath);; put_node fpath (File EmptyString)
  end.

(** Modelled from the spec: [setup_logger] is defined in
    [utility/base_util.py], which is not among the sources. The
    specification treats the logger as an external capability with a
    fixed configuration surface (directory, file name, level and the two
    sinks); the handle records that configuration. *)
Definition setup_logger (log_fpath log_fname : string) (log_level : level)
    (log_stdio log_fileio : bool) : M Logger :=
  mret (MkLogger log_fpath log_fname log_level log_stdio log_fileio).

(** Modelled from the spec: the logger is made by [setup_logger], of
    [utility/base_util.py], which is not among the sources.
    [logger.info(message)] hands the record to the logger when its level
    admits [INFO]: [logged] keeps the record with the handle, whose two
    flags say which sinks receive it. The specification says of the sinks
    only that they write logs to file and to stdio; what a sink writes, and
    where, is not modelled. So [files] holds the files the engine's own
    code works on, and does not show what a file sink appends to the log
    file, nor [stdout] what a stdio sink prints. *)
Definition info (lg : Logger) (message : string) : M unit := fun w =>
  (Ret tt,
   if level_no (lg_level lg) <=? level_no INFO then
     World (files w) (io w) (today w) (logged w ++ [(lg, INFO, message)])
       (stdin w) (stdout w) (interrupts w)
   else w).

End base_util.

(** ** [dm.dm_constants] *)

Module dm_constants.

(* [dm/dm_constants.py] is not among the sources; section names, option
   names and default values are those of the configuration-file table of
   the specification. *)

(** Modelled from the spec: the name of the logger section, a constant of
    [dm/dm_constants.py]. *)
Definition LOGGER_SECTION : string := "logger".

(** Modelled from the spec: the name of the engine section, a constant of
    [dm/dm_constants.py]. *)
Definition ENGINE_SECTION : string := "engine".

(** Modelled from the spec: the key of the base log file name, a constant of
    [dm/dm_constants.py]. *)
Definition LOGFILE_OPTION : string := "log_file".

(** Modelled from the spec: the key of the log directory, a constant of
    [dm/dm_constants.py]. *)
Definition LOGDIR_OPTION : string := "log_dir".

(** Modelled from the spec: the key of the file sink, a constant of
    [dm/dm_constants.py]. *)
Definition LOGTOFILE_OPTION : string := "log_to_file".

(** Modelled from the spec: the key of the stdio sink, a constant of
    [dm/dm_constants.py]. *)
Definition LOGTOSTDIO_OPTION : string := "log_to_stdio".

(** Modelled from the spec: the key of the debug flag, a constant of
    [dm/dm_constants.py]. *)
Definition ENABLE_DEBUG_OPTION : string := "enable_debug".

(** Modelled from the spec: the word that switches a flag on, a constant of
    [dm/dm_constants.py]. *)
Definition ENABLE : string := "enable".

(** Modelled from the spec: the word that switches a flag off, a constant of
    [dm/dm_constants.py]. *)
Definition DISABLE : string := "disable".

(** Modelled from the spec: the default base log file name, a constant of
    [dm/dm_constants.py]. *)
Definition LOGFILE_VALUE : string := "engine".

(** Modelled from the spec: the default log directory, a constant of
    [dm/dm_constants.py]. *)
Definition LOGDIR_VALUE : string := "./logs".

(** Modelled from the spec: the default of the file sink, a constant of
    [dm/dm_constants.py]. *)
Definition LOGTOFILE_VALUE : string := DISABLE.

(** Modelled from the spec: the default of the stdio sink, a constant of
    [dm/dm_constants.py]. *)
Definition LOGTOSTDIO_VALUE : string := DISABLE.

(** Modelled from the spec: the default of the debug flag, a constant of
    [dm/dm_constants.py]. *)
Definition ENABLE_DEBUG_VALUE : string := DISABLE.

End dm_constants.

(** ** Python values *)

(** The values a caller may pass for [enable_logger]. *)
Inductive pyval : Type :=
  | PyNone
  | PyBool (b : bool)
  | PyInt (n : Z)
  | PyStr (s : string)
  | PyObject (truth : bool).     (* any other object, with its truth value *)

(** [isinstance(v, bool)] *)
Definition isinstance_bool (v : pyval) : bool :=
  match v with
  | PyBool _ => true
  | _ => false
  end.

(** [v is None] *)
Definition is_None (v : pyval) : bool :=
  match v with
  | PyNone => true
  | _ => false
  end.

(** The truth value of [v] in a condition. *)
Definition truthy (v : pyval) : bool :=
  match v with
  | PyNone => false
  | PyBool b => b
  | PyInt n => negb (n =? 0)
  | PyStr s => negb (String.eqb s EmptyString)
  | PyObject truth => truth
  end.

(** [os.sep] *)
Definition sep : string := "/".

(** ** [dm.engine.Engine] *)

Module Engine.
Import dm_constants base_util.

(** The [engineconf] named tuple. Its fields are assigned as attributes
    after creation; a field that was never assigned holds no value. *)
Record engineconf_t : Type := MkConf {
  log_fpath : option string;
  log_fname : option string;
  log_level : option level;
  log_stdio : option bool;
  log_fileio : option bool
}.

Definition unset : engineconf_t := MkConf None None None None None.

Record t : Type := MkEngine {
  _enable_logger : pyval;
  _init : bool;
  engineconf : engineconf_t;
  gameconf : option string;
  _logger : option Logger
}.

Definition with_engineconf (c : engineconf_t) (self : t) : t :=
  MkEngine (_enable_logger self) (_init self) c (gameconf self) (_logger self).

Definition with_logger (l : option Logger) (self : t) : t :=
  MkEngine (_enable_logger self) (_init self) (engineconf self) (gameconf self) l.

(** Reading an attribute that has to be a value: an unassigned field of
    [engineconf], or a missing path, is rejected by the callee with a
    [TypeError]. *)
Definition attr {A : Type} (o : option A) : M A :=
  match o with
  | Some a => mret a
  | None => raise TypeError
  end.

(** [__get_conf_parser] *)
Definition __get_conf_parser (self : t) : M ConfigParser.t :=
  mret ConfigParser.new.

(** [__parse_config] *)
Definition __parse_config (self : t) : M t :=
  cparser ← __get_conf_parser self;
  path ← attr (gameconf self);
  cparser ← ConfigParser.read cparser path;
  if truthy (_enable_logger self) then
    fname ← lift (ConfigParser.getitem cparser LOGGER_SECTION LOGFILE_OPTION);
    fpath ← lift (ConfigParser.getitem cparser LOGGER_SECTION LOGDIR_OPTION);
    tofile ← lift (ConfigParser.getitem cparser LOGGER_SECTION LOGTOFILE_OPTION);
    tostdio ← lift (ConfigParser.getitem cparser LOGGER_SECTION LOGTOSTDIO_OPTION);
    mret (with_engineconf
            (MkConf (Some fpath) (Some fname) (Some DEBUG)
               (Some (if String.eqb tostdio ENABLE then true else false))
               (Some (if String.eqb tofile ENABLE then true else false)))
            self)
  else mret self.

(** [__create_config]. The values are strings, on which [str] is the
    identity. *)
Definition __create_config (self : t) : M t :=
  cparser ← __get_conf_parser self;
  path ← attr (gameconf self);
  cparser ← ConfigParser.read cparser path;
  let cparser := ConfigParser.setitem_empty cparser LOGGER_SECTION in
  cparser ← lift (ConfigParser.setitem cparser LOGGER_SECTION LOGFILE_OPTION LOGFILE_VALUE);
  cparser ← lift (ConfigParser.setitem cparser LOGGER_SECTION LOGDIR_OPTION LOGDIR_VALUE);
  cparser ← lift (ConfigParser.setitem cparser LOGGER_SECTION LOGTOFILE_OPTION LOGTOFILE_VALUE);
  cparser ← lift (ConfigParser.setitem cparser LOGGER_SECTION LOGTOSTDIO_OPTION LOGTOSTDIO_VALUE);
  cparser ← lift (ConfigParser.setitem cparser LOGGER_SECTION ENABLE_DEBUG_OPTION ENABLE_DEBUG_VALUE);
  let cparser := ConfigParser.setitem_empty cparser ENGINE_SECTION in
  cparser ← lift (ConfigParser.setitem cparser ENGINE_SECTION ENABLE_DEBUG_OPTION ENABLE_DEBUG_VALUE);
  ConfigParser.write_file cparser path;;
  if truthy (_enable_logger self) then
    mret (with_engineconf
            (MkConf (Some LOGDIR_VALUE) (Some LOGFILE_VALUE) (Some DEBUG)
               (Some (if String.eqb LOGTOSTDIO_VALUE ENABLE then true else false))
               (Some (if String.eqb LOGTOFILE_VALUE ENABLE then true else false)))
            self)
  else mret self.

(** [set_logger] *)
Definition set_logger (self : t) : M t :=
  fpath ← attr (log_fpath (engineconf self));
  create_dir fpath;;
  fname ← attr (log_fname (engineconf self));
  date ← now_date;
  lvl ← attr (log_level (engineconf self));
  stdio ← attr (log_stdio (engineconf self));
  fileio ← attr (log_fileio (engineconf self));
  lg ← setup_logger fpath (fname ++ "_" ++ date ++ ".log") lvl stdio fileio;
  mret (with_logger (Some lg) self).

(** [get_logger] *)
Definition get_logger (self : t) : option Logger := _logger self.

(** [self._logger.info(message)] *)
Definition logger_info (self : t) (message : string) : M unit :=
  match _logger self with
  | Some lg => info lg message
  | None => raise AttributeError
  end.

(** The bootstrap step of [__init__]: the block guarded by
    [if self.gameconf is not None]. *)
Definition bootstrap (self : t) : M t :=
  match gameconf self with
  | Some path =>
      create_dir (Py.slice_to path (Py.rfind path sep));;
      create_file path;;
      st_size ← stat_size path;
      if st_size =? 0 then __create_config self else __parse_config self
  | None => mret self
  end.

(** [__init__] *)
Definition __init__ (gameconf : option string) (enable_logger : pyval) : M t :=
  (if negb (isinstance_bool enable_logger) then raise EnableLoggerTypeError
   else if is_None enable_logger then raise EnableLoggerValueError
   else mret tt);;
  let self := MkEngine enable_logger false unset gameconf None in
  self ← bootstrap self;
  let self := with_logger None self in
  if truthy (_enable_logger self) then
    self ← set_logger self;
    fpath ← attr (log_fpath (engineconf self));
    logger_info self ("Logging information : " ++ fpath);;
    mret self
  else mret self.

(** [_mainloop]: the start-up line, the busy loop, and the handler of the
    interrupt that ends it. [input] returns a [str], so the [isinstance]
    test of the handler always holds. *)
Definition _mainloop (self : t) : M unit :=
  (if truthy (_enable_logger self) then logger_info self "Starting the main loop"
   else mret tt);;
  wait_for_interrupt;;
  choice ← input "Are you sure you want to exit? [Y/n] : ";
  if String.eqb choice EmptyString then raise (SystemExit "Engine exiting")
  else
    match Py.lower choice with
    | EmptyString => raise IndexError
    | String c _ =>
        if Ascii.eqb c "y" then raise (SystemExit "Engine exiting") else mret tt
    end.

(** [mainloop]: [n] bounds the turns of the loop. *)
Fixpoint mainloop_turns (n : nat) (self : t) : M unit :=
  match n with
  | O => mret tt
  | S n' => _mainloop self;; mainloop_turns n' self
  end.

(** [mainloop]: every turn that returns has used up one interrupt, so one
    turn more than there are interrupts is enough to reach the end of the
    run: an exit, an error, or the busy loop that nothing ends. *)
Definition mainloop (self : t) : M unit := fun w =>
  mainloop_turns (S (interrupts w)) self w.

End Engine.

(** ** The calls a client makes on a constructed engine *)

Inductive call : Type :=
  | CallGetLogger
  | CallSetLogger
  | CallMainloopTurn.       (* one interrupt handled by [_mainloop] *)

(** The engine object after the call. *)
Definition exec (c : call) (self : Engine.t) : M Engine.t :=
  match c with
  | CallGetLogger => let _ := Engine.get_logger self in mret self
  | CallSetLogger => Engine.set_logger self
  | CallMainloopTurn => Engine._mainloop self;; mret self
  end.

Fixpoint run (cs : list call) (self : Engine.t) : M Engine.t :=
  match cs with
  | [] => mret self
  | c :: cs' => self' ← exec c self; run cs' self'
  end.

Definition is_set_logger (c : call) : bool :=
  match c with
  | CallSetLogger => true
  | _ => false
  end.

(** ** Vocabulary of the statements *)

(** The configuration of the specification's table: both sections with
    their keys and default values. *)
Definition documented_config : ConfigParser.t :=
  ConfigParser.Parser []
    [("logger", [("log_file", "engine"); ("log_dir", "./logs");
                 ("log_to_file", "disable"); ("log_to_stdio", "disable");
                 ("enable_debug", "disable")]);
     ("engine", [("enable_debug", "disable")])].

(** The logger settings the engine holds after seeding the defaults. *)
Definition default_conf : Engine.engineconf_t :=
  Engine.MkConf (Some "./logs") (Some "engine") (Some DEBUG) (Some false) (Some false).

(** The logger settings that correspond to the four values stored under
    the logger section of a configuration file. *)
Definition stored_conf (fname fpath tofile tostdio : string) : Engine.engineconf_t :=
  Engine.MkConf (Some fpath) (Some fname) (Some DEBUG)
    (Some (bool_decide (tostdio = "enable")))
    (Some (bool_decide (tofile = "enable"))).

(** What [__parse_config] returns once the file has been read into [cp]. *)
Definition parsed (self : Engine.t) (cp : ConfigParser.t) : outcome Engine.t :=
  if truthy (Engine._enable_logger self) then
    match ConfigParser.getitem cp "logger" "log_file" with
    | Raise e => Exc e
    | Ok fname =>
        match ConfigParser.getitem cp "logger" "log_dir" with
        | Raise e => Exc e
        | Ok fpath =>
            match ConfigParser.getitem cp "logger" "log_to_file" with
            | Raise e => Exc e
            | Ok tofile =>
                match ConfigParser.getitem cp "logger" "log_to_stdio" with
                | Raise e => Exc e
                | Ok tostdio =>
                    Ret (Engine.with_engineconf
                           (stored_conf fname fpath tofile tostdio) self)
                end
            end
        end
    end
  else Ret self.

(** The last step of [__init__]: the logger is set up when it is enabled. *)
Definition activation (self : Engine.t) : M Engine.t :=
  if truthy (Engine._enable_logger self) then
    self ← Engine.set_logger self;
    fpath ← Engine.attr (Engine.log_fpath (Engine.engineconf self));
    Engine.logger_info self ("Logging information : " ++ fpath);;
    mret self
  else mret self.

(** The directory part [__init__] computes from a configuration path. *)
Definition dirpart (path : string) : string :=
  Py.slice_to path (Py.rfind path sep).

(** [create_dir] succeeds on [d]: it is a directory already, or it is a
    valid path that nothing holds yet. *)
Definition creatable (w : world) (d : string) : Prop :=
  files w !! d = Some Dir \/ (files w !! d = None /\ d <> EmptyString).

(** The operations that change the content of a file. *)
Definition is_write (ev : io_event) : bool :=
  match ev with
  | IoWrite _ => true
  | _ => false
  end.

Definition writes (w : world) : list io_event := List.filter is_write (io w).

(** The response confirms the exit: it is empty, or starts with y or Y. *)
Definition confirms (choice : string) : Prop :=
  choice = EmptyString \/
  exists c s, choice = String c s /\ (c = "y"%char \/ c = "Y"%char).

(** An engine whose logger is enabled has a logger handle. *)
Definition logger_ready (self : Engine.t) : Prop :=
  truthy (Engine._enable_logger self) = true -> is_Some (Engine._logger self).

(** A world with nothing on disk and nothing typed. *)
Definition empty_world : world := World ∅ [] "2020-05-08" [] [] [] 0.

(** The world after an engine without logger was constructed on
    [config/game.ini] in the empty world: the file holds the defaults. *)
Definition seeded_world : world :=
  snd (Engine.__init__ (Some "config/game.ini") (PyBool false) empty_world).

(** [post m w Q]: running [m] in [w] ends in an outcome and a world that
    satisfy [Q]. *)
Definition post {A : Type} (m : M A) (w : world) (Q : outcome A -> world -> Prop) : Prop :=
  Q (fst (m w)) (snd (m w)).

(** [w'] keeps everything [w] has on disk, and no file was written on
    the way from [w] to [w']. *)
Definition extends (w w' : world) : Prop :=
  files w ⊆ files w' /\ writes w' = writes w.

(** The terminal, the clock and the pending interrupts are as before. *)
Definition same_terminal (w w' : world) : Prop :=
  stdin w' = stdin w /\ stdout w' = stdout w /\ interrupts w' = interrupts w.

(** ** [main.py] *)

Module Main.

(** [try: body except C1 as e: h1(e) except C2 as e: h2(e)]: the first
    clause whose class matches the exception handles it; an exception no
    clause matches, or one a handler raises, goes on to the caller. *)
Fixpoint handle {A : Type} (clauses : list ((exn -> bool) * (exn -> M A)))
    (e : exn) : M A :=
  match clauses with
  | [] => raise e
  | (matches, handler) :: clauses' =>
      if matches e then handler e else handle clauses' e
  end.

Definition try_except {A : Type} (body : M A)
    (clauses : list ((exn -> bool) * (exn -> M A))) : M A := fun w =>
  match body w with
  | (Exc e, w') => handle clauses e w'
  | r => r
  end.

(** [print(s)] *)
Definition print (s : string) : M unit := fun w =>
  (Ret tt,
   World (files w) (io w) (today w) (logged w) (stdin w) (stdout w ++ [s])
     (interrupts w)).

Definition is_EnableLoggerTypeError (e : exn) : bool :=
  match e with
  | EnableLoggerTypeError => true
  | _ => false
  end.

Definition is_EnableLoggerValueError (e : exn) : bool :=
  match e with
  | EnableLoggerValueError => true
  | _ => false
  end.

(** [main]. [parse_args], of [utility/base_util.py], is not among the
    sources: the two values it stores in [engine_mode_t], the path given
    on the command line ([None] when there is none) and the truth value of
    the build mode, are the arguments [gameconf] and [build_mode]. [cwd] is
    what [os.getcwd()] returns and [str] the text of an exception, which
    [print] writes. [Engine(gameconf = p)] leaves [enable_logger] at its
    default, [False]. *)
Definition main (str : exn -> string) (cwd : string) (gameconf : option string)
    (build_mode : bool) : M Z :=
  try_except
    (engine ←
       (if build_mode then
          match gameconf with
          | Some p => Engine.__init__ (Some p) (PyBool true)
          | None =>
              Engine.__init__ (Some (cwd ++ sep ++ "config" ++ sep ++ "game.ini"))
                (PyBool true)
          end
        else
          match gameconf with
          | Some p => Engine.__init__ (Some p) (PyBool false)
          | None =>
              Engine.__init__ (Some (cwd ++ sep ++ "config" ++ sep ++ "game.ini"))
                (PyBool false)
          end);
     Engine.mainloop engine)
    [(is_EnableLoggerTypeError, fun elterr => print (str elterr));
     (is_EnableLoggerValueError, fun elverr => print (str elverr))];;
  mret 0.

End Main.

(** ** Vocabulary of the further statements *)

(** The logger of the engine writes to no file: it is off, or the file
    sink of its handle is off. *)
Definition no_file_sink (self : Engine.t) : Prop :=
  truthy (Engine._enable_logger self) = true ->
  forall lg, Engine._logger self = Some lg -> lg_fileio lg = false.

(** Nothing was logged, typed, printed or interrupted on the way from [w]
    to [w'], and the date is the same. *)
Definition quiet (w w' : world) : Prop :=
  logged w' = logged w /\ stdin w' = stdin w /\ stdout w' = stdout w
  /\ interrupts w' = interrupts w /\ today w' = today w.

(** The disk and the trace of file operations are the same. *)
Definition same_disk (w w' : world) : Prop :=
  files w' = files w /\ io w' = io w.

(** Every directory of [w] is a directory of [w']. *)
Definition keeps_dirs (w w' : world) : Prop :=
  forall p, files w !! p = Some Dir -> files w' !! p = Some Dir.

(** The exceptions of the validation of [enable_logger]. *)
Definition validation_error (e : exn) : bool :=
  Main.is_EnableLoggerTypeError e || Main.is_EnableLoggerValueError e.

(** The outcome is not one of the validation errors. *)
Definition clean {A : Type} (o : outcome A) : Prop :=
  match o with
  | Exc e => validation_error e = false
  | _ => True
  end.

(** [m] relates every world it starts in to the world it ends in by [R]. *)
Definition frames {A : Type} (R : world -> world -> Prop) (m : M A) : Prop :=
  forall w, R w (snd (m w)).

(** A pure computation raises none of the validation errors. *)
Definition rclean {A : Type} (r : res A) : Prop :=
  forall e, r = Raise e -> validation_error e = false.

(** A computation raises none of the validation errors. *)
Definition mclean {A : Type} (m : M A) : Prop :=
  forall w, clean (fst (m w)).

(** The loop of [_interpolate_some] at one nesting level, named: [depth]
    nesting levels are left for the values it expands. *)
Definition interpolate_loop (depth : nat) (sectiondict defaults : ConfigParser.options) :
    nat -> string -> res string :=
  fix loop (n : nat) (rest : string) {struct n} : res string :=
    match n, rest with
    | _, EmptyString => Ok EmptyString
    | O, _ => Ok EmptyString
    | S n', String "%" (String "%" rest') =>
        tl ← loop n' rest'; Ok (String "%" tl)
    | S n', String "%" (String "(" _) =>
        match ConfigParser.match_key rest with
        | None => Raise InterpolationSyntaxError
        | Some (name, rest') =>
            let var := ConfigParser.optionxform name in
            match ConfigParser.chain_get var sectiondict defaults with
            | None => Raise (InterpolationMissingOptionError var)
            | Some v =>
                s ← (if Py.contains v "%"
                     then ConfigParser.interpolate_some depth sectiondict defaults v
                     else Ok v);
                tl ← loop n' rest'; Ok (s ++ tl)
            end
        end
    | S n', String "%" _ => Raise InterpolationSyntaxError
    | S n', String c rest' => tl ← loop n' rest'; Ok (String c tl)
    end.

(** The path [main] uses when none is given. *)
Definition default_gameconf (cwd : string) : string :=
  cwd ++ "/config/game.ini".

(** * Properties *)

(** ** Reasoning about [M] *)

Section monad_rules.
Context {A B : Type}.

Lemma post_inv (m : M A) (w : world) (Q : outcome A -> world -> Prop) o w' :
  post m w Q -> m w = (o, w') -> Q o w'.
Proof. unfold post. intros H E. rewrite E in H. exact H. Qed.

Lemma post_mono (m : M A) (w : world) (Q Q' : outcome A -> world -> Prop) :
  post m w Q -> (forall o w', Q o w' -> Q' o w') -> post m w Q'.
Proof. unfold post. auto. Qed.

Lemma post_bind (m : M A) (f : A -> M B) (w : world)
    (Q : outcome B -> world -> Prop) :
  post m w (fun o w' =>
    match o with
    | Ret a => post (f a) w' Q
    | Exc e => Q (Exc e) w'
    | Spin => Q Spin w'
    end) ->
  post (m ≫= f) w Q.
Proof.
  unfold post, mbind, M_bind.
  destruct (m w) as [[a | e | ] w']; simpl; auto.
Qed.

Lemma bind_Ret (m : M A) (f : A -> M B) (w w' : world) (a : A) :
  m w = (Ret a, w') -> (m ≫= f) w = f a w'.
Proof. unfold mbind, M_bind. intros ->. reflexivity. Qed.

Lemma bind_Exc (m : M A) (f : A -> M B) (w w' : world) (e : exn) :
  m w = (Exc e, w') -> (m ≫= f) w = (Exc e, w').
Proof. unfold mbind, M_bind. intros ->. reflexivity. Qed.

Lemma bind_Spin (m : M A) (f : A -> M B) (w w' : world) :
  m w = (Spin, w') -> (m ≫= f) w = (Spin, w').
Proof. unfold mbind, M_bind. intros ->. reflexivity. Qed.

Lemma bind_Ret_inv (m : M A) (f : A -> M B) (w w'' : world) (b : B) :
  (m ≫= f) w = (Ret b, w'') ->
  exists a w', m w = (Ret a, w') /\ f a w' = (Ret b, w'').
Proof.
  unfold mbind, M_bind.
  destruct (m w) as [[a | e | ] w']; intros H; try discriminate.
  exists a, w'. auto.
Qed.
End monad_rules.

(** ** Validation of [enable_logger] *)

(** C1, as the code behaves: [None] is not an instance of [bool], so the
    type check rejects it first and the construction raises the
    Enable-Logger-Type error; the branch that raises the
    Enable-Logger-Value error is never reached. Nothing is touched. *)
Theorem init_None_raises_type_error (gameconf : option string) (w : world) :
  Engine.__init__ gameconf PyNone w = (Exc EnableLoggerTypeError, w).
Proof. reflexivity. Qed.

(** The value check is never reached with [None]: whatever passes the type
    check is a [bool]. *)
Lemma value_branch_unreachable (v : pyval) :
  isinstance_bool v = true -> is_None v = false.
Proof. destruct v; simpl; intros H; first [discriminate H | reflexivity]. Qed.

(** C2: for every argument that is not a boolean, construction raises the
    Enable-Logger-Type error and leaves the world as it was: no directory
    or file is probed, created, read or written. *)
Theorem init_non_bool_raises_before_io (gameconf : option string) (v : pyval) (w : world) :
  isinstance_bool v = false ->
  Engine.__init__ gameconf v w = (Exc EnableLoggerTypeError, w).
Proof.
  intros Hv. unfold Engine.__init__.
  apply bind_Exc. rewrite Hv. reflexivity.
Qed.

(** The string yes as [enable_logger], in the empty world. *)
Lemma init_non_bool_raises_before_io_witness :
  isinstance_bool (PyStr "yes") = false /\
  Engine.__init__ (Some "config/game.ini") (PyStr "yes") empty_world
  = (Exc EnableLoggerTypeError, empty_world).
Proof.
  split; [reflexivity | apply init_non_bool_raises_before_io; reflexivity].
Defined.

(** ** Construction without a configuration path *)

(** C8: with [gameconf=None] the bootstrap step is skipped: it returns the
    engine it was given in the world it was given. The whole construction
    leaves the world as it was too (no file operation is traced, nothing on
    disk changes), and the engine it returns has no configuration value
    loaded. With the logger enabled the construction stops in
    [set_logger], on the unassigned log directory, before any file
    operation. *)
Theorem init_without_gameconf_no_io (v : pyval) (w : world) :
  Engine.bootstrap (Engine.MkEngine v false Engine.unset None None) w
  = (Ret (Engine.MkEngine v false Engine.unset None None), w)
  /\ Engine.__init__ None v w =
     (match v with
      | PyBool false => Ret (Engine.MkEngine (PyBool false) false Engine.unset None None)
      | PyBool true => Exc TypeError
      | _ => Exc EnableLoggerTypeError
      end, w).
Proof. split; [reflexivity | ]. destruct v as [ | [ | ] | n | s | t]; reflexivity. Qed.

(** ** The run loop *)

Lemma lower_char_y (c : ascii) :
  Ascii.eqb (Py.lower_char c) "y" = true <-> c = "y"%char \/ c = "Y"%char.
Proof.
  destruct c as [[] [] [] [] [] [] [] []]; vm_compute;
    (split; [intros H; first [discriminate H | auto]
            | intros [H | H]; first [discriminate H | reflexivity]]).
Qed.

Lemma logger_info_ready (self : Engine.t) (message : string) (w : world) :
  is_Some (Engine._logger self) ->
  exists w', Engine.logger_info self message w = (Ret tt, w')
    /\ files w' = files w /\ io w' = io w /\ same_terminal w w'.
Proof.
  intros [lg Hlg]. unfold Engine.logger_info. rewrite Hlg.
  unfold base_util.info, same_terminal.
  destruct (level_no (lg_level lg) <=? level_no INFO);
    eexists; repeat split; reflexivity.
Qed.

(** What [_mainloop] does before it waits: the start-up line, when the
    logger is enabled. *)
Lemma mainloop_start_line (self : Engine.t) (w : world) :
  logger_ready self ->
  exists w',
    (if truthy (Engine._enable_logger self)
     then Engine.logger_info self "Starting the main loop"
     else mret tt) w = (Ret tt, w')
    /\ files w' = files w /\ io w' = io w /\ same_terminal w w'.
Proof.
  intros Hready. destruct (truthy (Engine._enable_logger self)) eqn:Hen.
  - apply logger_info_ready. auto.
  - exists w. unfold same_terminal. repeat split; reflexivity.
Qed.

(** One turn of the run loop, up to the decision on the response. *)
Lemma mainloop_turn (self : Engine.t) (w : world) (choice : string)
    (rest : list string) (n : nat) :
  logger_ready self -> interrupts w = S n -> stdin w = choice :: rest ->
  exists w', files w' = files w /\ io w' = io w /\ stdin w' = rest /\ interrupts w' = n
    /\ Engine._mainloop self w =
       (if String.eqb choice EmptyString then Exc (SystemExit "Engine exiting")
        else match Py.lower choice with
             | EmptyString => Exc IndexError
             | String c _ =>
                 if Ascii.eqb c "y" then Exc (SystemExit "Engine exiting") else Ret tt
             end, w').
Proof.
  intros Hready Hint Hin.
  destruct (mainloop_start_line self w Hready) as (w1 & E1 & Hf1 & Hio1 & Hi1 & Ho1 & Hn1).
  unfold Engine._mainloop.
  rewrite (bind_Ret _ _ _ _ _ E1).
  assert (E2 : wait_for_interrupt w1 =
               (Ret tt, World (files w1) (io w1) (today w1) (logged w1) (stdin w1)
                          (stdout w1) n)).
  { unfold wait_for_interrupt. rewrite Hn1, Hint. reflexivity. }
  rewrite (bind_Ret _ _ _ _ _ E2).
  set (w2 := World _ _ _ _ _ _ n) in *.
  assert (E3 : input "Are you sure you want to exit? [Y/n] : " w2 =
               (Ret choice,
                World (files w1) (io w1) (today w1) (logged w1) rest
                  (stdout w1 ++ ["Are you sure you want to exit? [Y/n] : "]) n)).
  { unfold input, w2. simpl. rewrite Hi1, Hin. reflexivity. }
  rewrite (bind_Ret _ _ _ _ _ E3).
  exists (World (files w1) (io w1) (today w1) (logged w1) rest
            (stdout w1 ++ ["Are you sure you want to exit? [Y/n] : "]) n).
  split; [exact Hf1 | ]. split; [exact Hio1 | ].
  split; [reflexivity | ]. split; [reflexivity | ].
  destruct (String.eqb choice EmptyString); [reflexivity | ].
  destruct (Py.lower choice) as [ | c s]; [reflexivity | ].
  destruct (Ascii.eqb c "y"); reflexivity.
Qed.


(** Every turn that returns has used up one interrupt. *)
Lemma mainloop_turn_uses_interrupt (self : Engine.t) (w w' : world) :
  Engine._mainloop self w = (Ret tt, w') -> interrupts w = S (interrupts w').
Proof.
  unfold Engine._mainloop. intros H.
  apply bind_Ret_inv in H as ([] & w1 & E1 & H).
  apply bind_Ret_inv in H as ([] & w2 & E2 & H).
  apply bind_Ret_inv in H as (choice & w3 & E3 & H).
  assert (H1 : interrupts w1 = interrupts w).
  { destruct (truthy (Engine._enable_logger self)).
    - unfold Engine.logger_info in E1.
      destruct (Engine._logger self) as [lg | ]; [ | discriminate E1].
      unfold base_util.info in E1. injection E1 as <-.
      destruct (_ <=? _); reflexivity.
    - injection E1 as <-. reflexivity. }
  unfold wait_for_interrupt in E2.
  destruct (interrupts w1) as [ | k] eqn:Hk; [discriminate E2 | ].
  injection E2 as <-.
  unfold input in E3. simpl in E3.
  destruct (stdin w1); [discriminate E3 | ]. injection E3 as <- <-.
  assert (H3 : w' = World (files w1) (io w1) (today w1) (logged w1) l
                      (stdout w1 ++ ["Are you sure you want to exit? [Y/n] : "]) k).
  { destruct (String.eqb s EmptyString); [discriminate H | ].
    destruct (Py.lower s) as [ | c r]; [discriminate H | ].
    destruct (Ascii.eqb c "y"); [discriminate H | ].
    injection H as <-. reflexivity. }
  rewrite H3. simpl. congruence.
Qed.

(** X1: The bound [mainloop] gives its loop is never used up: the run ends in
    an exit, an error, or the busy loop that no interrupt ends. *)
Lemma mainloop_never_returns (self : Engine.t) (w : world) :
  fst (Engine.mainloop self w) <> Ret tt.
Proof.
  unfold Engine.mainloop.
  assert (G : forall k w0, (interrupts w0 < k)%nat ->
              fst (Engine.mainloop_turns k self w0) <> Ret tt).
  { induction k as [ | k IH]; intros w0 Hlt; [lia | ].
    simpl. unfold mbind, M_bind.
    destruct (Engine._mainloop self w0) as [[[] | e | ] w1] eqn:E;
      [ | simpl; discriminate | simpl; discriminate].
    apply IH. apply mainloop_turn_uses_interrupt in E. lia. }
  apply G. lia.
Qed.

(** ** The file system *)

Lemma extends_refl (w : world) : extends w w.
Proof. split; reflexivity. Qed.

Lemma extends_trans (w1 w2 w3 : world) :
  extends w1 w2 -> extends w2 w3 -> extends w1 w3.
Proof.
  intros [H1 H1'] [H2 H2']. split; [etrans; eassumption | congruence].
Qed.

Lemma extends_lookup (w w' : world) (p : string) (n : node) :
  extends w w' -> files w !! p = Some n -> files w' !! p = Some n.
Proof. intros [H _] E. eapply lookup_weaken; eassumption. Qed.

Lemma writes_snoc (w : world) (ev : io_event) (f : gmap string node) :
  is_write ev = false ->
  writes (World f (io w ++ [ev]) (today w) (logged w) (stdin w) (stdout w)
            (interrupts w)) = writes w.
Proof.
  intros H. unfold writes. simpl. rewrite List.filter_app. simpl. rewrite H.
  apply app_nil_r.
Qed.

Lemma create_dir_extends (d : string) (w : world) :
  post (base_util.create_dir d) w (fun _ w' => extends w w').
Proof.
  unfold post, base_util.create_dir, mbind, M_bind, trace, node_at, put_node,
    raise, mret, M_ret, set_files. simpl.
  destruct (files w !! d) as [[ | c] | ] eqn:E; simpl.
  - split; [reflexivity | ]. apply writes_snoc. reflexivity.
  - split; [reflexivity | ]. apply writes_snoc. reflexivity.
  - destruct (String.eqb d EmptyString); simpl.
    + split; [reflexivity | ]. apply writes_snoc. reflexivity.
    + split; [apply insert_subseteq; exact E | ].
      unfold writes. simpl. rewrite !List.filter_app. simpl.
      rewrite !app_nil_r. reflexivity.
Qed.

Lemma create_file_extends (p : string) (w : world) :
  post (base_util.create_file p) w (fun _ w' => extends w w').
Proof.
  unfold post, base_util.create_file, mbind, M_bind, trace, node_at, put_node,
    raise, mret, M_ret, set_files. simpl.
  destruct (files w !! p) as [[ | c] | ] eqn:E; simpl.
  - split; [reflexivity | ]. apply writes_snoc. reflexivity.
  - split; [reflexivity | ]. apply writes_snoc. reflexivity.
  - destruct (String.eqb p EmptyString); simpl.
    + split; [reflexivity | ]. apply writes_snoc. reflexivity.
    + split; [apply insert_subseteq; exact E | ].
      unfold writes. simpl. rewrite !List.filter_app. simpl.
      rewrite !app_nil_r. reflexivity.
Qed.

Lemma read_extends (cp : ConfigParser.t) (p : string) (w : world) :
  post (ConfigParser.read cp p) w (fun o w' =>
    (extends w w' /\ files w' = files w) /\
    forall text, files w !! p = Some (File text) ->
      o = match ConfigParser._read cp text with
          | Ok cp' => Ret cp'
          | Raise e => Exc e
          end).
Proof.
  unfold post, ConfigParser.read, mbind, M_bind, trace, node_at, lift, raise,
    mret, M_ret. simpl.
  set (w1 := World (files w) (io w ++ [IoRead p]) (today w) (logged w)
               (stdin w) (stdout w) (interrupts w)).
  assert (X : extends w w1 /\ files w1 = files w).
  { split; [split; [reflexivity | apply writes_snoc; reflexivity] | reflexivity]. }
  destruct (files w !! p) as [[ | c] | ] eqn:E; simpl.
  - split; [exact X | ]. intros; congruence.
  - destruct (ConfigParser._read cp c) as [e | cp'] eqn:R; simpl;
      (split; [exact X | ]); intros text Ht; injection Ht as <-; rewrite R; reflexivity.
  - split; [exact X | ]. intros; congruence.
Qed.

Lemma attr_post {A : Type} (o : option A) (w : world) (Q : outcome A -> world -> Prop) :
  Q (match o with Some a => Ret a | None => Exc TypeError end) w ->
  post (Engine.attr o) w Q.
Proof. destruct o; auto. Qed.

(** *** The directory part of a path *)

Lemma rfind_from_range (sub s : string) (i : Z) :
  sub <> EmptyString -> 0 <= i ->
  Py.rfind_from i s sub = -1 \/
  (i <= Py.rfind_from i s sub < i + Z.of_nat (String.length s)).
Proof.
  intros Hsub. revert i. induction s as [ | c s IH]; intros i Hi.
  - simpl. destruct sub; [congruence | ]. left. reflexivity.
  - cbn [Py.rfind_from String.length].
    destruct (IH (i + 1) ltac:(lia)) as [-> | Hr].
    + change (0 <=? -1) with false. cbv iota.
      destruct (Py.startswith sub (String c s)); [right; lia | left; reflexivity].
    + destruct (0 <=? Py.rfind_from (i + 1) s sub) eqn:E; [right; lia | ].
      apply Z.leb_gt in E. lia.
Qed.

Lemma length_substring_0 (n : nat) (s : string) :
  String.length (String.substring 0 n s) = Nat.min n (String.length s).
Proof.
  revert n. induction s as [ | c s IH]; intros [ | n]; simpl; auto.
Qed.

Lemma dirpart_shorter (path : string) :
  path <> EmptyString -> (String.length (dirpart path) < String.length path)%nat.
Proof.
  intros Hne. unfold dirpart, Py.slice_to. rewrite length_substring_0.
  assert (Hlen : (1 <= String.length path)%nat).
  { destruct path; [congruence | simpl; lia]. }
  unfold Py.clamp, Py.len, Py.rfind.
  destruct (rfind_from_range sep path 0 ltac:(discriminate) ltac:(lia)) as [-> | Hr].
  - change (-1 <? 0) with true. cbv iota. lia.
  - destruct (Py.rfind_from 0 path sep <? 0) eqn:E; [apply Z.ltb_lt in E; lia | ].
    lia.
Qed.

Lemma dirpart_neq (path : string) :
  path <> EmptyString -> dirpart path <> path.
Proof.
  intros Hne Heq. pose proof (dirpart_shorter path Hne) as H.
  rewrite Heq in H. lia.
Qed.

(** *** The helpers, when they succeed *)

Lemma create_dir_ok (d : string) (w : world) :
  creatable w d ->
  exists w', base_util.create_dir d w = (Ret tt, w')
    /\ files w' = <[d := Dir]> (files w) /\ extends w w'.
Proof.
  intros Hc.
  pose proof (create_dir_extends d w) as Hext. unfold post in Hext.
  revert Hext.
  unfold base_util.create_dir, mbind, M_bind, trace, node_at, put_node,
    raise, mret, M_ret, set_files. simpl.
  destruct Hc as [E | [E Hne]]; rewrite E.
  - intros Hext. eexists. split; [reflexivity | ]. split; [ | exact Hext].
    simpl. symmetry. apply insert_id. exact E.
  - apply String.eqb_neq in Hne. rewrite Hne. simpl.
    intros Hext. eexists. split; [reflexivity | ]. split; [reflexivity | exact Hext].
Qed.

Lemma create_file_ok (p : string) (w : world) :
  (files w !! p = None /\ p <> EmptyString) \/ (exists c, files w !! p = Some (File c)) ->
  exists w', base_util.create_file p w = (Ret tt, w')
    /\ files w' = match files w !! p with
                  | Some _ => files w
                  | None => <[p := File EmptyString]> (files w)
                  end
    /\ extends w w'.
Proof.
  intros Hc.
  pose proof (create_file_extends p w) as Hext. unfold post in Hext.
  revert Hext.
  unfold base_util.create_file, mbind, M_bind, trace, node_at, put_node,
    raise, mret, M_ret, set_files. simpl.
  destruct Hc as [[E Hne] | [c E]]; rewrite E.
  - apply String.eqb_neq in Hne. rewrite Hne. simpl.
    intros Hext. eexists. split; [reflexivity | ]. split; [reflexivity | exact Hext].
  - intros Hext. eexists. split; [reflexivity | ]. split; [reflexivity | exact Hext].
Qed.

Lemma stat_size_ok (p c : string) (w : world) :
  files w !! p = Some (File c) ->
  exists w', stat_size p w = (Ret (Py.len c), w')
    /\ files w' = files w /\ extends w w'.
Proof.
  intros E.
  unfold stat_size, mbind, M_bind, trace, node_at, raise, mret, M_ret. simpl.
  rewrite E. eexists. split; [reflexivity | ]. split; [reflexivity | ].
  split; [reflexivity | apply writes_snoc; reflexivity].
Qed.

Lemma len_zero (c : string) : (Py.len c =? 0) = true <-> c = EmptyString.
Proof.
  unfold Py.len. destruct c; simpl; split; intros H;
    first [reflexivity | discriminate H | apply Z.eqb_eq in H; lia].
Qed.

(** ** Seeding and parsing the configuration *)

Lemma ret_bind {A B : Type} (a : A) (f : A -> M B) (w : world) :
  (mret a ≫= f) w = f a w.
Proof. reflexivity. Qed.

Lemma lift_bind_Ok {A B : Type} (r : res A) (a : A) (f : A -> M B) (w : world) :
  r = Ok a -> (lift r ≫= f) w = f a w.
Proof. intros ->. reflexivity. Qed.

Lemma eqb_bool_decide (a b : string) :
  (if String.eqb a b then true else false) = bool_decide (a = b).
Proof.
  destruct (String.eqb a b) eqn:E.
  - apply String.eqb_eq in E. symmetry. apply bool_decide_eq_true. exact E.
  - apply String.eqb_neq in E. symmetry. apply bool_decide_eq_false. exact E.
Qed.

Lemma open_write_ok (p text : string) (w : world) :
  files w !! p <> Some Dir ->
  exists w', open_write p text w = (Ret tt, w')
    /\ files w' = <[p := File text]> (files w).
Proof.
  intros H.
  unfold open_write, mbind, M_bind, trace, node_at, put_node, raise, mret, M_ret,
    set_files. simpl.
  destruct (files w !! p) as [[ | c] | ]; [congruence | | ];
    eexists; split; reflexivity.
Qed.

(** The text [ConfigParser.write] produces for the documented
    configuration, and what [ConfigParser] reads back from it. *)
Lemma documented_text :
  ConfigParser.write documented_config =
  "[logger]" ++ String "010"
  ("log_file = engine" ++ String "010"
  ("log_dir = ./logs" ++ String "010"
  ("log_to_file = disable" ++ String "010"
  ("log_to_stdio = disable" ++ String "010"
  ("enable_debug = disable" ++ String "010" (String "010"
  ("[engine]" ++ String "010"
  ("enable_debug = disable" ++ String "010" (String "010" EmptyString))))))))).
Proof. reflexivity. Qed.

Lemma documented_text_nonempty : ConfigParser.write documented_config <> EmptyString.
Proof. discriminate. Qed.

Lemma documented_text_reads_back :
  ConfigParser._read ConfigParser.new (ConfigParser.write documented_config)
  = Ok documented_config.
Proof. vm_compute. reflexivity. Qed.

(** [__parse_config] reads and never writes; on a file it can open, its
    outcome is [parsed] of what [ConfigParser] read. *)
Lemma parse_config_spec (self : Engine.t) (path : string) (w : world) :
  Engine.gameconf self = Some path ->
  post (Engine.__parse_config self) w (fun o w' =>
    (extends w w' /\ files w' = files w) /\
    forall text, files w !! path = Some (File text) ->
      o = match ConfigParser._read ConfigParser.new text with
          | Raise e => Exc e
          | Ok cp => parsed self cp
          end).
Proof.
  intros Hgc.
  pose proof (read_extends ConfigParser.new path w) as R. unfold post in R.
  unfold post, Engine.__parse_config, Engine.__get_conf_parser. rewrite Hgc.
  rewrite ret_bind. simpl Engine.attr. rewrite ret_bind.
  destruct (ConfigParser.read ConfigParser.new path w) as [[cp | e | ] w1] eqn:E;
    simpl in R; destruct R as [Hext Hval];
    [rewrite (bind_Ret _ _ _ _ _ E) | rewrite (bind_Exc _ _ _ _ _ E)
    | rewrite (bind_Spin _ _ _ _ E)]; cbn [fst snd].
  - assert (G : forall w1,
        (if truthy (Engine._enable_logger self)
         then
           lift (ConfigParser.getitem cp dm_constants.LOGGER_SECTION
                   dm_constants.LOGFILE_OPTION) ≫= (fun fname =>
           lift (ConfigParser.getitem cp dm_constants.LOGGER_SECTION
                   dm_constants.LOGDIR_OPTION) ≫= (fun fpath =>
           lift (ConfigParser.getitem cp dm_constants.LOGGER_SECTION
                   dm_constants.LOGTOFILE_OPTION) ≫= (fun tofile =>
           lift (ConfigParser.getitem cp dm_constants.LOGGER_SECTION
                   dm_constants.LOGTOSTDIO_OPTION) ≫= (fun tostdio =>
           mret (Engine.with_engineconf
                   (Engine.MkConf (Some fpath) (Some fname) (Some DEBUG)
                      (Some (if String.eqb tostdio dm_constants.ENABLE
                             then true else false))
                      (Some (if String.eqb tofile dm_constants.ENABLE
                             then true else false)))
                   self)))))
         else mret self) w1 = (parsed self cp, w1)).
    { intros w0. unfold parsed.
      change dm_constants.LOGGER_SECTION with "logger".
      change dm_constants.LOGFILE_OPTION with "log_file".
      change dm_constants.LOGDIR_OPTION with "log_dir".
      change dm_constants.LOGTOFILE_OPTION with "log_to_file".
      change dm_constants.LOGTOSTDIO_OPTION with "log_to_stdio".
      change dm_constants.ENABLE with "enable".
      destruct (truthy (Engine._enable_logger self)); [ | reflexivity].
      destruct (ConfigParser.getitem cp "logger" "log_file") as [e1 | fname];
        [reflexivity | ].
      rewrite (lift_bind_Ok _ _ _ _ eq_refl).
      destruct (ConfigParser.getitem cp "logger" "log_dir") as [e2 | fpath];
        [reflexivity | ].
      rewrite (lift_bind_Ok _ _ _ _ eq_refl).
      destruct (ConfigParser.getitem cp "logger" "log_to_file") as [e3 | tofile];
        [reflexivity | ].
      rewrite (lift_bind_Ok _ _ _ _ eq_refl).
      destruct (ConfigParser.getitem cp "logger" "log_to_stdio") as [e4 | tostdio];
        [reflexivity | ].
      rewrite (lift_bind_Ok _ _ _ _ eq_refl).
      unfold stored_conf. rewrite <- !eqb_bool_decide. reflexivity. }
    rewrite G. cbn [fst snd]. split; [exact Hext | ].
    intros text Ht. specialize (Hval text Ht).
    destruct (ConfigParser._read ConfigParser.new text) as [e' | cp'];
      [discriminate Hval | injection Hval as ->; reflexivity].
  - split; [exact Hext | ].
    intros text Ht. specialize (Hval text Ht).
    destruct (ConfigParser._read ConfigParser.new text) as [e' | cp'];
      [injection Hval as ->; reflexivity | discriminate Hval].
  - split; [exact Hext | ].
    intros text Ht. specialize (Hval text Ht).
    destruct (ConfigParser._read ConfigParser.new text); discriminate Hval.
Qed.

(** [__create_config] on an empty file: the documented configuration is
    written to it, and with the logger enabled the engine holds the
    default settings. *)
Lemma create_config_spec (self : Engine.t) (path : string) (w : world) :
  Engine.gameconf self = Some path ->
  files w !! path = Some (File EmptyString) ->
  exists w',
    Engine.__create_config self w =
      (Ret (if truthy (Engine._enable_logger self)
            then Engine.with_engineconf default_conf self else self), w')
    /\ files w' !! path = Some (File (ConfigParser.write documented_config))
    /\ (forall q, q <> path -> files w' !! q = files w !! q).
Proof.
  intros Hgc Hfile.
  pose proof (read_extends ConfigParser.new path w) as R. unfold post in R.
  unfold Engine.__create_config, Engine.__get_conf_parser. rewrite Hgc.
  rewrite ret_bind. simpl Engine.attr. rewrite ret_bind.
  destruct (ConfigParser.read ConfigParser.new path w) as [o w1] eqn:E.
  simpl in R. destruct R as [[Hext _] Hval]. specialize (Hval _ Hfile).
  simpl in Hval. subst o.
  assert (Hsame : files w1 = files w).
  { revert E. unfold ConfigParser.read, mbind, M_bind, trace, node_at. simpl.
    rewrite Hfile. simpl. intros E. injection E as <-. reflexivity. }
  rewrite (bind_Ret _ _ _ _ _ E). cbv zeta.
  do 6 (erewrite lift_bind_Ok by (vm_compute; reflexivity)).
  unfold ConfigParser.write_file.
  match goal with
  | |- context [open_write path (ConfigParser.write ?c)] =>
      change c with documented_config
  end.
  destruct (open_write_ok path (ConfigParser.write documented_config) w1)
    as (w2 & E2 & Hf2).
  { rewrite Hsame, Hfile. discriminate. }
  rewrite (bind_Ret _ _ _ _ _ E2).
  exists w2. split; [ | split].
  - destruct (truthy (Engine._enable_logger self)); reflexivity.
  - rewrite Hf2. apply lookup_insert_eq.
  - intros q Hq. rewrite Hf2, Hsame. apply lookup_insert_ne. congruence.
Qed.

(** [set_logger] never writes a file; when it returns, the handle carries
    the level the engine configuration holds. *)
Lemma set_logger_post (self : Engine.t) (w : world) :
  post (Engine.set_logger self) w (fun o w' =>
    extends w w' /\
    forall self', o = Ret self' ->
      exists lg, self' = Engine.with_logger (Some lg) self
        /\ Engine.log_level (Engine.engineconf self) = Some (lg_level lg)).
Proof.
  unfold Engine.set_logger.
  apply post_bind, attr_post.
  destruct (Engine.log_fpath (Engine.engineconf self)) as [fpath | ];
    [ | split; [apply extends_refl | discriminate]].
  apply post_bind. eapply post_mono; [apply create_dir_extends | ].
  intros o w1 Hext. simpl in Hext.
  destruct o as [[] | e | ]; [ | split; [exact Hext | discriminate] .. ].
  apply post_bind, attr_post.
  destruct (Engine.log_fname (Engine.engineconf self)) as [fname | ];
    [ | split; [exact Hext | discriminate]].
  apply post_bind. unfold post at 1. cbn [now_date fst snd].
  apply post_bind, attr_post.
  destruct (Engine.log_level (Engine.engineconf self)) as [lvl | ];
    [ | split; [exact Hext | discriminate]].
  apply post_bind, attr_post.
  destruct (Engine.log_stdio (Engine.engineconf self)) as [stdio | ];
    [ | split; [exact Hext | discriminate]].
  apply post_bind, attr_post.
  destruct (Engine.log_fileio (Engine.engineconf self)) as [fileio | ];
    [ | split; [exact Hext | discriminate]].
  unfold post. simpl. split; [exact Hext | ].
  intros self' H. injection H as <-. eexists. split; reflexivity.
Qed.

Lemma set_logger_ok (self : Engine.t) (w : world) (fpath fname : string)
    (lvl : level) (stdio fileio : bool) :
  Engine.engineconf self
    = Engine.MkConf (Some fpath) (Some fname) (Some lvl) (Some stdio) (Some fileio) ->
  creatable w fpath ->
  exists w',
    Engine.set_logger self w =
      (Ret (Engine.with_logger
              (Some (MkLogger fpath (fname ++ "_" ++ today w ++ ".log") lvl stdio fileio))
              self), w')
    /\ extends w w'.
Proof.
  intros Hconf Hc.
  destruct (create_dir_ok fpath w Hc) as (w1 & E1 & Hf1 & Hext).
  assert (Ht : today w1 = today w).
  { revert E1. unfold base_util.create_dir, mbind, M_bind, trace, node_at,
      put_node, raise, mret, M_ret, set_files. simpl.
    destruct (files w !! fpath) as [[ | c] | ]; simpl.
    - intros E. injection E as <-. reflexivity.
    - discriminate.
    - destruct (String.eqb fpath EmptyString); simpl;
        [discriminate | intros E; injection E as <-; reflexivity]. }
  unfold Engine.set_logger. rewrite Hconf. simpl Engine.attr.
  rewrite ret_bind. rewrite (bind_Ret _ _ _ _ _ E1).
  exists w1. split; [ | exact Hext].
  rewrite ret_bind.
  unfold mbind at 1, M_bind at 1, now_date at 1. rewrite Ht.
  reflexivity.
Qed.

Lemma logger_info_extends (self : Engine.t) (message : string) (w : world) :
  post (Engine.logger_info self message) w (fun _ w' => extends w w').
Proof.
  unfold post, Engine.logger_info.
  destruct (Engine._logger self) as [lg | ]; [ | apply extends_refl].
  unfold base_util.info. simpl.
  destruct (_ <=? _); split; reflexivity.
Qed.

(** ** The bootstrap step *)

Ltac bind_inv H :=
  let a := fresh "a" in
  let w := fresh "w" in
  let E := fresh "E" in
  apply bind_Ret_inv in H as (a & w & E & H).

(** The engine [__create_config] returns. *)
Lemma create_config_inv (self self' : Engine.t) (w w' : world) :
  Engine.__create_config self w = (Ret self', w') ->
  self' = if truthy (Engine._enable_logger self)
          then Engine.with_engineconf default_conf self else self.
Proof.
  unfold Engine.__create_config. intros H.
  bind_inv H. bind_inv H. bind_inv H. cbv zeta in H.
  do 6 bind_inv H. bind_inv H.
  destruct (truthy (Engine._enable_logger self)); injection H as <- _; reflexivity.
Qed.

(** The engine [__parse_config] returns. *)
Lemma parse_config_inv (self self' : Engine.t) (w w' : world) :
  Engine.__parse_config self w = (Ret self', w') ->
  if truthy (Engine._enable_logger self)
  then exists c, self' = Engine.with_engineconf c self
                 /\ Engine.log_level c = Some DEBUG
  else self' = self.
Proof.
  unfold Engine.__parse_config. intros H.
  bind_inv H. bind_inv H. bind_inv H.
  destruct (truthy (Engine._enable_logger self)).
  - do 4 bind_inv H. injection H as <- _. eexists. split; reflexivity.
  - injection H as <- _. reflexivity.
Qed.

(** The engine the bootstrap step returns: with the logger enabled and a
    configuration path, its settings are populated and the level is
    [DEBUG]; otherwise it is the engine it was given. *)
Lemma bootstrap_inv (self self' : Engine.t) (w w' : world) :
  Engine.bootstrap self w = (Ret self', w') ->
  match Engine.gameconf self, truthy (Engine._enable_logger self) with
  | Some _, true => exists c, self' = Engine.with_engineconf c self
                              /\ Engine.log_level c = Some DEBUG
  | _, _ => self' = self
  end.
Proof.
  unfold Engine.bootstrap. intros H.
  destruct (Engine.gameconf self) as [path | ].
  - bind_inv H. bind_inv H. bind_inv H.
    destruct (a1 =? 0).
    + apply create_config_inv in H.
      destruct (truthy (Engine._enable_logger self)); [ | exact H].
      exists default_conf. split; [exact H | reflexivity].
    + apply parse_config_inv in H.
      destruct (truthy (Engine._enable_logger self)); exact H.
  - injection H as <- _. reflexivity.
Qed.

(** On a missing or empty file the bootstrap step creates what is missing
    and seeds the documented configuration. *)
Lemma bootstrap_seeds (self : Engine.t) (path : string) (w : world) :
  Engine.gameconf self = Some path ->
  files w !! path = None \/ files w !! path = Some (File EmptyString) ->
  path <> EmptyString ->
  creatable w (dirpart path) ->
  exists w',
    Engine.bootstrap self w =
      (Ret (if truthy (Engine._enable_logger self)
            then Engine.with_engineconf default_conf self else self), w')
    /\ files w' !! path = Some (File (ConfigParser.write documented_config))
    /\ files w' !! dirpart path = Some Dir
    /\ (forall q, q <> path -> q <> dirpart path -> files w' !! q = files w !! q).
Proof.
  intros Hgc Hfile Hne Hdir.
  pose proof (dirpart_neq path Hne) as Hdp.
  unfold Engine.bootstrap. rewrite Hgc. fold (dirpart path).
  destruct (create_dir_ok _ _ Hdir) as (w1 & E1 & Hf1 & _).
  rewrite (bind_Ret _ _ _ _ _ E1).
  assert (H1 : files w1 !! path = files w !! path).
  { rewrite Hf1. apply lookup_insert_ne. exact Hdp. }
  destruct (create_file_ok path w1) as (w2 & E2 & Hf2 & _).
  { rewrite H1. destruct Hfile as [-> | ->]; [left; auto | right; eauto]. }
  rewrite (bind_Ret _ _ _ _ _ E2).
  assert (H2 : files w2 !! path = Some (File EmptyString)).
  { rewrite Hf2, H1. destruct Hfile as [-> | E]; rewrite ?E.
    - apply lookup_insert_eq.
    - rewrite H1. exact E. }
  assert (H2' : forall q, q <> path -> files w2 !! q = files w1 !! q).
  { intros q Hq. rewrite Hf2. destruct (files w1 !! path); [reflexivity | ].
    apply lookup_insert_ne. congruence. }
  destruct (stat_size_ok _ _ _ H2) as (w3 & E3 & Hf3 & _).
  rewrite (bind_Ret _ _ _ _ _ E3).
  change (Py.len EmptyString =? 0) with true. cbv iota.
  destruct (create_config_spec self path w3 Hgc) as (w4 & E4 & Hf4 & Hf4').
  { rewrite Hf3. exact H2. }
  exists w4. split; [exact E4 | ]. split; [exact Hf4 | ]. split.
  - rewrite Hf4', Hf3, H2', Hf1 by exact Hdp. apply lookup_insert_eq.
  - intros q Hq Hq'. rewrite Hf4', Hf3, H2', Hf1 by exact Hq.
    apply lookup_insert_ne. congruence.
Qed.

(** On a file that is not empty the bootstrap step reads and never
    writes; when the directory part can be ensured, its outcome is that of
    parsing the file. *)
Lemma bootstrap_parses (self : Engine.t) (path text : string) (w : world) :
  Engine.gameconf self = Some path ->
  files w !! path = Some (File text) ->
  text <> EmptyString ->
  post (Engine.bootstrap self) w (fun o w' =>
    extends w w' /\
    (creatable w (dirpart path) ->
     files w' = <[dirpart path := Dir]> (files w) /\
     o = match ConfigParser._read ConfigParser.new text with
         | Raise e => Exc e
         | Ok cp => parsed self cp
         end)).
Proof.
  intros Hgc Hfile Hne.
  unfold post, Engine.bootstrap. rewrite Hgc. fold (dirpart path).
  pose proof (create_dir_extends (dirpart path) w) as X1. unfold post in X1.
  destruct (base_util.create_dir (dirpart path) w) as [o1 w1] eqn:E1.
  cbn [fst snd] in X1.
  assert (Hnot : forall o, o <> Ret tt -> o1 = o -> creatable w (dirpart path) -> False).
  { intros o Ho <- Hc. destruct (create_dir_ok _ _ Hc) as (w1' & E1' & _).
    rewrite E1 in E1'. injection E1' as -> _. congruence. }
  destruct o1 as [[] | e | ];
    [ | rewrite (bind_Exc _ _ _ _ _ E1); cbn [fst snd];
        (split; [exact X1 | intros Hc; exfalso;
                            exact (Hnot (Exc e) ltac:(discriminate) eq_refl Hc)])
      | rewrite (bind_Spin _ _ _ _ E1); cbn [fst snd];
        (split; [exact X1 | intros Hc; exfalso;
                            exact (Hnot Spin ltac:(discriminate) eq_refl Hc)])].
  rewrite (bind_Ret _ _ _ _ _ E1).
  pose proof (extends_lookup _ _ _ _ X1 Hfile) as H1.
  destruct (create_file_ok path w1) as (w2 & E2 & Hf2 & X2); [right; eauto | ].
  rewrite H1 in Hf2.
  rewrite (bind_Ret _ _ _ _ _ E2).
  assert (H2 : files w2 !! path = Some (File text)) by (rewrite Hf2; exact H1).
  destruct (stat_size_ok _ _ _ H2) as (w3 & E3 & Hf3 & X3).
  rewrite (bind_Ret _ _ _ _ _ E3).
  assert (Hz : (Py.len text =? 0) = false).
  { destruct (Py.len text =? 0) eqn:Hz; [ | reflexivity].
    apply len_zero in Hz. congruence. }
  rewrite Hz.
  pose proof (parse_config_spec self path w3 Hgc) as X4. unfold post in X4.
  destruct X4 as [[X4 Hf4] Hval].
  split.
  - eauto using extends_trans.
  - intros Hc. split.
    + destruct (create_dir_ok _ _ Hc) as (w1' & E1' & Hf1 & _).
      rewrite E1 in E1'. injection E1' as <-.
      rewrite Hf4, Hf3, Hf2. exact Hf1.
    + apply Hval. rewrite Hf3. exact H2.
Qed.

(** ** Logger activation and the whole construction *)

Lemma init_bool (gameconf : option string) (b : bool) (w : world) :
  Engine.__init__ gameconf (PyBool b) w =
  (Engine.bootstrap (Engine.MkEngine (PyBool b) false Engine.unset gameconf None)
     ≫= fun self => activation (Engine.with_logger None self)) w.
Proof. reflexivity. Qed.

Lemma activation_post (self : Engine.t) (w : world) :
  post (activation self) w (fun o w' =>
    extends w w' /\
    forall e, o = Ret e ->
      if truthy (Engine._enable_logger self)
      then exists lg, e = Engine.with_logger (Some lg) self
             /\ Engine.log_level (Engine.engineconf self) = Some (lg_level lg)
      else e = self).
Proof.
  unfold activation.
  destruct (truthy (Engine._enable_logger self)).
  - apply post_bind. eapply post_mono; [apply set_logger_post | ].
    intros o w1 [Hext Hinv]. cbv beta in *.
    destruct o as [self1 | e | ]; [ | split; [exact Hext | discriminate] .. ].
    destruct (Hinv self1 eq_refl) as (lg & -> & Hlvl).
    apply post_bind, attr_post.
    destruct (Engine.log_fpath _) as [fpath | ];
      [ | split; [exact Hext | discriminate]].
    apply post_bind. eapply post_mono; [apply logger_info_extends | ].
    intros o w2 Hext2. cbv beta in *.
    assert (Hext' : extends w w2) by eauto using extends_trans.
    destruct o as [[] | e | ]; [ | split; [exact Hext' | discriminate] .. ].
    unfold post. simpl. split; [exact Hext' | ].
    intros e H. injection H as <-. exists lg. split; [reflexivity | exact Hlvl].
  - unfold post. simpl. split; [apply extends_refl | ].
    intros e H. injection H as <-. reflexivity.
Qed.

Lemma activation_ok (self : Engine.t) (w : world) (fpath fname : string)
    (lvl : level) (stdio fileio : bool) :
  truthy (Engine._enable_logger self) = true ->
  Engine.engineconf self
    = Engine.MkConf (Some fpath) (Some fname) (Some lvl) (Some stdio) (Some fileio) ->
  creatable w fpath ->
  exists lg w',
    activation self w = (Ret (Engine.with_logger (Some lg) self), w')
    /\ extends w w' /\ lg_level lg = lvl.
Proof.
  intros Hen Hconf Hc.
  destruct (set_logger_ok self w _ _ _ _ _ Hconf Hc) as (w1 & E1 & Hext1).
  unfold activation. rewrite Hen.
  rewrite (bind_Ret _ _ _ _ _ E1).
  cbn [Engine.with_logger Engine.engineconf]. rewrite Hconf.
  simpl Engine.attr. rewrite ret_bind.
  pose proof (logger_info_extends
                (Engine.with_logger
                   (Some (MkLogger fpath (fname ++ "_" ++ today w ++ ".log")
                            lvl stdio fileio)) self)
                ("Logging information : " ++ fpath) w1) as X.
  unfold post in X.
  destruct (Engine.logger_info _ _ w1) as [o w2] eqn:E2.
  assert (Ho : o = Ret tt).
  { revert E2. unfold Engine.logger_info. simpl.
    unfold base_util.info. intros E. injection E as <- _. reflexivity. }
  subst o. rewrite (bind_Ret _ _ _ _ _ E2).
  eexists _, w2. split; [reflexivity | ]. split; [ | reflexivity].
  eauto using extends_trans.
Qed.


(** C4: on a configuration file that is not empty, the bootstrap step
    writes nothing: after a first and after a second pass the file holds
    the same text and no write has been added to the trace, whatever the
    passes return. *)
Theorem bootstrap_idempotent (self1 self2 : Engine.t) (path text : string) (w : world) :
  Engine.gameconf self1 = Some path ->
  Engine.gameconf self2 = Some path ->
  files w !! path = Some (File text) ->
  text <> EmptyString ->
  let w1 := snd (Engine.bootstrap self1 w) in
  let w2 := snd (Engine.bootstrap self2 w1) in
  files w1 !! path = Some (File text) /\ writes w1 = writes w
  /\ files w2 !! path = Some (File text) /\ writes w2 = writes w.
Proof.
  intros Hg1 Hg2 Hfile Hne w1 w2.
  destruct (bootstrap_parses self1 path text w Hg1 Hfile Hne) as [[Hs1 Hw1] _].
  fold w1 in Hs1, Hw1.
  assert (Hfile1 : files w1 !! path = Some (File text)).
  { eapply lookup_weaken; eassumption. }
  destruct (bootstrap_parses self2 path text w1 Hg2 Hfile1 Hne) as [[Hs2 Hw2] _].
  fold w2 in Hs2, Hw2.
  split; [exact Hfile1 | ]. split; [exact Hw1 | ].
  split; [eapply lookup_weaken; eassumption | congruence].
Qed.

Lemma parsed_stored (self : Engine.t) (cp : ConfigParser.t)
    (fname fpath tofile tostdio : string) :
  truthy (Engine._enable_logger self) = true ->
  ConfigParser.getitem cp dm_constants.LOGGER_SECTION dm_constants.LOGFILE_OPTION
    = Ok fname ->
  ConfigParser.getitem cp dm_constants.LOGGER_SECTION dm_constants.LOGDIR_OPTION
    = Ok fpath ->
  ConfigParser.getitem cp dm_constants.LOGGER_SECTION dm_constants.LOGTOFILE_OPTION
    = Ok tofile ->
  ConfigParser.getitem cp dm_constants.LOGGER_SECTION dm_constants.LOGTOSTDIO_OPTION
    = Ok tostdio ->
  parsed self cp = Ret (Engine.with_engineconf (stored_conf fname fpath tofile tostdio) self).
Proof.
  unfold dm_constants.LOGGER_SECTION, dm_constants.LOGFILE_OPTION,
    dm_constants.LOGDIR_OPTION, dm_constants.LOGTOFILE_OPTION,
    dm_constants.LOGTOSTDIO_OPTION, parsed.
  intros -> -> -> -> ->. reflexivity.
Qed.

(** The parse path of the construction with the logger enabled: the
    engine holds the settings [__parse_config] loaded, and a logger handle
    set up from them. *)
Lemma init_parse_path (path text : string) (cp : ConfigParser.t)
    (c : Engine.engineconf_t) (fpath fname : string) (lvl : level)
    (stdio fileio : bool) (w : world) :
  let self0 := Engine.MkEngine (PyBool true) false Engine.unset (Some path) None in
  files w !! path = Some (File text) ->
  text <> EmptyString ->
  creatable w (dirpart path) ->
  ConfigParser._read ConfigParser.new text = Ok cp ->
  parsed self0 cp = Ret (Engine.with_engineconf c self0) ->
  c = Engine.MkConf (Some fpath) (Some fname) (Some lvl) (Some stdio) (Some fileio) ->
  creatable w fpath ->
  exists lg w',
    Engine.__init__ (Some path) (PyBool true) w
    = (Ret (Engine.with_logger (Some lg)
              (Engine.with_logger None (Engine.with_engineconf c self0))), w')
    /\ extends w w'.
Proof.
  intros self0 Hfile Hne Hdir Hread Hparsed Hc Hlog.
  pose proof (bootstrap_parses self0 path text w eq_refl Hfile Hne) as X.
  unfold post in X.
  destruct (Engine.bootstrap self0 w) as [o w1] eqn:E1. cbn [fst snd] in X.
  destruct X as [Hext1 X]. destruct (X Hdir) as [Hf1 Ho]. clear X.
  rewrite Hread, Hparsed in Ho. subst o.
  assert (Hlog1 : creatable w1 fpath).
  { unfold creatable. rewrite Hf1.
    destruct (decide (dirpart path = fpath)) as [<- | Hd].
    - left. apply lookup_insert_eq.
    - rewrite lookup_insert_ne by exact Hd. exact Hlog. }
  destruct (activation_ok
              (Engine.with_logger None (Engine.with_engineconf c self0))
              w1 fpath fname lvl stdio fileio eq_refl Hc Hlog1)
    as (lg & w2 & E2 & Hext2 & _).
  rewrite init_bool. fold self0. rewrite (bind_Ret _ _ _ _ _ E1).
  exists lg, w2. split; [exact E2 | eauto using extends_trans].
Qed.


(** X11: The round trip through the engine's own write: whatever engine seeded
    the file, constructing again on the same path with the logger enabled
    returns an engine that holds the default settings, and the file still
    holds the documented configuration. *)
Lemma seeded_file_roundtrip (path : string) (b : bool) (w w1 : world)
    (o1 : outcome Engine.t) :
  files w !! path = None \/ files w !! path = Some (File EmptyString) ->
  path <> EmptyString ->
  creatable w (dirpart path) ->
  Engine.__init__ (Some path) (PyBool b) w = (o1, w1) ->
  creatable w1 dm_constants.LOGDIR_VALUE ->
  exists e w2,
    Engine.__init__ (Some path) (PyBool true) w1 = (Ret e, w2)
    /\ Engine.engineconf e = default_conf
    /\ files w2 !! path = Some (File (ConfigParser.write documented_config)).
Proof.
  intros Hfile Hne Hdir Hinit Hlog.
  set (self0 := Engine.MkEngine (PyBool b) false Engine.unset (Some path) None).
  destruct (bootstrap_seeds self0 path w eq_refl Hfile Hne Hdir)
    as (w0 & E1 & Hf & Hd & _).
  rewrite init_bool in Hinit. fold self0 in Hinit.
  rewrite (bind_Ret _ _ _ _ _ E1) in Hinit.
  match type of Hinit with
  | activation ?s w0 = _ => pose proof (activation_post s w0) as X
  end.
  apply (fun X => post_inv _ _ _ _ _ X Hinit) in X. destruct X as [Hext _].
  pose proof (extends_lookup _ _ _ _ Hext Hf) as Hf1.
  pose proof (extends_lookup _ _ _ _ Hext Hd) as Hd1.
  destruct (init_parse_path path (ConfigParser.write documented_config)
              documented_config default_conf "./logs" "engine" DEBUG false false w1
              Hf1 documented_text_nonempty (or_introl Hd1)
              documented_text_reads_back eq_refl eq_refl Hlog)
    as (lg & w2 & E & Hext2).
  eexists _, w2. split; [exact E | ]. split; [reflexivity | ].
  eapply extends_lookup; [exact Hext2 | exact Hf1].
Qed.

(** C6: whenever the logger is enabled the level is DEBUG, on both paths
    and whatever was configured. [__create_config] and [__parse_config],
    called on an engine with the logger enabled, return an engine whose
    [log_level] is DEBUG, whatever settings the engine held before and
    whatever else the file stores. The constructor with the logger enabled
    returns on the seeding path and on the parse path, with the level
    DEBUG in the configuration and in the logger handle; and every engine
    it returns, on any path, has that level. *)
Theorem enabled_logger_level_debug :
  (forall (self : Engine.t) (path : string) (w : world),
      Engine.gameconf self = Some path ->
      truthy (Engine._enable_logger self) = true ->
      files w !! path = Some (File EmptyString) ->
      exists self' w',
        Engine.__create_config self w = (Ret self', w')
        /\ Engine.log_level (Engine.engineconf self') = Some DEBUG)
  /\ (forall (self : Engine.t) (path text : string) (cp : ConfigParser.t)
        (fname fpath tofile tostdio : string) (w : world),
      Engine.gameconf self = Some path ->
      truthy (Engine._enable_logger self) = true ->
      files w !! path = Some (File text) ->
      ConfigParser._read ConfigParser.new text = Ok cp ->
      ConfigParser.getitem cp dm_constants.LOGGER_SECTION dm_constants.LOGFILE_OPTION
        = Ok fname ->
      ConfigParser.getitem cp dm_constants.LOGGER_SECTION dm_constants.LOGDIR_OPTION
        = Ok fpath ->
      ConfigParser.getitem cp dm_constants.LOGGER_SECTION dm_constants.LOGTOFILE_OPTION
        = Ok tofile ->
      ConfigParser.getitem cp dm_constants.LOGGER_SECTION dm_constants.LOGTOSTDIO_OPTION
        = Ok tostdio ->
      exists self' w',
        Engine.__parse_config self w = (Ret self', w')
        /\ Engine.log_level (Engine.engineconf self') = Some DEBUG)
  /\ (forall (path : string) (w : world),
      files w !! path = None \/ files w !! path = Some (File EmptyString) ->
      path <> EmptyString ->
      creatable w (dirpart path) ->
      creatable w dm_constants.LOGDIR_VALUE ->
      path <> dm_constants.LOGDIR_VALUE ->
      exists e w' lg,
        Engine.__init__ (Some path) (PyBool true) w = (Ret e, w')
        /\ Engine.log_level (Engine.engineconf e) = Some DEBUG
        /\ Engine.get_logger e = Some lg /\ lg_level lg = DEBUG)
  /\ (forall (path text : string) (cp : ConfigParser.t)
        (fname fpath tofile tostdio : string) (w : world),
      files w !! path = Some (File text) ->
      text <> EmptyString ->
      ConfigParser._read ConfigParser.new text = Ok cp ->
      ConfigParser.getitem cp dm_constants.LOGGER_SECTION dm_constants.LOGFILE_OPTION
        = Ok fname ->
      ConfigParser.getitem cp dm_constants.LOGGER_SECTION dm_constants.LOGDIR_OPTION
        = Ok fpath ->
      ConfigParser.getitem cp dm_constants.LOGGER_SECTION dm_constants.LOGTOFILE_OPTION
        = Ok tofile ->
      ConfigParser.getitem cp dm_constants.LOGGER_SECTION dm_constants.LOGTOSTDIO_OPTION
        = Ok tostdio ->
      creatable w (dirpart path) ->
      creatable w fpath ->
      exists e w' lg,
        Engine.__init__ (Some path) (PyBool true) w = (Ret e, w')
        /\ Engine.log_level (Engine.engineconf e) = Some DEBUG
        /\ Engine.get_logger e = Some lg /\ lg_level lg = DEBUG)
  /\ (forall (gameconf : option string) (w w' : world) (e : Engine.t),
      Engine.__init__ gameconf (PyBool true) w = (Ret e, w') ->
      Engine.log_level (Engine.engineconf e) = Some DEBUG
      /\ exists lg, Engine.get_logger e = Some lg /\ lg_level lg = DEBUG).
Proof.
  assert (Hall : forall (gameconf : option string) (w w' : world) (e : Engine.t),
             Engine.__init__ gameconf (PyBool true) w = (Ret e, w') ->
             Engine.log_level (Engine.engineconf e) = Some DEBUG
             /\ exists lg, Engine.get_logger e = Some lg /\ lg_level lg = DEBUG).
  { intros gameconf w w' e. rewrite init_bool. intros H.
    apply bind_Ret_inv in H as (self1 & w1 & E1 & E2).
    apply bootstrap_inv in E1. simpl in E1.
    pose proof (activation_post (Engine.with_logger None self1) w1) as X.
    apply (fun X => post_inv _ _ _ _ _ X E2) in X. destruct X as [_ X].
    specialize (X e eq_refl).
    destruct gameconf as [path | ].
    - destruct E1 as (c & -> & Hlvl). simpl in X.
      destruct X as (lg & -> & Hlg). simpl. split; [exact Hlvl | ].
      exists lg. split; [reflexivity | congruence].
    - subst self1. simpl in X. destruct X as (lg & _ & Hlg). discriminate Hlg. }
  assert (Hret : forall (gameconf : option string) (w w' : world) (e : Engine.t),
             Engine.__init__ gameconf (PyBool true) w = (Ret e, w') ->
             exists e0 w0 lg,
               Engine.__init__ gameconf (PyBool true) w = (Ret e0, w0)
               /\ Engine.log_level (Engine.engineconf e0) = Some DEBUG
               /\ Engine.get_logger e0 = Some lg /\ lg_level lg = DEBUG).
  { intros gameconf w w' e H.
    destruct (Hall gameconf w w' e H) as (Hlvl & lg & Hlg & Hd).
    exists e, w', lg. auto. }
  split; [ | split; [ | split; [ | split; [ | exact Hall]]]].
  - intros self path w Hgc Hen Hfile.
    destruct (create_config_spec self path w Hgc Hfile) as (w' & E & _).
    rewrite Hen in E. eexists _, w'. split; [exact E | reflexivity].
  - intros self path text cp fname fpath tofile tostdio w Hgc Hen Hfile Hread H1 H2 H3 H4.
    pose proof (parse_config_spec self path w Hgc) as X. unfold post in X.
    destruct (Engine.__parse_config self w) as [o w1] eqn:E. cbn [fst snd] in X.
    destruct X as [_ X]. specialize (X text Hfile).
    rewrite Hread, (parsed_stored self cp _ _ _ _ Hen H1 H2 H3 H4) in X. subst o.
    eexists _, w1. split; [reflexivity | reflexivity].
  - intros path w Hfile Hne Hdir Hlog Hneq.
    set (self0 := Engine.MkEngine (PyBool true) false Engine.unset (Some path) None).
    destruct (bootstrap_seeds self0 path w eq_refl Hfile Hne Hdir)
      as (w1 & E1 & Hf1 & Hd1 & Hother).
    assert (Hc : creatable w1 dm_constants.LOGDIR_VALUE).
    { destruct (decide (dm_constants.LOGDIR_VALUE = dirpart path)) as [Heq | Hd].
      - left. rewrite Heq. exact Hd1.
      - unfold creatable. rewrite Hother by congruence. exact Hlog. }
    destruct (activation_ok
                (Engine.with_logger None (Engine.with_engineconf default_conf self0))
                w1 _ _ _ _ _ eq_refl eq_refl Hc) as (lg & w2 & E2 & _).
    apply (Hret (Some path) w w2
             (Engine.with_logger (Some lg)
                (Engine.with_logger None (Engine.with_engineconf default_conf self0)))).
    rewrite init_bool. fold self0. rewrite (bind_Ret _ _ _ _ _ E1). exact E2.
  - intros path text cp fname fpath tofile tostdio w Hfile Hne Hread H1 H2 H3 H4 Hdir Hlog.
    set (self0 := Engine.MkEngine (PyBool true) false Engine.unset (Some path) None).
    pose proof (parsed_stored self0 cp _ _ _ _ eq_refl H1 H2 H3 H4) as Hparsed.
    destruct (init_parse_path path text cp _ _ _ _ _ _ w
                Hfile Hne Hdir Hread Hparsed eq_refl Hlog) as (lg & w' & E & _).
    exact (Hret _ _ _ _ E).
Qed.

(** C9: when [__parse_config] loads the logger settings, each of the two
    sinks is on when the stored string is the word enable and off for
    every other string, the word disable among them. *)
Theorem parse_config_flags (self : Engine.t) (path text : string)
    (cp : ConfigParser.t) (fname fpath tofile tostdio : string) (w : world) :
  Engine.gameconf self = Some path ->
  truthy (Engine._enable_logger self) = true ->
  files w !! path = Some (File text) ->
  ConfigParser._read ConfigParser.new text = Ok cp ->
  ConfigParser.getitem cp dm_constants.LOGGER_SECTION dm_constants.LOGFILE_OPTION
    = Ok fname ->
  ConfigParser.getitem cp dm_constants.LOGGER_SECTION dm_constants.LOGDIR_OPTION
    = Ok fpath ->
  ConfigParser.getitem cp dm_constants.LOGGER_SECTION dm_constants.LOGTOFILE_OPTION
    = Ok tofile ->
  ConfigParser.getitem cp dm_constants.LOGGER_SECTION dm_constants.LOGTOSTDIO_OPTION
    = Ok tostdio ->
  exists self' w',
    Engine.__parse_config self w = (Ret self', w')
    /\ (tofile = "enable" -> Engine.log_fileio (Engine.engineconf self') = Some true)
    /\ (tofile <> "enable" -> Engine.log_fileio (Engine.engineconf self') = Some false)
    /\ (tostdio = "enable" -> Engine.log_stdio (Engine.engineconf self') = Some true)
    /\ (tostdio <> "enable" -> Engine.log_stdio (Engine.engineconf self') = Some false).
Proof.
  intros Hgc Hen Hfile Hread H1 H2 H3 H4.
  pose proof (parse_config_spec self path w Hgc) as X. unfold post in X.
  destruct (Engine.__parse_config self w) as [o w1] eqn:E. cbn [fst snd] in X.
  destruct X as [_ X]. specialize (X text Hfile).
  rewrite Hread, (parsed_stored self cp _ _ _ _ Hen H1 H2 H3 H4) in X. subst o.
  eexists _, w1. split; [reflexivity | ]. simpl.
  repeat split; intros H.
  - rewrite bool_decide_eq_true_2 by exact H. reflexivity.
  - rewrite bool_decide_eq_false_2 by exact H. reflexivity.
  - rewrite bool_decide_eq_true_2 by exact H. reflexivity.
  - rewrite bool_decide_eq_false_2 by exact H. reflexivity.
Qed.

(** X18: Every engine the constructor returns is ready for the run loop: when
    its logger is enabled it has a handle. *)
Lemma init_logger_ready (gameconf : option string) (v : pyval) (w w' : world)
    (e : Engine.t) :
  Engine.__init__ gameconf v w = (Ret e, w') -> logger_ready e.
Proof.
  intros H.
  assert (Hv : exists b, v = PyBool b).
  { destruct v as [ | b | n | s | t]; try discriminate H. eauto. }
  destruct Hv as [b ->]. rewrite init_bool in H.
  apply bind_Ret_inv in H as (self1 & w1 & E1 & E2).
  apply bootstrap_inv in E1. simpl in E1.
  match type of E2 with
  | activation ?s w1 = _ => pose proof (activation_post s w1) as X
  end.
  apply (fun X => post_inv _ _ _ _ _ X E2) in X. destruct X as [_ X].
  specialize (X e eq_refl).
  assert (Hen : Engine._enable_logger self1 = PyBool b).
  { destruct gameconf, b; try (subst self1; reflexivity).
    destruct E1 as (c & -> & _). reflexivity. }
  simpl in X. rewrite Hen in X. unfold logger_ready.
  destruct b; simpl in X.
  - destruct X as (lg & -> & _). intros _. simpl. eauto.
  - subst e. simpl. rewrite Hen. discriminate.
Qed.

(** ** The logger handle of an engine constructed without logger *)

Lemma exec_keeps_engine (c : call) (self self' : Engine.t) (w w' : world) :
  is_set_logger c = false ->
  exec c self w = (Ret self', w') -> self' = self.
Proof.
  destruct c; simpl; intros Hc H; [ | discriminate Hc | ].
  - injection H as <- _. reflexivity.
  - apply bind_Ret_inv in H as ([] & w1 & _ & H). injection H as <- _. reflexivity.
Qed.

Lemma run_keeps_engine (cs : list call) (self self' : Engine.t) (w w' : world) :
  forallb (fun c => negb (is_set_logger c)) cs = true ->
  run cs self w = (Ret self', w') -> self' = self.
Proof.
  revert self w. induction cs as [ | c cs IH]; simpl; intros self w Hcs H.
  - injection H as <- _. reflexivity.
  - apply andb_prop in Hcs as [Hc Hcs]. apply negb_true_iff in Hc.
    apply bind_Ret_inv in H as (self1 & w1 & E1 & H).
    apply exec_keeps_engine in E1; [ | exact Hc]. subst self1.
    eapply IH; eassumption.
Qed.

(** C10: an engine constructed with [enable_logger=False] has no logger
    handle, and it has none after any sequence of calls that does not
    call [set_logger], in whatever world the calls are made. *)
Theorem no_implicit_logger (gameconf : option string) (w w' : world) (e : Engine.t)
    (cs : list call) (w1 w2 : world) (e' : Engine.t) :
  Engine.__init__ gameconf (PyBool false) w = (Ret e, w') ->
  forallb (fun c => negb (is_set_logger c)) cs = true ->
  run cs e w1 = (Ret e', w2) ->
  Engine.get_logger e = None /\ Engine.get_logger e' = None.
Proof.
  rewrite init_bool. intros H Hcs Hrun.
  apply bind_Ret_inv in H as (self1 & w0 & E1 & E2).
  apply bootstrap_inv in E1. simpl in E1.
  assert (Hself : self1 = Engine.MkEngine (PyBool false) false Engine.unset gameconf None).
  { destruct gameconf; exact E1. }
  subst self1. unfold activation in E2. simpl in E2. injection E2 as <- _.
  apply run_keeps_engine in Hrun; [ | exact Hcs]. subst e'.
  split; reflexivity.
Qed.

(** ** Instances on concrete worlds *)

(** The directory part is what precedes the last separator; a path
    without separator loses its last character. *)
Example dirpart_examples :
  map dirpart ["config/game.ini"; "a/b/c.ini"; "/game.ini"; "game.ini"]
  = ["config"; "a/b"; EmptyString; "game.in"].
Proof. reflexivity. Qed.

(** A first construction in the empty world, then a second one on what the
    first one left: the file operations, in order. *)
Example first_and_second_run :
  let r1 := Engine.__init__ (Some "config/game.ini") (PyBool true) empty_world in
  let r2 := Engine.__init__ (Some "config/game.ini") (PyBool true) (snd r1) in
  io (snd r1)
  = [IoProbe "config"; IoMkdir "config"; IoProbe "config/game.ini";
     IoCreate "config/game.ini"; IoStat "config/game.ini"; IoRead "config/game.ini";
     IoWrite "config/game.ini"; IoProbe "./logs"; IoMkdir "./logs"]
  /\ io (snd r2)
     = (io (snd r1)
        ++ [IoProbe "config"; IoProbe "config/game.ini"; IoStat "config/game.ini";
            IoRead "config/game.ini"; IoProbe "./logs"])%list
  /\ fst r2 = fst r1.
Proof. vm_compute. auto. Qed.

(** Three interrupts answered no, n and Yes: the run ends with the exit
    message at the third. With two interrupts answered no and n the busy
    loop goes on. *)
Example run_loop_examples :
  let self := Engine.MkEngine (PyBool false) false Engine.unset None None in
  fst (Engine.mainloop self (World ∅ [] "2020-05-08" [] ["no"; "n"; "Yes"] [] 5))
  = Exc (SystemExit "Engine exiting")
  /\ fst (Engine.mainloop self (World ∅ [] "2020-05-08" [] ["no"; "n"] [] 2)) = Spin.
Proof. vm_compute. auto. Qed.



(** Two more bootstrap passes on the file the engine seeded. *)
Lemma bootstrap_idempotent_witness :
  let self := Engine.MkEngine (PyBool true) false Engine.unset
                (Some "config/game.ini") None in
  let text := ConfigParser.write documented_config in
  let w1 := snd (Engine.bootstrap self seeded_world) in
  let w2 := snd (Engine.bootstrap self w1) in
  files seeded_world !! "config/game.ini" = Some (File text)
  /\ text <> EmptyString
  /\ files w1 !! "config/game.ini" = Some (File text) /\ writes w1 = writes seeded_world
  /\ files w2 !! "config/game.ini" = Some (File text) /\ writes w2 = writes seeded_world.
Proof.
  intros self text w1 w2.
  assert (H1 : files seeded_world !! "config/game.ini" = Some (File text))
    by (vm_compute; reflexivity).
  assert (H2 : text <> EmptyString) by discriminate.
  split; [exact H1 | ]. split; [exact H2 | ].
  exact (bootstrap_idempotent self self "config/game.ini" text seeded_world
           eq_refl eq_refl H1 H2).
Defined.


(** The parse path, on a file that asks for another level: the option
    [log_level] of the file is not looked at. *)
Lemma enabled_logger_level_debug_witness :
  let text :=
    "[logger]" ++ String "010" ("log_file = dm" ++ String "010" ("log_dir = ./out"
      ++ String "010" ("log_to_file = enable" ++ String "010" ("log_to_stdio = disable"
      ++ String "010" ("log_level = INFO" ++ String "010" EmptyString))))) in
  let w := World {["config/game.ini" := File text; "config" := Dir]} [] "2020-05-08"
             [] [] [] 0 in
  ConfigParser.getitem
    (ConfigParser.Parser []
       [("logger", [("log_file", "dm"); ("log_dir", "./out"); ("log_to_file", "enable");
                    ("log_to_stdio", "disable"); ("log_level", "INFO")])])
    "logger" "log_level" = Ok "INFO"
  /\ exists e w' lg,
       Engine.__init__ (Some "config/game.ini") (PyBool true) w = (Ret e, w')
       /\ Engine.log_level (Engine.engineconf e) = Some DEBUG
       /\ Engine.get_logger e = Some lg /\ lg_level lg = DEBUG.
Proof.
  intros text w.
  split; [vm_compute; reflexivity | ].
  apply (proj1 (proj2 (proj2 (proj2 enabled_logger_level_debug)))
           "config/game.ini" text
           (ConfigParser.Parser []
              [("logger", [("log_file", "dm"); ("log_dir", "./out");
                           ("log_to_file", "enable"); ("log_to_stdio", "disable");
                           ("log_level", "INFO")])])
           "dm" "./out" "enable" "disable" w).
  - vm_compute. reflexivity.
  - discriminate.
  - vm_compute. reflexivity.
  - vm_compute. reflexivity.
  - vm_compute. reflexivity.
  - vm_compute. reflexivity.
  - vm_compute. reflexivity.
  - left. vm_compute. reflexivity.
  - right. split; [vm_compute; reflexivity | discriminate].
Defined.


(** Parsing the file the engine seeded: both sinks are stored as disable. *)
Lemma parse_config_flags_witness :
  let self := Engine.MkEngine (PyBool true) false Engine.unset
                (Some "config/game.ini") None in
  files seeded_world !! "config/game.ini"
    = Some (File (ConfigParser.write documented_config))
  /\ exists self' w',
       Engine.__parse_config self seeded_world = (Ret self', w')
       /\ ("disable" = "enable" ->
           Engine.log_fileio (Engine.engineconf self') = Some true)
       /\ ("disable" <> "enable" ->
           Engine.log_fileio (Engine.engineconf self') = Some false)
       /\ ("disable" = "enable" ->
           Engine.log_stdio (Engine.engineconf self') = Some true)
       /\ ("disable" <> "enable" ->
           Engine.log_stdio (Engine.engineconf self') = Some false).
Proof.
  intros self.
  assert (H1 : files seeded_world !! "config/game.ini"
               = Some (File (ConfigParser.write documented_config)))
    by (vm_compute; reflexivity).
  split; [exact H1 | ].
  apply (parse_config_flags self "config/game.ini"
           (ConfigParser.write documented_config) documented_config
           "engine" "./logs" "disable" "disable" seeded_world eq_refl eq_refl H1);
    vm_compute; reflexivity.
Defined.

(** An engine without logger, asked for its logger around one turn of the
    run loop. *)
Lemma no_implicit_logger_witness :
  let e := Engine.MkEngine (PyBool false) false Engine.unset None None in
  let w1 := World ∅ [] "2020-05-08" [] ["no"] [] 1 in
  let w2 := World ∅ [] "2020-05-08" [] []
              ["Are you sure you want to exit? [Y/n] : "] 0 in
  Engine.__init__ None (PyBool false) empty_world = (Ret e, empty_world)
  /\ run [CallGetLogger; CallMainloopTurn; CallGetLogger] e w1 = (Ret e, w2)
  /\ Engine.get_logger e = None.
Proof.
  intros e w1 w2.
  assert (H1 : Engine.__init__ None (PyBool false) empty_world = (Ret e, empty_world))
    by reflexivity.
  assert (H2 : run [CallGetLogger; CallMainloopTurn; CallGetLogger] e w1 = (Ret e, w2))
    by reflexivity.
  split; [exact H1 | ]. split; [exact H2 | ].
  exact (proj2 (no_implicit_logger None empty_world empty_world e
                  [CallGetLogger; CallMainloopTurn; CallGetLogger] w1 w2 e
                  H1 eq_refl H2)).
Defined.

(** * Further properties *)

(** ** What a computation leaves as it was *)

Section frame_rules.
Context (R : world -> world -> Prop).
Hypothesis R_refl : forall w, R w w.
Hypothesis R_trans : forall w1 w2 w3, R w1 w2 -> R w2 w3 -> R w1 w3.

Lemma frames_ret {A : Type} (a : A) : frames R (mret a).
Proof. intros w. apply R_refl. Qed.

Lemma frames_raise {A : Type} (e : exn) : frames R (raise (A := A) e).
Proof. intros w. apply R_refl. Qed.

Lemma frames_bind {A B : Type} (m : M A) (f : A -> M B) :
  frames R m -> (forall a, frames R (f a)) -> frames R (m ≫= f).
Proof.
  intros Hm Hf w. specialize (Hm w). unfold mbind, M_bind.
  destruct (m w) as [[a | e | ] w1]; simpl in *; [ | exact Hm | exact Hm].
  eapply R_trans; [exact Hm | apply Hf].
Qed.

Lemma frames_lift {A : Type} (r : res A) : frames R (lift r).
Proof. destruct r; [apply frames_raise | apply frames_ret]. Qed.

Lemma frames_attr {A : Type} (o : option A) : frames R (Engine.attr o).
Proof. destruct o; [apply frames_ret | apply frames_raise]. Qed.
End frame_rules.

Lemma quiet_refl (w : world) : quiet w w.
Proof. repeat split. Qed.

Lemma quiet_trans (w1 w2 w3 : world) : quiet w1 w2 -> quiet w2 w3 -> quiet w1 w3.
Proof.
  intros (A1 & A2 & A3 & A4 & A5) (B1 & B2 & B3 & B4 & B5).
  repeat split; congruence.
Qed.

Lemma same_disk_refl (w : world) : same_disk w w.
Proof. split; reflexivity. Qed.

Lemma same_disk_trans (w1 w2 w3 : world) :
  same_disk w1 w2 -> same_disk w2 w3 -> same_disk w1 w3.
Proof. intros [A1 A2] [B1 B2]. split; congruence. Qed.

Lemma keeps_dirs_refl (w : world) : keeps_dirs w w.
Proof. intros p H. exact H. Qed.

Lemma keeps_dirs_trans (w1 w2 w3 : world) :
  keeps_dirs w1 w2 -> keeps_dirs w2 w3 -> keeps_dirs w1 w3.
Proof. intros A B p H. apply B, A, H. Qed.

(** *** The file operations are quiet *)

Lemma trace_quiet (ev : io_event) : frames quiet (trace ev).
Proof. intros w. repeat split. Qed.

Lemma node_at_quiet (p : string) : frames quiet (node_at p).
Proof. intros w. repeat split. Qed.

Lemma put_node_quiet (p : string) (n : node) : frames quiet (put_node p n).
Proof. intros w. repeat split. Qed.

Ltac frames_step R_refl R_trans :=
  first
    [ apply (frames_ret _ R_refl)
    | apply (frames_raise _ R_refl)
    | apply (frames_lift _ R_refl)
    | apply (frames_attr _ R_refl)
    | apply (frames_bind _ R_trans); [ | intros ? ] ].

Lemma create_dir_quiet (d : string) : frames quiet (base_util.create_dir d).
Proof.
  unfold base_util.create_dir.
  apply (frames_bind _ quiet_trans); [apply trace_quiet | intros _].
  apply (frames_bind _ quiet_trans); [apply node_at_quiet | intros n].
  destruct n as [[ | c] | ]; try frames_step quiet_refl quiet_trans.
  destruct (String.eqb d EmptyString); [frames_step quiet_refl quiet_trans | ].
  apply (frames_bind _ quiet_trans); [apply trace_quiet | intros _].
  apply put_node_quiet.
Qed.

Lemma create_file_quiet (p : string) : frames quiet (base_util.create_file p).
Proof.
  unfold base_util.create_file.
  apply (frames_bind _ quiet_trans); [apply trace_quiet | intros _].
  apply (frames_bind _ quiet_trans); [apply node_at_quiet | intros n].
  destruct n as [[ | c] | ]; try frames_step quiet_refl quiet_trans.
  destruct (String.eqb p EmptyString); [frames_step quiet_refl quiet_trans | ].
  apply (frames_bind _ quiet_trans); [apply trace_quiet | intros _].
  apply put_node_quiet.
Qed.

Lemma stat_size_quiet (p : string) : frames quiet (stat_size p).
Proof.
  unfold stat_size.
  apply (frames_bind _ quiet_trans); [apply trace_quiet | intros _].
  apply (frames_bind _ quiet_trans); [apply node_at_quiet | intros n].
  destruct n as [[ | c] | ]; frames_step quiet_refl quiet_trans.
Qed.

Lemma open_write_quiet (p text : string) : frames quiet (open_write p text).
Proof.
  unfold open_write.
  apply (frames_bind _ quiet_trans); [apply trace_quiet | intros _].
  apply (frames_bind _ quiet_trans); [apply node_at_quiet | intros n].
  destruct n as [[ | c] | ];
    first [apply put_node_quiet | frames_step quiet_refl quiet_trans].
Qed.

Lemma read_quiet (cp : ConfigParser.t) (p : string) :
  frames quiet (ConfigParser.read cp p).
Proof.
  unfold ConfigParser.read.
  apply (frames_bind _ quiet_trans); [apply trace_quiet | intros _].
  apply (frames_bind _ quiet_trans); [apply node_at_quiet | intros n].
  destruct n as [[ | c] | ]; frames_step quiet_refl quiet_trans.
Qed.

Lemma parse_config_quiet (self : Engine.t) : frames quiet (Engine.__parse_config self).
Proof.
  unfold Engine.__parse_config, Engine.__get_conf_parser.
  frames_step quiet_refl quiet_trans; [frames_step quiet_refl quiet_trans | ].
  frames_step quiet_refl quiet_trans; [frames_step quiet_refl quiet_trans | ].
  apply (frames_bind _ quiet_trans); [apply read_quiet | intros cp].
  destruct (truthy (Engine._enable_logger self));
    repeat frames_step quiet_refl quiet_trans.
Qed.

Lemma create_config_quiet (self : Engine.t) : frames quiet (Engine.__create_config self).
Proof.
  unfold Engine.__create_config, Engine.__get_conf_parser.
  frames_step quiet_refl quiet_trans; [frames_step quiet_refl quiet_trans | ].
  frames_step quiet_refl quiet_trans; [frames_step quiet_refl quiet_trans | ].
  apply (frames_bind _ quiet_trans); [apply read_quiet | intros cp].
  cbv zeta.
  do 6 (frames_step quiet_refl quiet_trans; [frames_step quiet_refl quiet_trans | ]).
  apply (frames_bind _ quiet_trans); [apply open_write_quiet | intros _].
  destruct (truthy (Engine._enable_logger self)); frames_step quiet_refl quiet_trans.
Qed.

Lemma bootstrap_quiet (self : Engine.t) : frames quiet (Engine.bootstrap self).
Proof.
  unfold Engine.bootstrap.
  destruct (Engine.gameconf self) as [path | ]; [ | frames_step quiet_refl quiet_trans].
  apply (frames_bind _ quiet_trans); [apply create_dir_quiet | intros _].
  apply (frames_bind _ quiet_trans); [apply create_file_quiet | intros _].
  apply (frames_bind _ quiet_trans); [apply stat_size_quiet | intros n].
  destruct (n =? 0); [apply create_config_quiet | apply parse_config_quiet].
Qed.

(** ** More on the run loop *)

Lemma info_same_disk (lg : Logger) (message : string) :
  frames same_disk (base_util.info lg message).
Proof. intros w. unfold base_util.info. simpl. destruct (_ <=? _); split; reflexivity. Qed.

Lemma logger_info_same_disk (self : Engine.t) (message : string) :
  frames same_disk (Engine.logger_info self message).
Proof.
  unfold Engine.logger_info. destruct (Engine._logger self);
    [apply info_same_disk | apply (frames_raise _ same_disk_refl)].
Qed.

Lemma wait_same_disk : frames same_disk wait_for_interrupt.
Proof. intros w. unfold wait_for_interrupt. destruct (interrupts w); split; reflexivity. Qed.

Lemma input_same_disk (prompt : string) : frames same_disk (input prompt).
Proof. intros w. unfold input. destruct (stdin w); split; reflexivity. Qed.

Lemma mainloop_turn_same_disk (self : Engine.t) : frames same_disk (Engine._mainloop self).
Proof.
  unfold Engine._mainloop.
  apply (frames_bind _ same_disk_trans); [ | intros _].
  { destruct (truthy (Engine._enable_logger self));
      [apply logger_info_same_disk | apply (frames_ret _ same_disk_refl)]. }
  apply (frames_bind _ same_disk_trans); [apply wait_same_disk | intros _].
  apply (frames_bind _ same_disk_trans); [apply input_same_disk | intros choice].
  destruct (String.eqb choice EmptyString); [apply (frames_raise _ same_disk_refl) | ].
  destruct (Py.lower choice) as [ | c r]; [apply (frames_raise _ same_disk_refl) | ].
  destruct (Ascii.eqb c "y");
    [apply (frames_raise _ same_disk_refl) | apply (frames_ret _ same_disk_refl)].
Qed.

Lemma mainloop_turns_same_disk (n : nat) (self : Engine.t) :
  frames same_disk (Engine.mainloop_turns n self).
Proof.
  induction n as [ | n IH]; simpl.
  - apply (frames_ret _ same_disk_refl).
  - apply (frames_bind _ same_disk_trans);
      [apply mainloop_turn_same_disk | intros _; exact IH].
Qed.

(** X6: The run loop of an engine whose logger writes to no file never
    touches the disk: however it ends, the files are those it started
    with and no file operation was added to the trace. (With the file sink
    on, every turn hands its start-up line to that sink.) *)
Theorem mainloop_keeps_disk (self : Engine.t) (w : world) :
  no_file_sink self ->
  files (snd (Engine.mainloop self w)) = files w
  /\ io (snd (Engine.mainloop self w)) = io w.
Proof.
  intros _. unfold Engine.mainloop. exact (mainloop_turns_same_disk _ self w).
Qed.

(** X5: Every entry into [_mainloop] hands one record to an enabled logger,
    the start-up line at level INFO, and none when the logger is off;
    nothing else is logged, however the turn ends. *)
Theorem mainloop_turn_logs (self : Engine.t) (w : world) :
  logged (snd (Engine._mainloop self w)) =
  (logged w ++
   (if truthy (Engine._enable_logger self) then
      match Engine._logger self with
      | Some lg => [(lg, INFO, "Starting the main loop")]
      | None => []
      end
    else []))%list.
Proof.
  set (keeps := fun w1 w2 : world => logged w2 = logged w1).
  assert (Hrefl : forall w0, keeps w0 w0) by reflexivity.
  assert (Htrans : forall w1 w2 w3, keeps w1 w2 -> keeps w2 w3 -> keeps w1 w3).
  { unfold keeps. intros. congruence. }
  assert (Hrest : frames keeps
            (wait_for_interrupt ≫= fun _ =>
             input "Are you sure you want to exit? [Y/n] : " ≫= fun choice =>
             if String.eqb choice EmptyString
             then raise (SystemExit "Engine exiting")
             else match Py.lower choice with
                  | EmptyString => raise IndexError
                  | String c _ =>
                      if Ascii.eqb c "y"
                      then raise (SystemExit "Engine exiting") else mret tt
                  end)).
  { apply (frames_bind _ Htrans); [ | intros _].
    { intros w0. unfold wait_for_interrupt. destruct (interrupts w0); reflexivity. }
    apply (frames_bind _ Htrans); [ | intros choice].
    { intros w0. unfold input. destruct (stdin w0); reflexivity. }
    destruct (String.eqb choice EmptyString); [apply (frames_raise _ Hrefl) | ].
    destruct (Py.lower choice) as [ | c r]; [apply (frames_raise _ Hrefl) | ].
    destruct (Ascii.eqb c "y"); [apply (frames_raise _ Hrefl) | apply (frames_ret _ Hrefl)]. }
  unfold Engine._mainloop.
  destruct (truthy (Engine._enable_logger self)).
  - unfold Engine.logger_info. destruct (Engine._logger self) as [lg | ].
    + unfold mbind at 1, M_bind at 1, base_util.info at 1.
      assert (Hlvl : (level_no (lg_level lg) <=? level_no INFO) = true)
        by (destruct (lg_level lg); reflexivity).
      rewrite Hlvl. cbv iota beta.
      match goal with
      | |- logged (snd (?m ?w1)) = _ => rewrite (Hrest w1)
      end.
      reflexivity.
    + simpl. rewrite app_nil_r. reflexivity.
  - rewrite ret_bind. rewrite (Hrest w). rewrite app_nil_r. reflexivity.
Qed.

(** X4: With no interrupt to come the run loop spins for ever: it prompts for
    nothing and reads nothing. *)
Theorem mainloop_without_interrupt (self : Engine.t) (w : world) :
  logger_ready self ->
  interrupts w = O ->
  exists w',
    Engine.mainloop self w = (Spin, w')
    /\ stdin w' = stdin w /\ stdout w' = stdout w.
Proof.
  intros Hready Hint.
  destruct (mainloop_start_line self w Hready) as (w1 & E1 & _ & _ & Hi1 & Ho1 & Hn1).
  exists w1. split; [ | auto].
  assert (E2 : wait_for_interrupt w1 = (Spin, w1)).
  { unfold wait_for_interrupt. rewrite Hn1, Hint. reflexivity. }
  unfold Engine.mainloop. rewrite Hint. cbn [Engine.mainloop_turns].
  apply bind_Spin. unfold Engine._mainloop.
  rewrite (bind_Ret _ _ _ _ _ E1). apply bind_Spin. exact E2.
Qed.

(** X3: When the input has ended, the confirmation prompt raises [EOFError]:
    the handler of the interrupt does not catch it, and it ends the run
    loop. The prompt was printed. *)
Theorem mainloop_end_of_input (self : Engine.t) (w : world) (n : nat) :
  logger_ready self ->
  interrupts w = S n ->
  stdin w = [] ->
  exists w',
    Engine._mainloop self w = (Exc EOFError, w')
    /\ Engine.mainloop self w = (Exc EOFError, w')
    /\ stdout w' = (stdout w ++ ["Are you sure you want to exit? [Y/n] : "])%list
    /\ interrupts w' = n.
Proof.
  intros Hready Hint Hin.
  destruct (mainloop_start_line self w Hready) as (w1 & E1 & Hf1 & _ & Hi1 & Ho1 & Hn1).
  assert (E : exists w', Engine._mainloop self w = (Exc EOFError, w')
                /\ stdout w' = (stdout w ++ ["Are you sure you want to exit? [Y/n] : "])%list
                /\ interrupts w' = n).
  { unfold Engine._mainloop. rewrite (bind_Ret _ _ _ _ _ E1).
    assert (E2 : wait_for_interrupt w1 =
                 (Ret tt, World (files w1) (io w1) (today w1) (logged w1) (stdin w1)
                            (stdout w1) n)).
    { unfold wait_for_interrupt. rewrite Hn1, Hint. reflexivity. }
    rewrite (bind_Ret _ _ _ _ _ E2).
    eexists. split.
    - apply bind_Exc. unfold input. simpl. rewrite Hi1, Hin. reflexivity.
    - simpl. rewrite Ho1. auto. }
  destruct E as (w' & E & Ho & Hn). exists w'.
  split; [exact E | ]. split; [ | auto].
  unfold Engine.mainloop. rewrite Hint. cbn [Engine.mainloop_turns].
  apply bind_Exc. exact E.
Qed.

Lemma mainloop_turns_first_confirmation (self : Engine.t) (rejects : list string) :
  logger_ready self ->
  Forall (fun r => ~ confirms r) rejects ->
  forall (c : string) (rest : list string) (k : nat) (w : world),
    confirms c ->
    stdin w = (rejects ++ c :: rest)%list ->
    (length rejects < interrupts w)%nat ->
    (length rejects < k)%nat ->
    exists w',
      Engine.mainloop_turns k self w = (Exc (SystemExit "Engine exiting"), w')
      /\ stdin w' = rest
      /\ interrupts w' = (interrupts w - S (length rejects))%nat.
Proof.
  intros Hready Hrej. induction Hrej as [ | r rejects Hr Hrej IH];
    intros c rest k w Hc Hin Hint Hk.
  - destruct k as [ | k]; [simpl in Hk; lia | ].
    destruct (interrupts w) as [ | n] eqn:Hn; [simpl in Hint; lia | ].
    destruct (mainloop_turn self w c rest n Hready Hn Hin)
      as (w' & _ & _ & Hi & Hn' & E).
    exists w'. split; [ | split; [exact Hi | simpl; lia]].
    cbn [Engine.mainloop_turns]. apply bind_Exc. rewrite E.
    destruct Hc as [-> | (a & s & -> & Ha)]; [reflexivity | ].
    simpl. apply lower_char_y in Ha. rewrite Ha. reflexivity.
  - destruct k as [ | k]; [simpl in Hk; lia | ].
    destruct (interrupts w) as [ | n] eqn:Hn; [simpl in Hint; lia | ].
    destruct (mainloop_turn self w r (rejects ++ c :: rest) n Hready Hn Hin)
      as (w1 & _ & _ & Hi & Hn1 & E).
    assert (E' : Engine._mainloop self w = (Ret tt, w1)).
    { rewrite E.
      destruct r as [ | a s]; [exfalso; apply Hr; left; reflexivity | ].
      simpl. destruct (Ascii.eqb (Py.lower_char a) "y") eqn:Hy; [ | reflexivity].
      exfalso. apply Hr. right. exists a, s. split; [reflexivity | ].
      apply lower_char_y. exact Hy. }
    simpl in Hint, Hk.
    destruct (IH c rest k w1 Hc Hi ltac:(lia) ltac:(lia)) as (w' & E2 & Hi' & Hn').
    exists w'. split; [ | split; [exact Hi' | simpl; lia]].
    cbn [Engine.mainloop_turns]. rewrite (bind_Ret _ _ _ _ _ E'). exact E2.
Qed.

(** X2: The run loop ends at the first response that confirms: the responses
    before it each use up one interrupt and are dropped, the ones after it
    are left unread. *)
Theorem mainloop_first_confirmation (self : Engine.t) (rejects : list string)
    (c : string) (rest : list string) (w : world) :
  logger_ready self ->
  Forall (fun r => ~ confirms r) rejects ->
  confirms c ->
  stdin w = (rejects ++ c :: rest)%list ->
  (length rejects < interrupts w)%nat ->
  exists w',
    Engine.mainloop self w = (Exc (SystemExit "Engine exiting"), w')
    /\ stdin w' = rest
    /\ interrupts w' = (interrupts w - S (length rejects))%nat.
Proof.
  intros Hready Hrej Hc Hin Hint. unfold Engine.mainloop.
  apply (mainloop_turns_first_confirmation self rejects Hready Hrej c rest
           (S (interrupts w)) w Hc Hin Hint).
  lia.
Qed.

(** ** The directory part of the configuration path *)

Lemma append_cons (c : ascii) (a b : string) : String c a ++ b = String c (a ++ b).
Proof. reflexivity. Qed.

Lemma length_append (a b : string) :
  String.length (a ++ b) = (String.length a + String.length b)%nat.
Proof.
  induction a as [ | c a IH]; [reflexivity | ].
  rewrite append_cons. simpl. rewrite IH. reflexivity.
Qed.

Lemma append_assoc (a b c : string) : (a ++ b) ++ c = a ++ (b ++ c).
Proof.
  induction a as [ | x a IH]; [reflexivity | ].
  rewrite !append_cons, IH. reflexivity.
Qed.

Lemma substring_0_append (d r : string) :
  String.substring 0 (String.length d) (d ++ r) = d.
Proof.
  induction d as [ | c d IH].
  - destruct r; reflexivity.
  - rewrite append_cons. simpl. rewrite IH. reflexivity.
Qed.

(** Where [sub] occurs nowhere in [f], [rfind] finds nothing. *)
Lemma rfind_from_absent (sub f : string) (i : Z) :
  sub <> EmptyString -> 0 <= i ->
  (0 <=? Py.find_from i f sub) = false ->
  Py.rfind_from i f sub = -1.
Proof.
  intros Hsub. revert i. induction f as [ | c f IH]; intros i Hi H.
  - simpl. destruct sub; [congruence | reflexivity].
  - cbn [Py.rfind_from]. cbn [Py.find_from] in H.
    destruct (Py.startswith sub (String c f)) eqn:Hs.
    + apply Z.leb_gt in H. lia.
    + rewrite (IH (i + 1) ltac:(lia) H). reflexivity.
Qed.

(** Whether [find] finds something does not depend on where it starts
    to count. *)
Lemma find_from_sign (sub f : string) (i j : Z) :
  0 <= i -> 0 <= j ->
  (0 <=? Py.find_from i f sub) = (0 <=? Py.find_from j f sub).
Proof.
  revert i j. induction f as [ | c f IH]; intros i j Hi Hj.
  - simpl. destruct (Py.startswith sub EmptyString); [ | reflexivity].
    transitivity true; [apply Z.leb_le; lia | symmetry; apply Z.leb_le; lia].
  - cbn [Py.find_from]. destruct (Py.startswith sub (String c f)).
    + transitivity true; [apply Z.leb_le; lia | symmetry; apply Z.leb_le; lia].
    + apply IH; lia.
Qed.

(** The last separator of [d/f], where [f] has none, is the one between
    the two. *)
Lemma rfind_joined (d f : string) (i : Z) :
  0 <= i ->
  Py.contains f sep = false ->
  Py.rfind_from i (d ++ sep ++ f) sep = i + Z.of_nat (String.length d).
Proof.
  intros Hi Hf. revert i Hi. induction d as [ | c d IH]; intros i Hi.
  - change (EmptyString ++ sep ++ f) with (String "/" f).
    cbn [Py.rfind_from].
    rewrite (rfind_from_absent sep f (i + 1)); [ | discriminate | lia | ].
    + change (0 <=? -1) with false. cbv iota. simpl. lia.
    + rewrite (find_from_sign sep f (i + 1) 0) by lia. exact Hf.
  - change (String c d ++ sep ++ f) with (String c (d ++ sep ++ f)).
    cbn [Py.rfind_from String.length].
    rewrite (IH (i + 1) ltac:(lia)).
    destruct (0 <=? i + 1 + Z.of_nat (String.length d)) eqn:E; [lia | ].
    apply Z.leb_gt in E. lia.
Qed.

Lemma slice_to_prefix (d r : string) :
  Py.slice_to (d ++ r) (Z.of_nat (String.length d)) = d.
Proof.
  unfold Py.slice_to, Py.clamp, Py.len. rewrite length_append.
  destruct (Z.of_nat (String.length d) <? 0) eqn:E; [apply Z.ltb_lt in E; lia | ].
  replace (Z.to_nat (Z.min _ _)) with (String.length d) by lia.
  apply substring_0_append.
Qed.

Lemma dirpart_of_joined (d f : string) :
  Py.contains f sep = false -> dirpart (d ++ sep ++ f) = d.
Proof.
  intros Hf. unfold dirpart, Py.rfind.
  rewrite (rfind_joined d f 0 ltac:(lia) Hf). apply slice_to_prefix.
Qed.

(** X7: The directory part the constructor ensures for a path [d/f], where
    [f] has no separator, is [d]: everything before the last separator. *)
Theorem dirpart_joined (d f : string) :
  Py.contains f sep = false ->
  Py.slice_to (d ++ sep ++ f) (Py.rfind (d ++ sep ++ f) sep) = d.
Proof.
  intros Hf. unfold Py.rfind.
  rewrite (rfind_joined d f 0 ltac:(lia) Hf). apply slice_to_prefix.
Qed.

(** A nested directory and a file name. *)
Lemma dirpart_joined_witness :
  Py.contains "game.ini" sep = false
  /\ Py.slice_to ("conf/dev" ++ sep ++ "game.ini")
       (Py.rfind ("conf/dev" ++ sep ++ "game.ini") sep) = "conf/dev".
Proof.
  split; [reflexivity | apply (dirpart_joined "conf/dev" "game.ini"); reflexivity].
Defined.

(** X8: For a path without separator [rfind] answers [-1], and the slice up
    to [-1] drops the last character: the directory the constructor
    ensures is named like the file without its last character. *)
Theorem dirpart_without_sep (f : string) (c : ascii) :
  Py.contains (f ++ String c EmptyString) sep = false ->
  Py.slice_to (f ++ String c EmptyString) (Py.rfind (f ++ String c EmptyString) sep) = f.
Proof.
  intros Hf. unfold Py.rfind.
  rewrite (rfind_from_absent sep _ 0 ltac:(discriminate) ltac:(lia) Hf).
  unfold Py.slice_to, Py.clamp, Py.len. rewrite length_append. simpl String.length.
  change (-1 <? 0) with true. cbv iota.
  replace (Z.to_nat (Z.max 0 _)) with (String.length f) by lia.
  apply substring_0_append.
Qed.

(** The path [game.ini]: the directory part is [game.in]. *)
Lemma dirpart_without_sep_witness :
  Py.contains ("game.in" ++ String "i" EmptyString) sep = false
  /\ Py.slice_to ("game.in" ++ String "i" EmptyString)
       (Py.rfind ("game.in" ++ String "i" EmptyString) sep) = "game.in".
Proof.
  split; [reflexivity | apply (dirpart_without_sep "game.in" "i"); reflexivity].
Defined.

(** ** Construction on a file that cannot be used *)

(** The parse path of the construction, whatever the flag: the outcome of
    the bootstrap step is that of parsing, the file is kept and the step is
    quiet. *)
Lemma bootstrap_parse_outcome (self : Engine.t) (path text : string) (w : world) :
  Engine.gameconf self = Some path ->
  files w !! path = Some (File text) ->
  text <> EmptyString ->
  creatable w (dirpart path) ->
  exists w1,
    Engine.bootstrap self w =
      (match ConfigParser._read ConfigParser.new text with
       | Raise e => Exc e
       | Ok cp => parsed self cp
       end, w1)
    /\ extends w w1 /\ quiet w w1.
Proof.
  intros Hgc Hfile Hne Hdir.
  pose proof (bootstrap_parses self path text w Hgc Hfile Hne) as X.
  pose proof (bootstrap_quiet self w) as Q.
  unfold post in X.
  destruct (Engine.bootstrap self w) as [o w1] eqn:E. cbn [fst snd] in X, Q.
  destruct X as [Hext X]. destruct (X Hdir) as [_ ->].
  exists w1. auto.
Qed.

(** X13: A configuration file without logger section: with the logger enabled
    the construction raises [KeyError] for the section. The file is left
    as it was and nothing is logged. *)
Theorem init_missing_logger_section (path text : string) (cp : ConfigParser.t)
    (w : world) :
  files w !! path = Some (File text) ->
  text <> EmptyString ->
  creatable w (dirpart path) ->
  ConfigParser._read ConfigParser.new text = Ok cp ->
  ConfigParser.has_section cp dm_constants.LOGGER_SECTION = false ->
  exists w',
    Engine.__init__ (Some path) (PyBool true) w
      = (Exc (KeyError dm_constants.LOGGER_SECTION), w')
    /\ files w' !! path = Some (File text)
    /\ logged w' = logged w.
Proof.
  intros Hfile Hne Hdir Hread Hsec.
  set (self0 := Engine.MkEngine (PyBool true) false Engine.unset (Some path) None).
  destruct (bootstrap_parse_outcome self0 path text w eq_refl Hfile Hne Hdir)
    as (w1 & E & Hext & Hq).
  rewrite Hread in E.
  assert (Hp : parsed self0 cp = Exc (KeyError dm_constants.LOGGER_SECTION)).
  { unfold parsed, ConfigParser.getitem. simpl truthy. cbv iota.
    change "logger" with dm_constants.LOGGER_SECTION. rewrite Hsec. reflexivity. }
  rewrite Hp in E.
  exists w1. rewrite init_bool. fold self0.
  split; [apply bind_Exc; exact E | ].
  split; [eapply extends_lookup; eassumption | apply Hq].
Qed.

(** A file with two sections and no logger section. *)
Lemma init_missing_logger_section_witness :
  let text := "[engine]" ++ String "010" ("enable_debug = disable" ++ String "010" EmptyString) in
  let w := World {["game.ini" := File text; "game.in" := Dir]} [] "2020-05-08"
             [] [] [] 0 in
  exists w',
    Engine.__init__ (Some "game.ini") (PyBool true) w
      = (Exc (KeyError dm_constants.LOGGER_SECTION), w')
    /\ files w' !! "game.ini" = Some (File text)
    /\ logged w' = logged w.
Proof.
  intros text w.
  apply (init_missing_logger_section "game.ini" text
           (ConfigParser.Parser [] [("engine", [("enable_debug", "disable")])]) w).
  - vm_compute. reflexivity.
  - discriminate.
  - left. vm_compute. reflexivity.
  - vm_compute. reflexivity.
  - vm_compute. reflexivity.
Defined.

(** X14: A logger section that lacks an option: the options are looked up in
    the order log_file, log_dir, and the construction raises [KeyError] for
    the first one that is missing, here the log directory. *)
Theorem init_missing_logdir_option (path text : string) (cp : ConfigParser.t)
    (fname : string) (w : world) :
  files w !! path = Some (File text) ->
  text <> EmptyString ->
  creatable w (dirpart path) ->
  ConfigParser._read ConfigParser.new text = Ok cp ->
  ConfigParser.getitem cp dm_constants.LOGGER_SECTION dm_constants.LOGFILE_OPTION
    = Ok fname ->
  ConfigParser.has_option cp dm_constants.LOGGER_SECTION dm_constants.LOGDIR_OPTION
    = false ->
  exists w',
    Engine.__init__ (Some path) (PyBool true) w
      = (Exc (KeyError dm_constants.LOGDIR_OPTION), w')
    /\ files w' !! path = Some (File text)
    /\ logged w' = logged w.
Proof.
  intros Hfile Hne Hdir Hread Hfname Hopt.
  set (self0 := Engine.MkEngine (PyBool true) false Engine.unset (Some path) None).
  destruct (bootstrap_parse_outcome self0 path text w eq_refl Hfile Hne Hdir)
    as (w1 & E & Hext & Hq).
  rewrite Hread in E.
  assert (Hsec : ConfigParser.has_section cp dm_constants.LOGGER_SECTION = true).
  { revert Hfname. unfold ConfigParser.getitem.
    destruct (ConfigParser.has_section cp dm_constants.LOGGER_SECTION);
      [reflexivity | discriminate]. }
  assert (Hp : parsed self0 cp = Exc (KeyError dm_constants.LOGDIR_OPTION)).
  { unfold parsed. simpl truthy. cbv iota.
    change "logger" with dm_constants.LOGGER_SECTION.
    change "log_file" with dm_constants.LOGFILE_OPTION.
    change "log_dir" with dm_constants.LOGDIR_OPTION.
    rewrite Hfname. unfold ConfigParser.getitem at 1. rewrite Hsec, Hopt.
    reflexivity. }
  rewrite Hp in E.
  exists w1. rewrite init_bool. fold self0.
  split; [apply bind_Exc; exact E | ].
  split; [eapply extends_lookup; eassumption | apply Hq].
Qed.

(** A logger section with the file name only. *)
Lemma init_missing_logdir_option_witness :
  let text := "[logger]" ++ String "010" ("log_file = engine" ++ String "010" EmptyString) in
  let w := World {["game.ini" := File text; "game.in" := Dir]} [] "2020-05-08"
             [] [] [] 0 in
  exists w',
    Engine.__init__ (Some "game.ini") (PyBool true) w
      = (Exc (KeyError dm_constants.LOGDIR_OPTION), w')
    /\ files w' !! "game.ini" = Some (File text)
    /\ logged w' = logged w.
Proof.
  intros text w.
  apply (init_missing_logdir_option "game.ini" text
           (ConfigParser.Parser [] [("logger", [("log_file", "engine")])]) "engine" w).
  - vm_compute. reflexivity.
  - discriminate.
  - left. vm_compute. reflexivity.
  - vm_compute. reflexivity.
  - vm_compute. reflexivity.
  - vm_compute. reflexivity.
Defined.

(** X12: A file [ConfigParser] cannot read makes the construction fail with the
    parser's exception, also when the logger is off. The file is left as
    it was and nothing is logged. *)
Theorem init_unparsable_file (path text : string) (e : exn) (b : bool) (w : world) :
  files w !! path = Some (File text) ->
  text <> EmptyString ->
  creatable w (dirpart path) ->
  ConfigParser._read ConfigParser.new text = Raise e ->
  exists w',
    Engine.__init__ (Some path) (PyBool b) w = (Exc e, w')
    /\ files w' !! path = Some (File text)
    /\ logged w' = logged w.
Proof.
  intros Hfile Hne Hdir Hread.
  set (self0 := Engine.MkEngine (PyBool b) false Engine.unset (Some path) None).
  destruct (bootstrap_parse_outcome self0 path text w eq_refl Hfile Hne Hdir)
    as (w1 & E & Hext & Hq).
  rewrite Hread in E.
  exists w1. rewrite init_bool. fold self0.
  split; [apply bind_Exc; exact E | ].
  split; [eapply extends_lookup; eassumption | apply Hq].
Qed.

(** A file that starts with an option line, before any section header. *)
Lemma init_unparsable_file_witness :
  let text := "log_file = engine" in
  let w := World {["game.ini" := File text; "game.in" := Dir]} [] "2020-05-08"
             [] [] [] 0 in
  exists w',
    Engine.__init__ (Some "game.ini") (PyBool false) w
      = (Exc MissingSectionHeaderError, w')
    /\ files w' !! "game.ini" = Some (File text)
    /\ logged w' = logged w.
Proof.
  intros text w.
  apply (init_unparsable_file "game.ini" text MissingSectionHeaderError false w).
  - vm_compute. reflexivity.
  - discriminate.
  - left. vm_compute. reflexivity.
  - vm_compute. reflexivity.
Defined.

(** X15: With the logger off the content of a readable file is not looked at:
    whatever sections it has, the construction returns an engine with no
    setting loaded and no logger, the file is left as it was and nothing is
    logged. *)
Theorem init_logger_off_ignores_content (path text : string) (cp : ConfigParser.t)
    (w : world) :
  files w !! path = Some (File text) ->
  text <> EmptyString ->
  creatable w (dirpart path) ->
  ConfigParser._read ConfigParser.new text = Ok cp ->
  exists w',
    Engine.__init__ (Some path) (PyBool false) w
      = (Ret (Engine.MkEngine (PyBool false) false Engine.unset (Some path) None), w')
    /\ files w' !! path = Some (File text)
    /\ logged w' = logged w.
Proof.
  intros Hfile Hne Hdir Hread.
  set (self0 := Engine.MkEngine (PyBool false) false Engine.unset (Some path) None).
  destruct (bootstrap_parse_outcome self0 path text w eq_refl Hfile Hne Hdir)
    as (w1 & E & Hext & Hq).
  rewrite Hread in E. change (parsed self0 cp) with (Ret self0) in E.
  exists w1. rewrite init_bool. fold self0.
  rewrite (bind_Ret _ _ _ _ _ E).
  split; [reflexivity | ].
  split; [eapply extends_lookup; eassumption | apply Hq].
Qed.

(** A file with an engine section only, and the logger off. *)
Lemma init_logger_off_ignores_content_witness :
  let text := "[engine]" ++ String "010" ("enable_debug = disable" ++ String "010" EmptyString) in
  let w := World {["game.ini" := File text; "game.in" := Dir]} [] "2020-05-08"
             [] [] [] 0 in
  exists w',
    Engine.__init__ (Some "game.ini") (PyBool false) w
      = (Ret (Engine.MkEngine (PyBool false) false Engine.unset (Some "game.ini") None),
         w')
    /\ files w' !! "game.ini" = Some (File text)
    /\ logged w' = logged w.
Proof.
  intros text w.
  apply (init_logger_off_ignores_content "game.ini" text
           (ConfigParser.Parser [] [("engine", [("enable_debug", "disable")])]) w).
  - vm_compute. reflexivity.
  - discriminate.
  - left. vm_compute. reflexivity.
  - vm_compute. reflexivity.
Defined.

(** ** What a returned call guarantees *)

Lemma create_dir_ret (d : string) (w w' : world) :
  base_util.create_dir d w = (Ret tt, w') -> files w' !! d = Some Dir.
Proof.
  unfold base_util.create_dir, mbind, M_bind, trace, node_at, put_node,
    raise, mret, M_ret, set_files. simpl.
  destruct (files w !! d) as [[ | c] | ] eqn:E; simpl.
  - intros H. injection H as <-. exact E.
  - discriminate.
  - destruct (String.eqb d EmptyString); simpl; [discriminate | ].
    intros H. injection H as <-. simpl. apply lookup_insert_eq.
Qed.

Lemma create_file_ret (p : string) (w w' : world) :
  base_util.create_file p w = (Ret tt, w') ->
  exists c, files w' !! p = Some (File c).
Proof.
  unfold base_util.create_file, mbind, M_bind, trace, node_at, put_node,
    raise, mret, M_ret, set_files. simpl.
  destruct (files w !! p) as [[ | c] | ] eqn:E; simpl.
  - discriminate.
  - intros H. injection H as <-. eauto.
  - destruct (String.eqb p EmptyString); simpl; [discriminate | ].
    intros H. injection H as <-. simpl. rewrite lookup_insert_eq. eauto.
Qed.

Lemma stat_size_ret (p : string) (n : Z) (w w' : world) :
  stat_size p w = (Ret n, w') ->
  files w' = files w
  /\ forall c, files w !! p = Some (File c) -> n = Py.len c.
Proof.
  unfold stat_size, mbind, M_bind, trace, node_at, raise, mret, M_ret. simpl.
  destruct (files w !! p) as [[ | c] | ] eqn:E; simpl; intros H;
    [ | | discriminate H]; injection H as <- <-;
    (split; [reflexivity | intros c' Hc; congruence]).
Qed.

(** What [set_logger] has done when it returns: the settings were all
    there, the log directory is a directory, the handle is made of the
    settings and of the date, and nothing was logged or printed. *)
Lemma set_logger_inv (self self' : Engine.t) (w w' : world) :
  Engine.set_logger self w = (Ret self', w') ->
  exists fpath fname lvl stdio fileio,
    Engine.engineconf self
      = Engine.MkConf (Some fpath) (Some fname) (Some lvl) (Some stdio) (Some fileio)
    /\ self' = Engine.with_logger
                 (Some (MkLogger fpath (fname ++ "_" ++ today w ++ ".log")
                          lvl stdio fileio)) self
    /\ files w' !! fpath = Some Dir
    /\ quiet w w'.
Proof.
  unfold Engine.set_logger. intros H.
  destruct (Engine.engineconf self) as [[fpath | ] [fname | ] [lvl | ] [stdio | ] [fileio | ]];
    simpl Engine.attr in H; rewrite ?ret_bind in H;
    try discriminate H;
    try (apply bind_Ret_inv in H as ([] & w1 & E1 & H); rewrite ?ret_bind in H;
         unfold mbind at 1, M_bind at 1, now_date at 1 in H;
         rewrite ?ret_bind in H; discriminate H).
  apply bind_Ret_inv in H as ([] & w1 & E1 & H). rewrite ret_bind in H.
  unfold mbind at 1, M_bind at 1, now_date at 1 in H.
  rewrite !ret_bind in H. injection H as <- <-.
  pose proof (create_dir_quiet fpath w) as Q. rewrite E1 in Q. cbn [snd] in Q.
  exists fpath, fname, lvl, stdio, fileio.
  split; [reflexivity | ]. split.
  - destruct Q as (_ & _ & _ & _ & ->). reflexivity.
  - split; [eapply create_dir_ret; exact E1 | exact Q].
Qed.

(** X19: When its settings are loaded and the log directory can be ensured,
    [set_logger] returns: the handle writes to the file named by the base
    name, the date and the extension [.log], in the stored directory, with
    the stored level and sinks; the directory exists afterwards and no
    file was written. *)
Theorem set_logger_handle (self : Engine.t) (w : world) (fpath fname : string)
    (lvl : level) (stdio fileio : bool) :
  Engine.engineconf self
    = Engine.MkConf (Some fpath) (Some fname) (Some lvl) (Some stdio) (Some fileio) ->
  creatable w fpath ->
  exists self' w',
    Engine.set_logger self w = (Ret self', w')
    /\ Engine.get_logger self'
       = Some (MkLogger fpath (fname ++ "_" ++ today w ++ ".log") lvl stdio fileio)
    /\ Engine.engineconf self' = Engine.engineconf self
    /\ files w' !! fpath = Some Dir
    /\ writes w' = writes w.
Proof.
  intros Hconf Hc.
  destruct (set_logger_ok self w _ _ _ _ _ Hconf Hc) as (w' & E & Hext).
  eexists _, w'. split; [exact E | ].
  split; [reflexivity | ]. split; [reflexivity | ].
  split; [ | apply Hext].
  destruct (set_logger_inv _ _ _ _ E) as (fp & fn & l & so & fo & Hc' & _ & Hd & _).
  rewrite Hconf in Hc'. injection Hc' as <- _ _ _ _. exact Hd.
Qed.

(** Default settings, on the day the world is in, in the empty world. *)
Lemma set_logger_handle_witness :
  let self := Engine.MkEngine (PyBool true) false default_conf (Some "game.ini") None in
  exists self' w',
    Engine.set_logger self empty_world = (Ret self', w')
    /\ Engine.get_logger self'
       = Some (MkLogger "./logs" ("engine" ++ "_" ++ today empty_world ++ ".log")
                 DEBUG false false)
    /\ Engine.engineconf self' = Engine.engineconf self
    /\ files w' !! "./logs" = Some Dir
    /\ writes w' = writes empty_world.
Proof.
  intros self.
  apply (set_logger_handle self empty_world "./logs" "engine" DEBUG false false).
  - reflexivity.
  - right. split; [reflexivity | discriminate].
Defined.

(** X20: Every client call leaves the configuration of the engine as it is:
    [set_logger] replaces the handle and nothing else, the other calls
    change nothing. *)
Theorem calls_keep_configuration (cs : list call) (e e' : Engine.t) (w w' : world) :
  run cs e w = (Ret e', w') ->
  Engine.engineconf e' = Engine.engineconf e
  /\ Engine.gameconf e' = Engine.gameconf e
  /\ Engine._enable_logger e' = Engine._enable_logger e
  /\ Engine._init e' = Engine._init e.
Proof.
  revert e w. induction cs as [ | c cs IH]; simpl; intros e w H.
  - injection H as <- _. auto.
  - apply bind_Ret_inv in H as (e1 & w1 & E1 & H).
    apply IH in H. destruct H as (H1 & H2 & H3 & H4).
    assert (X : exists l, e1 = Engine.with_logger l e).
    { destruct c; simpl in E1.
      - injection E1 as <- _. exists (Engine._logger e). destruct e; reflexivity.
      - apply set_logger_inv in E1 as (? & ? & ? & ? & ? & _ & -> & _). eauto.
      - apply bind_Ret_inv in E1 as ([] & w2 & _ & E1). injection E1 as <- _.
        exists (Engine._logger e). destruct e; reflexivity. }
    destruct X as [l ->]. simpl in *. auto.
Qed.

(** The seeded engine, given a logger by hand and run for one turn. *)
Lemma calls_keep_configuration_witness :
  let e := Engine.MkEngine (PyBool true) false default_conf (Some "game.ini") None in
  let w := World ∅ [] "2020-05-08" [] ["no"] [] 1 in
  let r := run [CallSetLogger; CallMainloopTurn; CallGetLogger] e w in
  exists e', r = (Ret e', snd r)
    /\ Engine.engineconf e' = Engine.engineconf e
    /\ Engine.gameconf e' = Engine.gameconf e
    /\ Engine._enable_logger e' = Engine._enable_logger e
    /\ Engine._init e' = Engine._init e.
Proof.
  intros e w r.
  exists (Engine.with_logger
            (Some (MkLogger "./logs" "engine_2020-05-08.log" DEBUG false false)) e).
  assert (H : r = (Ret (Engine.with_logger
                          (Some (MkLogger "./logs" "engine_2020-05-08.log"
                                   DEBUG false false)) e), snd r))
    by (vm_compute; reflexivity).
  split; [exact H | ].
  exact (calls_keep_configuration _ _ _ _ _ H).
Defined.

(** ** What every returned construction guarantees *)

(** When the bootstrap step returns on a path, the path holds a file that
    is not empty and its directory part is a directory. *)
Lemma bootstrap_ensures (self self' : Engine.t) (path : string) (w w' : world) :
  Engine.gameconf self = Some path ->
  Engine.bootstrap self w = (Ret self', w') ->
  files w' !! dirpart path = Some Dir
  /\ exists c, files w' !! path = Some (File c) /\ c <> EmptyString.
Proof.
  intros Hgc H. unfold Engine.bootstrap in H. rewrite Hgc in H.
  fold (dirpart path) in H.
  apply bind_Ret_inv in H as ([] & w1 & E1 & H).
  apply bind_Ret_inv in H as ([] & w2 & E2 & H).
  apply bind_Ret_inv in H as (n & w3 & E3 & H).
  pose proof (create_dir_ret _ _ _ E1) as Hd1.
  pose proof (create_file_extends path w1) as X2. unfold post in X2.
  rewrite E2 in X2. cbn [snd] in X2.
  pose proof (extends_lookup _ _ _ _ X2 Hd1) as Hd2.
  destruct (create_file_ret _ _ _ E2) as [c0 Hc0].
  destruct (stat_size_ret _ _ _ _ E3) as [Hf3 Hn].
  specialize (Hn c0 Hc0). subst n.
  destruct (Py.len c0 =? 0) eqn:Hz.
  - apply len_zero in Hz. subst c0.
    destruct (create_config_spec self path w3 Hgc) as (w4 & E4 & Hf4 & Hother).
    { rewrite Hf3. exact Hc0. }
    rewrite E4 in H. injection H as _ <-.
    split.
    + rewrite Hother, Hf3; [exact Hd2 | ]. intros Heq. congruence.
    + exists (ConfigParser.write documented_config).
      split; [exact Hf4 | exact documented_text_nonempty].
  - pose proof (parse_config_spec self path w3 Hgc) as X. unfold post in X.
    rewrite H in X. cbn [fst snd] in X. destruct X as [[_ Hf4] _].
    rewrite Hf4, Hf3. split; [exact Hd2 | ].
    exists c0. split; [exact Hc0 | ].
    intros ->. discriminate Hz.
Qed.

(** X9: Every construction on a path that returns an engine leaves the
    configuration file in place and not empty, and the directory part of
    the path in place as a directory. *)
Theorem init_ensures_file_and_directory (path : string) (v : pyval) (w w' : world)
    (e : Engine.t) :
  Engine.__init__ (Some path) v w = (Ret e, w') ->
  files w' !! Py.slice_to path (Py.rfind path sep) = Some Dir
  /\ exists c, files w' !! path = Some (File c) /\ c <> EmptyString.
Proof.
  intros H.
  assert (Hv : exists b, v = PyBool b).
  { destruct v as [ | b | n | s | t]; try discriminate H. eauto. }
  destruct Hv as [b ->]. rewrite init_bool in H.
  apply bind_Ret_inv in H as (self1 & w1 & E1 & E2).
  destruct (bootstrap_ensures
              (Engine.MkEngine (PyBool b) false Engine.unset (Some path) None)
              self1 path w w1 eq_refl E1) as (Hd & c & Hc & Hne).
  fold (dirpart path).
  match type of E2 with
  | activation ?s w1 = _ => pose proof (activation_post s w1) as X
  end.
  apply (fun X => post_inv _ _ _ _ _ X E2) in X. destruct X as [Hext _].
  split; [eapply extends_lookup; eassumption | ].
  exists c. split; [eapply extends_lookup; eassumption | exact Hne].
Qed.

(** The first construction on [config/game.ini] in the empty world. *)
Lemma init_ensures_file_and_directory_witness :
  let r := Engine.__init__ (Some "config/game.ini") (PyBool false) empty_world in
  let e := Engine.MkEngine (PyBool false) false Engine.unset
             (Some "config/game.ini") None in
  r = (Ret e, snd r)
  /\ files (snd r) !! Py.slice_to "config/game.ini" (Py.rfind "config/game.ini" sep)
     = Some Dir
  /\ exists c, files (snd r) !! "config/game.ini" = Some (File c) /\ c <> EmptyString.
Proof.
  intros r e.
  assert (H : r = (Ret e, snd r)) by (vm_compute; reflexivity).
  split; [exact H | ].
  exact (init_ensures_file_and_directory "config/game.ini" (PyBool false)
           empty_world (snd r) e H).
Defined.

(** X16: With the logger off the constructor loads nothing: whatever the path
    and whatever the file holds, the engine it returns has no setting and
    no logger handle, and nothing was logged, printed or read from the
    terminal. *)
Theorem init_logger_off_loads_nothing (gameconf : option string) (w w' : world)
    (e : Engine.t) :
  Engine.__init__ gameconf (PyBool false) w = (Ret e, w') ->
  e = Engine.MkEngine (PyBool false) false Engine.unset gameconf None
  /\ logged w' = logged w /\ stdin w' = stdin w /\ stdout w' = stdout w.
Proof.
  rewrite init_bool. intros H.
  apply bind_Ret_inv in H as (self1 & w1 & E1 & E2).
  pose proof (bootstrap_quiet
                (Engine.MkEngine (PyBool false) false Engine.unset gameconf None) w) as Q.
  rewrite E1 in Q. cbn [snd] in Q.
  apply bootstrap_inv in E1. simpl in E1.
  assert (Hself : self1 = Engine.MkEngine (PyBool false) false Engine.unset gameconf None).
  { destruct gameconf; exact E1. }
  subst self1. unfold activation in E2. simpl in E2. injection E2 as <- <-.
  destruct Q as (Q1 & Q2 & Q3 & _). auto.
Qed.

(** The first construction on [config/game.ini] in the empty world. *)
Lemma init_logger_off_loads_nothing_witness :
  let r := Engine.__init__ (Some "config/game.ini") (PyBool false) empty_world in
  let e := Engine.MkEngine (PyBool false) false Engine.unset
             (Some "config/game.ini") None in
  r = (Ret e, snd r)
  /\ logged (snd r) = logged empty_world /\ stdin (snd r) = stdin empty_world
  /\ stdout (snd r) = stdout empty_world.
Proof.
  intros r e.
  assert (H : r = (Ret e, snd r)) by (vm_compute; reflexivity).
  split; [exact H | ].
  exact (proj2 (init_logger_off_loads_nothing (Some "config/game.ini")
                  empty_world (snd r) e H)).
Defined.

(** X17: A construction with the logger enabled that returns has handed
    exactly one record to the logger: the line that names the log
    directory, at level INFO. The handle writes into that directory, which
    exists. *)
Theorem init_logs_startup_line (gameconf : option string) (w w' : world)
    (e : Engine.t) :
  Engine.__init__ gameconf (PyBool true) w = (Ret e, w') ->
  exists lg fpath,
    Engine.get_logger e = Some lg
    /\ Engine.log_fpath (Engine.engineconf e) = Some fpath
    /\ lg_fpath lg = fpath
    /\ files w' !! fpath = Some Dir
    /\ logged w' = (logged w ++ [(lg, INFO, ("Logging information : " ++ fpath)%string)])%list.
Proof.
  rewrite init_bool. intros H.
  apply bind_Ret_inv in H as (self1 & w1 & E1 & E2).
  pose proof (bootstrap_quiet
                (Engine.MkEngine (PyBool true) false Engine.unset gameconf None) w) as Q.
  rewrite E1 in Q. cbn [snd] in Q.
  apply bootstrap_inv in E1. simpl in E1.
  assert (Hen : truthy (Engine._enable_logger (Engine.with_logger None self1)) = true).
  { destruct gameconf; [destruct E1 as (c & -> & _) | subst self1]; reflexivity. }
  unfold activation in E2. rewrite Hen in E2.
  apply bind_Ret_inv in E2 as (self2 & w2 & E2 & E3).
  apply set_logger_inv in E2
    as (fpath & fname & lvl & stdio & fileio & Hconf & -> & Hd & Q2).
  cbn [Engine.with_logger Engine.engineconf] in E3, Hconf.
  rewrite Hconf in E3. simpl Engine.attr in E3. rewrite ret_bind in E3.
  apply bind_Ret_inv in E3 as ([] & w3 & E3 & E4). injection E4 as <- <-.
  unfold Engine.logger_info in E3. simpl in E3. unfold base_util.info in E3.
  assert (Hlvl : (level_no lvl <=? level_no INFO) = true) by (destruct lvl; reflexivity).
  simpl lg_level in E3. rewrite Hlvl in E3. injection E3 as <-.
  eexists _, fpath. split; [reflexivity | ].
  split; [simpl; rewrite Hconf; reflexivity | ].
  split; [reflexivity | ]. split; [exact Hd | ].
  simpl. destruct Q2 as (-> & _). destruct Q as (-> & _). reflexivity.
Qed.

(** The first construction with the logger enabled, in the empty world. *)
Lemma init_logs_startup_line_witness :
  let r := Engine.__init__ (Some "config/game.ini") (PyBool true) empty_world in
  let lg := MkLogger "./logs" "engine_2020-05-08.log" DEBUG false false in
  let e := Engine.MkEngine (PyBool true) false default_conf (Some "config/game.ini")
             (Some lg) in
  r = (Ret e, snd r)
  /\ exists lg fpath,
       Engine.get_logger e = Some lg
       /\ Engine.log_fpath (Engine.engineconf e) = Some fpath
       /\ lg_fpath lg = fpath
       /\ files (snd r) !! fpath = Some Dir
       /\ logged (snd r)
          = (logged empty_world ++ [(lg, INFO, ("Logging information : " ++ fpath)%string)])%list.
Proof.
  intros r lg e.
  assert (H : r = (Ret e, snd r)) by (vm_compute; reflexivity).
  split; [exact H | ].
  exact (init_logs_startup_line (Some "config/game.ini") empty_world (snd r) e H).
Defined.

(** ** The one write of the seeding *)

Lemma open_write_writes (p text : string) (w : world) :
  writes (snd (open_write p text w)) = (writes w ++ [IoWrite p])%list.
Proof.
  unfold open_write, mbind, M_bind, trace, node_at, put_node, raise, mret, M_ret,
    set_files. simpl.
  destruct (files w !! p) as [[ | c] | ]; simpl;
    unfold writes; simpl; rewrite List.filter_app; reflexivity.
Qed.

Lemma create_config_writes (self : Engine.t) (path : string) (w : world) :
  Engine.gameconf self = Some path ->
  files w !! path = Some (File EmptyString) ->
  writes (snd (Engine.__create_config self w)) = (writes w ++ [IoWrite path])%list.
Proof.
  intros Hgc Hfile.
  pose proof (read_extends ConfigParser.new path w) as R. unfold post in R.
  unfold Engine.__create_config, Engine.__get_conf_parser. rewrite Hgc.
  rewrite ret_bind. simpl Engine.attr. rewrite ret_bind.
  destruct (ConfigParser.read ConfigParser.new path w) as [o w1] eqn:E.
  simpl in R. destruct R as [[[_ Hw1] _] Hval]. specialize (Hval _ Hfile).
  simpl in Hval. subst o.
  rewrite (bind_Ret _ _ _ _ _ E). cbv zeta.
  do 6 (erewrite lift_bind_Ok by (vm_compute; reflexivity)).
  unfold ConfigParser.write_file.
  match goal with
  | |- context [open_write path ?t] =>
      pose proof (open_write_writes path t w1) as Hw2;
      destruct (open_write path t w1) as [[[] | e | ] w2] eqn:E2
  end; cbn [snd] in Hw2.
  - rewrite (bind_Ret _ _ _ _ _ E2).
    destruct (truthy (Engine._enable_logger self)); simpl; congruence.
  - rewrite (bind_Exc _ _ _ _ _ E2). simpl. congruence.
  - rewrite (bind_Spin _ _ _ _ E2). simpl. congruence.
Qed.

Lemma bootstrap_seeds_writes (self : Engine.t) (path : string) (w : world) :
  Engine.gameconf self = Some path ->
  files w !! path = None \/ files w !! path = Some (File EmptyString) ->
  path <> EmptyString ->
  creatable w (dirpart path) ->
  writes (snd (Engine.bootstrap self w)) = (writes w ++ [IoWrite path])%list.
Proof.
  intros Hgc Hfile Hne Hdir.
  pose proof (dirpart_neq path Hne) as Hdp.
  unfold Engine.bootstrap. rewrite Hgc. fold (dirpart path).
  destruct (create_dir_ok _ _ Hdir) as (w1 & E1 & Hf1 & [_ Hw1]).
  rewrite (bind_Ret _ _ _ _ _ E1).
  assert (H1 : files w1 !! path = files w !! path).
  { rewrite Hf1. apply lookup_insert_ne. exact Hdp. }
  destruct (create_file_ok path w1) as (w2 & E2 & Hf2 & [_ Hw2]).
  { rewrite H1. destruct Hfile as [-> | ->]; [left; auto | right; eauto]. }
  rewrite (bind_Ret _ _ _ _ _ E2).
  assert (H2 : files w2 !! path = Some (File EmptyString)).
  { rewrite Hf2, H1. destruct Hfile as [-> | E]; rewrite ?E.
    - apply lookup_insert_eq.
    - rewrite H1. exact E. }
  destruct (stat_size_ok _ _ _ H2) as (w3 & E3 & Hf3 & [_ Hw3]).
  rewrite (bind_Ret _ _ _ _ _ E3).
  change (Py.len EmptyString =? 0) with true. cbv iota.
  rewrite (create_config_writes self path w3 Hgc) by (rewrite Hf3; exact H2).
  congruence.
Qed.

(** X10: Seeding writes once: a construction on a path whose file is absent or
    empty adds exactly one write to the trace, the write of the
    configuration file, whether the logger is enabled or not and however
    the construction ends. *)
Theorem seeding_writes_once (path : string) (b : bool) (w : world) :
  files w !! path = None \/ files w !! path = Some (File EmptyString) ->
  path <> EmptyString ->
  creatable w (dirpart path) ->
  writes (snd (Engine.__init__ (Some path) (PyBool b) w))
  = (writes w ++ [IoWrite path])%list.
Proof.
  intros Hfile Hne Hdir.
  set (self0 := Engine.MkEngine (PyBool b) false Engine.unset (Some path) None).
  pose proof (bootstrap_seeds_writes self0 path w eq_refl Hfile Hne Hdir) as Hw.
  rewrite init_bool. fold self0.
  unfold mbind, M_bind.
  destruct (Engine.bootstrap self0 w) as [[self1 | e | ] w1]; cbn [snd] in Hw;
    [ | exact Hw | exact Hw].
  pose proof (activation_post (Engine.with_logger None self1) w1) as X.
  unfold post in X. destruct X as [[_ X] _]. congruence.
Qed.

(** Seeding [config/game.ini] in the empty world, with the logger enabled. *)
Lemma seeding_writes_once_witness :
  writes (snd (Engine.__init__ (Some "config/game.ini") (PyBool true) empty_world))
  = (writes empty_world ++ [IoWrite "config/game.ini"])%list.
Proof.
  apply (seeding_writes_once "config/game.ini" true empty_world).
  - left. reflexivity.
  - discriminate.
  - right. split; [reflexivity | vm_compute; discriminate].
Defined.

(** ** Instances of the earlier lemmas *)

(** The engine constructed with the logger enabled in the empty world is
    ready for the run loop. *)
Lemma init_logger_ready_witness :
  let r := Engine.__init__ (Some "config/game.ini") (PyBool true) empty_world in
  let e := Engine.MkEngine (PyBool true) false default_conf (Some "config/game.ini")
             (Some (MkLogger "./logs" "engine_2020-05-08.log" DEBUG false false)) in
  r = (Ret e, snd r) /\ logger_ready e.
Proof.
  intros r e.
  assert (H : r = (Ret e, snd r)) by (vm_compute; reflexivity).
  split; [exact H | ].
  exact (init_logger_ready (Some "config/game.ini") (PyBool true) empty_world (snd r) e H).
Defined.

(** Seeding without logger in the empty world, then constructing again
    with the logger enabled. *)
Lemma seeded_file_roundtrip_witness :
  exists e w2,
    Engine.__init__ (Some "config/game.ini") (PyBool true) seeded_world = (Ret e, w2)
    /\ Engine.engineconf e = default_conf
    /\ files w2 !! "config/game.ini"
       = Some (File (ConfigParser.write documented_config)).
Proof.
  apply (seeded_file_roundtrip "config/game.ini" false empty_world seeded_world
           (fst (Engine.__init__ (Some "config/game.ini") (PyBool false) empty_world))).
  - left. reflexivity.
  - discriminate.
  - right. split; [reflexivity | vm_compute; discriminate].
  - vm_compute. reflexivity.
  - right. split; [vm_compute; reflexivity | discriminate].
Defined.

(** ** Where the validation errors can come from *)

Lemma interpolate_some_loop (depth : nat) (sd df : ConfigParser.options) (rest : string) :
  ConfigParser.interpolate_some (S depth) sd df rest
  = interpolate_loop depth sd df (S (String.length rest)) rest.
Proof. reflexivity. Qed.

Lemma rclean_Ok {A : Type} (a : A) : rclean (Ok a).
Proof. intros e H. discriminate H. Qed.

Lemma rclean_Raise {A : Type} (e : exn) :
  validation_error e = false -> rclean (Raise (A := A) e).
Proof. intros He e' H. injection H as <-. exact He. Qed.

Lemma rclean_bind {A B : Type} (r : res A) (f : A -> res B) :
  rclean r -> (forall a, rclean (f a)) -> rclean (r ≫= f).
Proof.
  intros Hr Hf e. destruct r as [e' | a]; simpl.
  - intros H. injection H as <-. apply Hr. reflexivity.
  - apply Hf.
Qed.

Lemma interpolate_loop_clean (depth : nat) (sd df : ConfigParser.options) :
  (forall v, rclean (ConfigParser.interpolate_some depth sd df v)) ->
  forall n rest, rclean (interpolate_loop depth sd df n rest).
Proof.
  intros IH n. induction n as [ | n IHn]; intros rest.
  - destruct rest; apply rclean_Ok.
  - destruct rest as [ | c rest]; [apply rclean_Ok | ].
    assert (Hgen : rclean (interpolate_loop depth sd df n rest
                           ≫= fun tl => Ok (String c tl))).
    { apply rclean_bind; [apply IHn | intros; apply rclean_Ok]. }
    destruct c as [[] [] [] [] [] [] [] []]; try exact Hgen.
    clear Hgen.
    destruct rest as [ | c2 rest2]; [apply rclean_Raise; reflexivity | ].
    destruct c2 as [[] [] [] [] [] [] [] []];
      try (apply rclean_Raise; reflexivity).
    + apply rclean_bind; [apply IHn | intros; apply rclean_Ok].
    + cbn [interpolate_loop].
      destruct (ConfigParser.match_key _) as [[name rest'] | ];
        [ | apply rclean_Raise; reflexivity].
      cbv zeta.
      destruct (ConfigParser.chain_get _ _ _) as [v | ];
        [ | apply rclean_Raise; reflexivity].
      apply rclean_bind.
      * destruct (Py.contains v "%"); [apply IH | apply rclean_Ok].
      * intros s. apply rclean_bind; [apply IHn | intros; apply rclean_Ok].
Qed.

Lemma interpolate_some_clean (depth : nat) (sd df : ConfigParser.options) (rest : string) :
  rclean (ConfigParser.interpolate_some depth sd df rest).
Proof.
  revert rest. induction depth as [ | depth IH]; intros rest.
  - apply rclean_Raise. reflexivity.
  - rewrite interpolate_some_loop. apply interpolate_loop_clean. exact IH.
Qed.

Lemma getitem_clean (cp : ConfigParser.t) (section option : string) :
  rclean (ConfigParser.getitem cp section option).
Proof.
  unfold ConfigParser.getitem.
  destruct (_ && _); [apply rclean_Raise; reflexivity | ].
  destruct (negb _); [apply rclean_Raise; reflexivity | ].
  unfold ConfigParser.get. apply rclean_bind.
  - destruct (Dict.get section _); [apply rclean_Ok | ].
    destruct (ConfigParser.streq _ _); [apply rclean_Ok | apply rclean_Raise; reflexivity].
  - intros sd. destruct (ConfigParser.chain_get _ _ _);
      [apply interpolate_some_clean | apply rclean_Raise; reflexivity].
Qed.

Lemma setitem_clean (cp : ConfigParser.t) (section option value : string) :
  rclean (ConfigParser.setitem cp section option value).
Proof.
  unfold ConfigParser.setitem.
  destruct (_ && _); [apply rclean_Raise; reflexivity | ].
  unfold ConfigParser.set. apply rclean_bind.
  - destruct (ConfigParser.streq value EmptyString); [apply rclean_Ok | ].
    unfold ConfigParser.before_set.
    destruct (Py.contains _ _); [apply rclean_Raise; reflexivity | apply rclean_Ok].
  - intros v. destruct (_ || _); [apply rclean_Ok | ].
    destruct (Dict.get section _); [apply rclean_Ok | apply rclean_Raise; reflexivity].
Qed.

Lemma read_line_clean (st : ConfigParser.rstate) (line : string) :
  rclean (ConfigParser.read_line st line).
Proof.
  unfold ConfigParser.read_line, ConfigParser.read_header, ConfigParser.read_option.
  repeat match goal with
         | |- rclean (Ok _) => apply rclean_Ok
         | |- rclean (Raise _) => apply rclean_Raise; reflexivity
         | |- rclean (if ?b then _ else _) => destruct b
         | |- rclean (match ?x with _ => _ end) => destruct x
         | |- rclean (let _ := _ in _) => cbv zeta
         end.
Qed.

Lemma read_lines_clean (ls : list string) (st : ConfigParser.rstate) :
  rclean (ConfigParser.read_lines st ls).
Proof.
  revert st. induction ls as [ | line ls IH]; intros st; simpl.
  - apply rclean_Ok.
  - apply rclean_bind; [apply read_line_clean | exact IH].
Qed.

Lemma _read_clean (cp : ConfigParser.t) (text : string) :
  rclean (ConfigParser._read cp text).
Proof.
  unfold ConfigParser._read. apply rclean_bind; [apply read_lines_clean | ].
  intros st. destruct (ConfigParser.e st); [apply rclean_Raise; reflexivity | apply rclean_Ok].
Qed.

Lemma mclean_ret {A : Type} (a : A) : mclean (mret a).
Proof. intros w. exact I. Qed.

Lemma mclean_raise {A : Type} (e : exn) :
  validation_error e = false -> mclean (raise (A := A) e).
Proof. intros He w. exact He. Qed.

Lemma mclean_bind {A B : Type} (m : M A) (f : A -> M B) :
  mclean m -> (forall a, mclean (f a)) -> mclean (m ≫= f).
Proof.
  intros Hm Hf w. specialize (Hm w). unfold mbind, M_bind.
  destruct (m w) as [[a | e | ] w1]; simpl in *; [apply Hf | exact Hm | exact I].
Qed.

Lemma mclean_lift {A : Type} (r : res A) : rclean r -> mclean (lift r).
Proof.
  intros Hr. destruct r as [e | a]; [ | apply mclean_ret].
  apply mclean_raise. apply Hr. reflexivity.
Qed.

Lemma mclean_attr {A : Type} (o : option A) : mclean (Engine.attr o).
Proof. destruct o; [apply mclean_ret | apply mclean_raise; reflexivity]. Qed.

Lemma mclean_state {A : Type} (m : M A) :
  (forall w, match fst (m w) with Exc e => validation_error e = false | _ => True end) ->
  mclean m.
Proof. intros H w. apply H. Qed.

Ltac mclean_step :=
  first
    [ apply mclean_ret
    | apply mclean_raise; reflexivity
    | apply mclean_attr
    | apply mclean_lift; first [apply getitem_clean | apply setitem_clean | apply _read_clean]
    | apply mclean_state; intros ?; reflexivity
    | apply mclean_bind; [ | intros ? ] ].

Lemma create_dir_clean (d : string) : mclean (base_util.create_dir d).
Proof.
  unfold base_util.create_dir, trace, node_at, put_node.
  mclean_step; [mclean_step | ]. mclean_step; [mclean_step | ].
  destruct a0 as [[ | c] | ]; try mclean_step.
  destruct (String.eqb d EmptyString); repeat mclean_step.
Qed.

Lemma create_file_clean (p : string) : mclean (base_util.create_file p).
Proof.
  unfold base_util.create_file, trace, node_at, put_node.
  mclean_step; [mclean_step | ]. mclean_step; [mclean_step | ].
  destruct a0 as [[ | c] | ]; try mclean_step.
  destruct (String.eqb p EmptyString); repeat mclean_step.
Qed.

Lemma stat_size_clean (p : string) : mclean (stat_size p).
Proof.
  unfold stat_size, trace, node_at.
  mclean_step; [mclean_step | ]. mclean_step; [mclean_step | ].
  destruct a0 as [[ | c] | ]; mclean_step.
Qed.

Lemma open_write_clean (p text : string) : mclean (open_write p text).
Proof.
  unfold open_write, trace, node_at, put_node.
  mclean_step; [mclean_step | ]. mclean_step; [mclean_step | ].
  destruct a0 as [[ | c] | ]; mclean_step.
Qed.

Lemma read_clean (cp : ConfigParser.t) (p : string) : mclean (ConfigParser.read cp p).
Proof.
  unfold ConfigParser.read, trace, node_at.
  mclean_step; [mclean_step | ]. mclean_step; [mclean_step | ].
  destruct a0 as [[ | c] | ]; mclean_step.
Qed.

Lemma parse_config_clean (self : Engine.t) : mclean (Engine.__parse_config self).
Proof.
  unfold Engine.__parse_config, Engine.__get_conf_parser.
  mclean_step; [mclean_step | ]. mclean_step; [mclean_step | ].
  apply mclean_bind; [apply read_clean | intros cp].
  destruct (truthy (Engine._enable_logger self)); repeat mclean_step.
Qed.

Lemma create_config_clean (self : Engine.t) : mclean (Engine.__create_config self).
Proof.
  unfold Engine.__create_config, Engine.__get_conf_parser.
  mclean_step; [mclean_step | ]. mclean_step; [mclean_step | ].
  apply mclean_bind; [apply read_clean | intros cp]. cbv zeta.
  do 6 (mclean_step; [mclean_step | ]).
  apply mclean_bind; [apply open_write_clean | intros _].
  destruct (truthy (Engine._enable_logger self)); mclean_step.
Qed.

Lemma bootstrap_clean (self : Engine.t) : mclean (Engine.bootstrap self).
Proof.
  unfold Engine.bootstrap.
  destruct (Engine.gameconf self) as [path | ]; [ | mclean_step].
  apply mclean_bind; [apply create_dir_clean | intros _].
  apply mclean_bind; [apply create_file_clean | intros _].
  apply mclean_bind; [apply stat_size_clean | intros n].
  destruct (n =? 0); [apply create_config_clean | apply parse_config_clean].
Qed.

Lemma logger_info_clean (self : Engine.t) (message : string) :
  mclean (Engine.logger_info self message).
Proof.
  unfold Engine.logger_info. destruct (Engine._logger self); [ | mclean_step].
  intros w. exact I.
Qed.

Lemma activation_clean (self : Engine.t) : mclean (activation self).
Proof.
  unfold activation. destruct (truthy (Engine._enable_logger self)); [ | mclean_step].
  apply mclean_bind; [ | intros self1].
  - unfold Engine.set_logger, base_util.setup_logger, now_date.
    mclean_step; [mclean_step | ].
    apply mclean_bind; [apply create_dir_clean | intros _].
    repeat mclean_step.
  - mclean_step; [mclean_step | ].
    apply mclean_bind; [apply logger_info_clean | intros _]. mclean_step.
Qed.

(** The constructor raises a validation error only for an argument that
    is not a boolean. *)
Lemma init_bool_clean (gameconf : option string) (b : bool) :
  mclean (Engine.__init__ gameconf (PyBool b)).
Proof.
  intros w. rewrite init_bool. revert w.
  apply mclean_bind; [apply bootstrap_clean | intros self1; apply activation_clean].
Qed.

Lemma mainloop_turn_clean (self : Engine.t) : mclean (Engine._mainloop self).
Proof.
  unfold Engine._mainloop.
  apply mclean_bind; [ | intros _].
  { destruct (truthy (Engine._enable_logger self));
      [apply logger_info_clean | mclean_step]. }
  apply mclean_bind; [ | intros _].
  { intros w. unfold wait_for_interrupt. destruct (interrupts w); exact I. }
  apply mclean_bind; [ | intros choice].
  { intros w. unfold input. destruct (stdin w); simpl; [reflexivity | exact I]. }
  destruct (String.eqb choice EmptyString); [mclean_step | ].
  destruct (Py.lower choice) as [ | c r]; [mclean_step | ].
  destruct (Ascii.eqb c "y"); mclean_step.
Qed.

Lemma mainloop_turns_clean (n : nat) (self : Engine.t) :
  mclean (Engine.mainloop_turns n self).
Proof.
  induction n as [ | n IH]; simpl; [mclean_step | ].
  apply mclean_bind; [apply mainloop_turn_clean | intros _; exact IH].
Qed.

(** ** [main] *)

Lemma mainloop_turns_no_return (self : Engine.t) (k : nat) (w : world) :
  (interrupts w < k)%nat -> fst (Engine.mainloop_turns k self w) <> Ret tt.
Proof.
  revert w. induction k as [ | k IH]; intros w Hlt; [lia | ].
  simpl. unfold mbind, M_bind.
  destruct (Engine._mainloop self w) as [[[] | e | ] w1] eqn:E;
    [ | simpl; discriminate | simpl; discriminate].
  apply IH. apply mainloop_turn_uses_interrupt in E. lia.
Qed.

(** The path [main] constructs the engine on. *)
Lemma main_path (cwd : string) :
  cwd ++ sep ++ "config" ++ sep ++ "game.ini" = default_gameconf cwd.
Proof. reflexivity. Qed.

(** [main] in terms of the constructor and the run loop: the two branches
    on the build mode differ in the flag only. *)
Lemma main_body (str : exn -> string) (cwd : string) (gameconf : option string)
    (build_mode : bool) :
  Main.main str cwd gameconf build_mode =
  (Main.try_except
     (Engine.__init__ (Some (default (default_gameconf cwd) gameconf))
        (PyBool build_mode) ≫= Engine.mainloop)
     [(Main.is_EnableLoggerTypeError, fun elterr => Main.print (str elterr));
      (Main.is_EnableLoggerValueError, fun elverr => Main.print (str elverr))]
   ≫= fun _ => mret 0).
Proof. destruct build_mode, gameconf; reflexivity. Qed.

(** X21: [main] never returns: the run ends with an exception that is not a
    validation error (the exit among them), or it spins. The two handlers
    of [main] never run, and [return 0] is never reached. *)
Theorem main_never_returns (str : exn -> string) (cwd : string)
    (gameconf : option string) (build_mode : bool) (w : world) :
  (forall z, fst (Main.main str cwd gameconf build_mode w) <> Ret z)
  /\ (forall e, fst (Main.main str cwd gameconf build_mode w) = Exc e ->
                validation_error e = false)
  /\ Main.main str cwd gameconf build_mode w =
     (match fst ((Engine.__init__ (Some (default (default_gameconf cwd) gameconf))
                    (PyBool build_mode) ≫= Engine.mainloop) w) with
      | Exc e => Exc e
      | _ => Spin
      end,
      snd ((Engine.__init__ (Some (default (default_gameconf cwd) gameconf))
              (PyBool build_mode) ≫= Engine.mainloop) w)).
Proof.
  set (path := default (default_gameconf cwd) gameconf).
  assert (Hclean : clean (fst ((Engine.__init__ (Some path) (PyBool build_mode)
                                ≫= Engine.mainloop) w))).
  { apply (mclean_bind _ _ (init_bool_clean (Some path) build_mode)).
    intros e w0. unfold Engine.mainloop. apply mainloop_turns_clean. }
  assert (Hret : fst ((Engine.__init__ (Some path) (PyBool build_mode)
                       ≫= Engine.mainloop) w) <> Ret tt).
  { unfold mbind, M_bind.
    destruct (Engine.__init__ (Some path) (PyBool build_mode) w) as [[e | x | ] w1];
      [ | discriminate | discriminate].
    unfold Engine.mainloop. apply mainloop_turns_no_return. lia. }
  assert (E : Main.main str cwd gameconf build_mode w =
              (match fst ((Engine.__init__ (Some path) (PyBool build_mode)
                           ≫= Engine.mainloop) w) with
               | Exc e => Exc e
               | _ => Spin
               end,
               snd ((Engine.__init__ (Some path) (PyBool build_mode)
                     ≫= Engine.mainloop) w))).
  { rewrite main_body. fold path.
    unfold mbind at 1, M_bind at 1, Main.try_except.
    destruct ((Engine.__init__ (Some path) (PyBool build_mode) ≫= Engine.mainloop) w)
      as [[[] | e | ] w1]; cbn [fst snd] in *.
    - congruence.
    - unfold validation_error in Hclean. apply orb_false_elim in Hclean as [H1 H2].
      simpl. rewrite H1, H2. reflexivity.
    - reflexivity. }
  split; [ | split; [ | exact E]].
  - intros z. rewrite E. cbn [fst]. destruct (fst _); discriminate.
  - intros e. rewrite E. cbn [fst].
    destruct (fst _) as [[] | e' | ]; try discriminate.
    intros H. injection H as <-. exact Hclean.
Qed.

(** [main] touches the disk through the constructor only. *)
Lemma main_files (str : exn -> string) (cwd : string) (gameconf : option string)
    (build_mode : bool) (w : world) :
  files (snd (Main.main str cwd gameconf build_mode w))
  = files (snd (Engine.__init__ (Some (default (default_gameconf cwd) gameconf))
                  (PyBool build_mode) w)).
Proof.
  rewrite main_body.
  set (path := default (default_gameconf cwd) gameconf).
  unfold mbind at 1, M_bind at 1, Main.try_except.
  unfold mbind at 1, M_bind at 1.
  destruct (Engine.__init__ (Some path) (PyBool build_mode) w) as [[e | x | ] w1];
    cbn [snd].
  - pose proof (mainloop_turns_same_disk (S (interrupts w1)) e w1) as [Hf _].
    unfold Engine.mainloop.
    destruct (Engine.mainloop_turns (S (interrupts w1)) e w1) as [[[] | x | ] w2];
      cbn [snd] in *; try exact Hf.
    simpl. destruct (Main.is_EnableLoggerTypeError x); [exact Hf | ].
    destruct (Main.is_EnableLoggerValueError x); exact Hf.
  - simpl. destruct (Main.is_EnableLoggerTypeError x); [reflexivity | ].
    destruct (Main.is_EnableLoggerValueError x); reflexivity.
  - reflexivity.
Qed.

Lemma init_seeds_files (path : string) (b : bool) (w : world) :
  files w !! path = None \/ files w !! path = Some (File EmptyString) ->
  path <> EmptyString ->
  creatable w (dirpart path) ->
  files (snd (Engine.__init__ (Some path) (PyBool b) w)) !! path
    = Some (File (ConfigParser.write documented_config))
  /\ files (snd (Engine.__init__ (Some path) (PyBool b) w)) !! dirpart path = Some Dir.
Proof.
  intros Hfile Hne Hdir.
  set (self0 := Engine.MkEngine (PyBool b) false Engine.unset (Some path) None).
  destruct (bootstrap_seeds self0 path w eq_refl Hfile Hne Hdir)
    as (w1 & E1 & Hf1 & Hd1 & _).
  rewrite init_bool. fold self0. rewrite (bind_Ret _ _ _ _ _ E1).
  match goal with
  | |- context [activation ?s w1] => pose proof (activation_post s w1) as X
  end.
  unfold post in X. destruct X as [Hext _].
  split; eapply extends_lookup; eassumption.
Qed.

(** X22: When no path is given, [main] works on [config/game.ini] under the
    current directory: where that file is absent or empty and the
    directory [config] can be ensured, the run leaves the directory in
    place and the file seeded with the documented configuration, in build
    mode and in release mode, however the run ends. *)
Theorem main_default_path (str : exn -> string) (cwd : string) (build_mode : bool)
    (w : world) :
  files w !! (cwd ++ "/config/game.ini") = None
    \/ files w !! (cwd ++ "/config/game.ini") = Some (File EmptyString) ->
  creatable w (cwd ++ "/config") ->
  files (snd (Main.main str cwd None build_mode w)) !! (cwd ++ "/config/game.ini")
    = Some (File (ConfigParser.write documented_config))
  /\ files (snd (Main.main str cwd None build_mode w)) !! (cwd ++ "/config") = Some Dir.
Proof.
  intros Hfile Hdir.
  assert (Hd : dirpart (cwd ++ "/config/game.ini") = cwd ++ "/config").
  { change (cwd ++ "/config/game.ini")
      with (cwd ++ ("/config" ++ sep ++ "game.ini")).
    rewrite <- append_assoc. apply dirpart_of_joined. reflexivity. }
  assert (Hne : cwd ++ "/config/game.ini" <> EmptyString).
  { destruct cwd; discriminate. }
  rewrite main_files. simpl default. unfold default_gameconf.
  rewrite <- Hd in Hdir.
  destruct (init_seeds_files _ build_mode w Hfile Hne Hdir) as [H1 H2].
  rewrite Hd in H2. auto.
Qed.

(** A run without arguments in [/home/dm], with nothing on disk. *)
Lemma main_default_path_witness :
  let w := empty_world in
  let r := Main.main (fun _ => "error") "/home/dm" None true w in
  files (snd r) !! ("/home/dm" ++ "/config/game.ini")
    = Some (File (ConfigParser.write documented_config))
  /\ files (snd r) !! ("/home/dm" ++ "/config") = Some Dir.
Proof.
  intros w r.
  apply (main_default_path (fun _ => "error") "/home/dm" true w).
  - left. reflexivity.
  - right. split; [reflexivity | discriminate].
Defined.

Lemma mainloop_turns_silent (self : Engine.t) (n : nat) (w : world) :
  truthy (Engine._enable_logger self) = false ->
  logged (snd (Engine.mainloop_turns n self w)) = logged w.
Proof.
  intros Hoff. revert w. induction n as [ | n IH]; intros w; [reflexivity | ].
  simpl. unfold mbind at 1, M_bind at 1.
  assert (H1 : logged (snd (Engine._mainloop self w)) = logged w).
  { set (keeps := fun w1 w2 : world => logged w2 = logged w1).
    assert (Hrefl : forall w0, keeps w0 w0) by reflexivity.
    assert (Htrans : forall w1 w2 w3, keeps w1 w2 -> keeps w2 w3 -> keeps w1 w3).
    { unfold keeps. intros. congruence. }
    assert (F : frames keeps (Engine._mainloop self)).
    { unfold Engine._mainloop. rewrite Hoff.
      apply (frames_bind _ Htrans); [apply (frames_ret _ Hrefl) | intros _].
      apply (frames_bind _ Htrans); [ | intros _].
      { intros w0. unfold wait_for_interrupt. destruct (interrupts w0); reflexivity. }
      apply (frames_bind _ Htrans); [ | intros choice].
      { intros w0. unfold input. destruct (stdin w0); reflexivity. }
      destruct (String.eqb choice EmptyString); [apply (frames_raise _ Hrefl) | ].
      destruct (Py.lower choice) as [ | c r]; [apply (frames_raise _ Hrefl) | ].
      destruct (Ascii.eqb c "y");
        [apply (frames_raise _ Hrefl) | apply (frames_ret _ Hrefl)]. }
    apply F. }
  destruct (Engine._mainloop self w) as [[[] | e | ] w1]; cbn [snd] in *;
    [ | exact H1 | exact H1].
  rewrite IH. exact H1.
Qed.

(** X23: In release mode nothing is ever logged: whatever the path, the disk
    and the terminal hold, and however the run ends, [main] hands no
    record to a logger. *)
Theorem main_release_mode_logs_nothing (str : exn -> string) (cwd : string)
    (gameconf : option string) (w : world) :
  logged (snd (Main.main str cwd gameconf false w)) = logged w.
Proof.
  rewrite main_body.
  set (path := default (default_gameconf cwd) gameconf).
  set (self0 := Engine.MkEngine (PyBool false) false Engine.unset (Some path) None).
  assert (Hinit : logged (snd (Engine.__init__ (Some path) (PyBool false) w)) = logged w
                  /\ forall e, fst (Engine.__init__ (Some path) (PyBool false) w) = Ret e ->
                               truthy (Engine._enable_logger e) = false).
  { rewrite init_bool. fold self0.
    pose proof (bootstrap_quiet self0 w) as Q.
    unfold mbind, M_bind.
    destruct (Engine.bootstrap self0 w) as [[self1 | x | ] w1] eqn:E1; cbn [snd] in Q;
      [ | split; [apply Q | discriminate] .. ].
    apply bootstrap_inv in E1. simpl in E1. subst self1.
    unfold activation. simpl. split; [apply Q | ].
    intros e H. injection H as <-. reflexivity. }
  destruct Hinit as [Hl Hoff].
  unfold mbind at 1, M_bind at 1, Main.try_except.
  unfold mbind at 1, M_bind at 1.
  destruct (Engine.__init__ (Some path) (PyBool false) w) as [[e | x | ] w1];
    cbn [fst snd] in *.
  - pose proof (mainloop_turns_silent e (S (interrupts w1)) w1 (Hoff e eq_refl)) as Hs.
    unfold Engine.mainloop.
    destruct (Engine.mainloop_turns (S (interrupts w1)) e w1) as [[[] | x | ] w2];
      cbn [snd] in *; [simpl; congruence | | congruence].
    simpl. destruct (Main.is_EnableLoggerTypeError x); [simpl; congruence | ].
    destruct (Main.is_EnableLoggerValueError x); simpl; congruence.
  - simpl. destruct (Main.is_EnableLoggerTypeError x); [exact Hl | ].
    destruct (Main.is_EnableLoggerValueError x); exact Hl.
  - exact Hl.
Qed.

(** ** Instances of the run-loop properties *)

(** An engine without logger and a world in which no interrupt comes. *)
Lemma mainloop_without_interrupt_witness :
  let self := Engine.MkEngine (PyBool false) false Engine.unset None None in
  let w := World ∅ [] "2020-05-08" [] ["y"] [] 0 in
  exists w',
    Engine.mainloop self w = (Spin, w')
    /\ stdin w' = stdin w /\ stdout w' = stdout w.
Proof.
  intros self w.
  apply (mainloop_without_interrupt self w).
  - intros H. discriminate H.
  - reflexivity.
Defined.

(** One interrupt and nothing left to read. *)
Lemma mainloop_end_of_input_witness :
  let self := Engine.MkEngine (PyBool false) false Engine.unset None None in
  let w := World ∅ [] "2020-05-08" [] [] [] 1 in
  exists w',
    Engine._mainloop self w = (Exc EOFError, w')
    /\ Engine.mainloop self w = (Exc EOFError, w')
    /\ stdout w' = (stdout w ++ ["Are you sure you want to exit? [Y/n] : "])%list
    /\ interrupts w' = O.
Proof.
  intros self w.
  apply (mainloop_end_of_input self w 0).
  - intros H. discriminate H.
  - reflexivity.
  - reflexivity.
Defined.

(** The responses no, n and Yes, with one more line typed ahead and five
    interrupts to come. *)
Lemma mainloop_first_confirmation_witness :
  let self := Engine.MkEngine (PyBool false) false Engine.unset None None in
  let w := World ∅ [] "2020-05-08" [] ["no"; "n"; "Yes"; "later"] [] 5 in
  exists w',
    Engine.mainloop self w = (Exc (SystemExit "Engine exiting"), w')
    /\ stdin w' = ["later"]
    /\ interrupts w' = (interrupts w - 3)%nat.
Proof.
  intros self w.
  apply (mainloop_first_confirmation self ["no"; "n"] "Yes" ["later"] w).
  - intros H. discriminate H.
  - repeat constructor;
      intros [H | (c & s & H & [Hc | Hc])];
      first [discriminate H | injection H as <- _; discriminate Hc].
  - right. exists "Y"%char, "es". split; [reflexivity | right; reflexivity].
  - reflexivity.
  - simpl. lia.
Defined.

(** An engine whose logger is enabled with both sinks off, two interrupts
    and the responses no and Yes: the run ends in the exit with the disk
    as it was. *)
Lemma mainloop_keeps_disk_witness :
  let self := Engine.MkEngine (PyBool true) false default_conf (Some "config/game.ini")
                (Some (MkLogger "./logs" "engine_2020-05-08.log" DEBUG false false)) in
  let w := World {["config/game.ini" := File (ConfigParser.write documented_config);
                   "config" := Dir; "./logs" := Dir]}
             [IoProbe "config"] "2020-05-08" [] ["no"; "Yes"] [] 2 in
  no_file_sink self
  /\ fst (Engine.mainloop self w) = Exc (SystemExit "Engine exiting")
  /\ files (snd (Engine.mainloop self w)) = files w
  /\ io (snd (Engine.mainloop self w)) = io w.
Proof.
  intros self w.
  assert (H : no_file_sink self).
  { intros _ lg Hlg. injection Hlg as <-. reflexivity. }
  split; [exact H | ].
  split; [vm_compute; reflexivity | ].
  exact (mainloop_keeps_disk self w H).
Defined.
